(** * render_static.engine : the static template engine

    A shallow embedding of [src/render_static/engine.py]
    ([StaticTemplateEngine] and its nested [TemplateConfig]) together with
    the properties of its configuration validation, backend resolution,
    template lookup, destination resolution and context layering.

    Python objects that the engine shares and mutates (configuration
    dictionaries, the class-level defaults) live in a store of dictionaries
    addressed by location; dictionaries keep their insertion order. The
    engine's methods run in a monad of state and exceptions in which what
    was done before an exception stays done.

    What lies outside the module is a parameter or is kept simple:
    - the host ([settings], [import_string], the backends and their
      templates) is a record of values and functions;
    - dictionary keys are strings, and so are the aliases of [engines];
    - paths follow [pathlib]'s POSIX flavour for construction from a string,
      the operator [/], [is_absolute] and [parent];
    - the file system is a tree of directories and regular files, without
      symbolic links, each known by its absolute path free of '..'; a
      destination that is not such a path is outside the model.
      [os.makedirs] and [open] fail where the shape of the tree makes them
      fail (a regular file on the way, a directory in the place of the
      file); permissions and the like are not modelled;
    - rendering a template may raise. *)

From Stdlib Require Import ZArith Ascii String List Lia Bool Sorted Permutation.
From stdpp Require Import base tactics option list strings.
Import ListNotations.
Set Warnings "-register-all".
Local Open Scope string_scope.
Local Open Scope list_scope.

(** ** Strings: [str.split], [str.rsplit], [str.join] *)

Module Str.

(** [s.split(c)] for a one-character separator: always a non-empty list. *)
Fixpoint split (c : ascii) (s : string) : list string :=
  match s with
  | EmptyString => [EmptyString]
  | String a rest =>
      if Ascii.eqb a c then EmptyString :: split c rest
      else match split c rest with
           | [] => [String a EmptyString]
           | w :: ws => String a w :: ws
           end
  end.

(** [sep.join(parts)] *)
Fixpoint join (sep : string) (parts : list string) : string :=
  match parts with
  | [] => EmptyString
  | [p] => p
  | p :: ps => String.append p (String.append sep (join sep ps))
  end.

(** [s.rsplit(c, maxsplit)]: at most [maxsplit] cuts, taken from the right;
    what is left of them stays in one piece. *)
Definition rsplit (c : ascii) (maxsplit : nat) (s : string) : list string :=
  let pieces := split c s in
  let n := length pieces in
  if Nat.leb n (S maxsplit) then pieces
  else join (String c EmptyString) (take (n - maxsplit) pieces)
         :: drop (n - maxsplit) pieces.

(** [l[-1]] on a list of strings known to be non-empty. *)
Definition last_item (l : list string) : string := List.last l EmptyString.

Definition starts_with (c : ascii) (s : string) : bool :=
  match s with
  | String a _ => Ascii.eqb a c
  | EmptyString => false
  end.

End Str.

(** ** Paths: the part of [pathlib.Path] (POSIX flavour) the engine uses *)

Record Path := mkPath { absolute : bool; segs : list string }.

#[global] Instance Path_eq_dec : EqDecision Path.
Proof. solve_decision. Defined.

Module PathLib.

Definition keep_segment (s : string) : bool :=
  negb (String.eqb s "") && negb (String.eqb s ".").

(** A name: what a segment of a path is, '..' apart. *)
Definition is_name (s : string) : bool :=
  keep_segment s
  && negb (String.eqb s "..")
  && match Str.split "/" s with [_] => true | _ => false end.

(** [Path(s)] *)
Definition of_str (s : string) : Path :=
  mkPath (Str.starts_with "/" s) (List.filter keep_segment (Str.split "/" s)).

(** [p / s]: an absolute right operand replaces the left one. *)
Definition join (p : Path) (s : string) : Path :=
  let q := of_str s in
  if absolute q then q else mkPath (absolute p) (segs p ++ segs q).

(** [p.is_absolute()] *)
Definition is_absolute (p : Path) : bool := absolute p.

(** [p.parent] *)
Definition parent (p : Path) : Path := mkPath (absolute p) (removelast (segs p)).

(** All the directories [os.makedirs(p)] brings into existence. *)
Definition ancestors_and_self (p : Path) : list Path :=
  List.map (fun n => mkPath (absolute p) (take n (segs p)))
           (seq 1 (length (segs p))).

End PathLib.

Notation "p // s" := (PathLib.join p s) (at level 40, left associativity).

(** ** Dictionaries: insertion-ordered, keyed by strings *)

Module Dict.
Section Ops.
Context {V : Type}.

Definition t := list (string * V).

(** [d.get(k)] / [d[k]] *)
Fixpoint get (k : string) (d : list (string * V)) : option V :=
  match d with
  | [] => None
  | (k', v) :: rest => if String.eqb k k' then Some v else get k rest
  end.

(** [d[k] = v]: an existing key keeps its position, a new key goes last. *)
Fixpoint set (k : string) (v : V) (d : list (string * V)) : list (string * V) :=
  match d with
  | [] => [(k, v)]
  | (k', v') :: rest =>
      if String.eqb k k' then (k', v) :: rest else (k', v') :: set k v rest
  end.

(** [d.update(other)] and, on a copy, [{**d, **other}] *)
Definition update (d other : list (string * V)) : list (string * V) :=
  fold_left (fun acc kv => set (fst kv) (snd kv) acc) other d.

(** [d.keys()] *)
Definition keys (d : list (string * V)) : list string := List.map fst d.

(** [d.values()] *)
Definition values (d : list (string * V)) : list V := List.map snd d.

(** what is left of [d] after [d.pop(k)] *)
Definition remove (k : string) (d : list (string * V)) : list (string * V) :=
  List.filter (fun kv => negb (String.eqb k (fst kv))) d.

Definition mem (k : string) (d : list (string * V)) : bool :=
  match get k d with Some _ => true | None => false end.
End Ops.
End Dict.

(** [collections.Counter(names)] and [Counter.most_common()] *)
Module Counter.

Definition bump (acc : list (string * nat)) (a : string) : list (string * nat) :=
  Dict.set a (S (default 0 (Dict.get a acc))) acc.

Definition of_list (names : list string) : list (string * nat) :=
  fold_left bump names [].

(** One step of a stable sort by decreasing count: [x] was seen before
    everything in [l], so it goes in front of the first entry whose count
    does not exceed its own. *)
Fixpoint insert_desc (x : string * nat) (l : list (string * nat)) : list (string * nat) :=
  match l with
  | [] => [x]
  | y :: rest =>
      if Nat.ltb (snd x) (snd y) then y :: insert_desc x rest else x :: y :: rest
  end.

(** [sorted(items, key=count, reverse=True)] *)
Definition most_common (c : list (string * nat)) : list (string * nat) :=
  fold_right insert_desc [] c.

End Counter.

(** ** Python values, exceptions and the store *)

Abbreviation loc := nat.

Inductive value : Type :=
| VNone
| VBool (b : bool)
| VInt (n : Z)
| VStr (s : string)
| VPath (p : Path)
| VList (items : list value)
| VDict (r : loc)          (* a reference to a dictionary in the store *)
| VSettings.               (* the [django.conf.settings] object *)

Abbreviation dict := (list (string * value)).

(** The store: every dictionary object, by location. Allocation appends. *)
Abbreviation heap := (list dict).

Definition deref (h : heap) (r : loc) : dict := default [] (h !! r).

(** Exceptions. A message is kept as the pieces of its f-string: literal
    text, [{x}] (the [str] of a value), [{type(x)}] and [{exc}]. *)
Inductive exn : Type :=
| ImproperlyConfigured (msg : list frag)
| TemplateDoesNotExist (msg : string) (chain : list exn)
| InvalidTemplateEngineError (msg : list frag)
| PyError (cls : string)        (* TypeError, AttributeError, KeyError, ... *)
| BackendError (what : string)  (* anything else a backend or its import raises *)
| Unmodelled (what : string)    (* an input outside this model *)
with frag : Type :=
| Lit (s : string)
| Fmt (v : value)
| FmtType (v : value)
| FmtExc (e : exn).

Definition is_ImproperlyConfigured (e : exn) : bool :=
  match e with ImproperlyConfigured _ => true | _ => false end.

Definition is_TemplateDoesNotExist (e : exn) : bool :=
  match e with TemplateDoesNotExist _ _ => true | _ => false end.

Definition is_KeyError (e : exn) : bool :=
  match e with PyError cls => String.eqb cls "KeyError" | _ => false end.

(** Python truthiness, [bool(v)]. *)
Definition truthy (h : heap) (v : value) : bool :=
  match v with
  | VNone => false
  | VBool b => b
  | VInt n => negb (Z.eqb n 0)
  | VStr s => negb (String.eqb s "")
  | VPath _ => true
  | VList items => match items with [] => false | _ => true end
  | VDict r => match deref h r with [] => false | _ => true end
  | VSettings => true
  end.

(** [hasattr(v, '__iter__')] *)
Definition has_iter (v : value) : bool :=
  match v with
  | VStr _ | VList _ | VDict _ => true
  | _ => false
  end.

Fixpoint chars (s : string) : list value :=
  match s with
  | EmptyString => []
  | String a rest => VStr (String a EmptyString) :: chars rest
  end.

(** The items a [for] loop over [v] visits ([None] when [v] is not iterable). *)
Definition iterate (h : heap) (v : value) : option (list value) :=
  match v with
  | VList items => Some items
  | VDict r => Some (List.map VStr (Dict.keys (deref h r)))
  | VStr s => Some (chars s)
  | _ => None
  end.

(** ** Objects of the engine and of its host *)

(** [StaticTemplateEngine.TemplateConfig]: [context_] is a reference, so the
    object aliases the dictionary it was given. *)
Record TemplateConfig := mkTemplateConfig {
  name : string;
  dest_ : option Path;
  context_ : loc
}.

(** A template object of a backend: [origin_app] is the [path] of
    [template.origin.app] when the origin has an (owning) app; [render]
    returns the text or raises. *)
Record Template := mkTemplate {
  origin_app : option string;
  render : dict -> exn + string
}.

(** A backend instance: [get_template] returns a template or raises. *)
Record Backend := mkBackend {
  get_template : string -> exn + Template
}.

(** The host framework: the two settings the engine reads ([None] when the
    attribute does not exist) and [import_string(backend)(params)]. *)
Record Host := mkHost {
  STATIC_TEMPLATES : option value;
  STATIC_ROOT : option value;
  import_string : string -> dict -> exn + Backend
}.

(** Locations of the class-level objects, created when the module is loaded. *)
Definition cls_config_ : loc := 0.          (* StaticTemplateEngine.config_ = {} *)
Definition cls_context_ : loc := 1.         (* TemplateConfig.context_ = {} *)
Definition default_engine : loc := 2.       (* DEFAULT_ENGINE_CONFIG[0] *)
Definition default_options : loc := 3.      (* DEFAULT_ENGINE_CONFIG[0]['OPTIONS'] *)

Definition DEFAULT_ENGINE_CONFIG : value := VList [VDict default_engine].

(** The store right after the module is loaded. *)
Definition module_heap : heap :=
  [ [];
    [];
    [ ("BACKEND", VStr "render_static.backends.StaticDjangoTemplates");
      ("DIRS", VList []);
      ("OPTIONS", VDict default_options) ];
    [ ("loaders", VList [VStr "render_static.loaders.StaticAppDirectoriesLoader"]);
      ("builtins", VList [VStr "render_static.templatetags.render_static"]) ] ].

(** One engine instance and the world around it. *)
Record State := mkState {
  store : heap;
  config_ : option value;              (* the instance attribute, once assigned *)
  cached_config : option loc;
  cached_context : option loc;
  cached_templates : option (list (string * TemplateConfig));
  cached_engines : option (list (string * Backend));
  dirs : list Path;                    (* directories that exist *)
  files : list (Path * string);        (* files and their text *)
  renders : list (Template * dict)     (* calls of [template.render], latest first *)
}.

Definition with_store (h : heap) (s : State) : State :=
  mkState h (config_ s) (cached_config s) (cached_context s) (cached_templates s)
          (cached_engines s) (dirs s) (files s) (renders s).
Definition with_config_ (v : value) (s : State) : State :=
  mkState (store s) (Some v) (cached_config s) (cached_context s) (cached_templates s)
          (cached_engines s) (dirs s) (files s) (renders s).
Definition with_cached_config (r : loc) (s : State) : State :=
  mkState (store s) (config_ s) (Some r) (cached_context s) (cached_templates s)
          (cached_engines s) (dirs s) (files s) (renders s).
Definition with_cached_context (r : loc) (s : State) : State :=
  mkState (store s) (config_ s) (cached_config s) (Some r) (cached_templates s)
          (cached_engines s) (dirs s) (files s) (renders s).
Definition with_cached_templates (t : list (string * TemplateConfig)) (s : State) : State :=
  mkState (store s) (config_ s) (cached_config s) (cached_context s) (Some t)
          (cached_engines s) (dirs s) (files s) (renders s).
Definition with_cached_engines (e : list (string * Backend)) (s : State) : State :=
  mkState (store s) (config_ s) (cached_config s) (cached_context s) (cached_templates s)
          (Some e) (dirs s) (files s) (renders s).
Definition with_dirs (d : list Path) (s : State) : State :=
  mkState (store s) (config_ s) (cached_config s) (cached_context s) (cached_templates s)
          (cached_engines s) d (files s) (renders s).
Definition with_files (f : list (Path * string)) (s : State) : State :=
  mkState (store s) (config_ s) (cached_config s) (cached_context s) (cached_templates s)
          (cached_engines s) (dirs s) f (renders s).
Definition with_renders (r : list (Template * dict)) (s : State) : State :=
  mkState (store s) (config_ s) (cached_config s) (cached_context s) (cached_templates s)
          (cached_engines s) (dirs s) (files s) r.

(** ** The monad: state that survives an exception *)

Definition M (A : Type) : Type := State -> (exn + A) * State.

Definition ret {A} (a : A) : M A := fun s => (inr a, s).

Definition bind {A B} (m : M A) (k : A -> M B) : M B :=
  fun s => match m s with
           | (inr a, s') => k a s'
           | (inl e, s') => (inl e, s')
           end.

Definition raise {A} (e : exn) : M A := fun s => (inl e, s).

Definition get_state : M State := fun s => (inr s, s).

Definition modify (f : State -> State) : M unit := fun s => (inr tt, f s).

(** [try: m except Exception as e: handler(e)] *)
Definition catch {A} (m : M A) (handler : exn -> M A) : M A :=
  fun s => match m s with
           | (inl e, s') => handler e s'
           | ok => ok
           end.

Definition lift {A} (r : exn + A) : M A :=
  match r with inl e => raise e | inr a => ret a end.

Declare Scope engine_scope.
Delimit Scope engine_scope with engine.
Notation "x <- c ;; k" := (bind c (fun x => k))
  (at level 100, c at next level, right associativity) : engine_scope.
Notation "c ;;; k" := (bind c (fun _ => k))
  (at level 100, right associativity) : engine_scope.
Local Open Scope engine_scope.

(** A [for] loop that builds a list, one element per item. *)
Fixpoint for_each {A B} (body : A -> M B) (items : list A) : M (list B) :=
  match items with
  | [] => ret []
  | x :: rest => y <- body x ;; ys <- for_each body rest ;; ret (y :: ys)
  end.

(** [@cached_property]: the body runs until it first returns. *)
Definition cached_property {A} (read : State -> option A) (write : A -> State -> State)
    (body : M A) : M A :=
  fun s => match read s with
           | Some a => (inr a, s)
           | None => match body s with
                     | (inr a, s') => (inr a, write a s')
                     | failed => failed
                     end
           end.

(** A new dictionary object. *)
Definition alloc (d : dict) : M loc :=
  fun s => (inr (length (store s)), with_store (store s ++ [d]) s).

(** Overwrite the dictionary at [r]. *)
Definition store_set (r : loc) (d : dict) : M unit :=
  modify (fun s => with_store (<[r := d]> (store s)) s).

(** ** [StaticTemplateEngine.TemplateConfig] *)

Module TemplateConfigClass.

Definition check_absolute (name : string) (p : Path) : exn + option Path :=
  if PathLib.is_absolute p then inr (Some p)
  else inl (ImproperlyConfigured
              [Lit "In STATIC_TEMPLATES, template "; Fmt (VStr name);
               Lit " dest must be absolute!"]).

(** [TemplateConfig.__init__(self, name, dest=None, context=None)] *)
Definition init (name : string) (dest context : value) : exn + TemplateConfig :=
  match
    match dest with
    | VNone => inr None
    | VStr s => check_absolute name (PathLib.of_str s)
    | VPath p => check_absolute name p
    | _ => inl (ImproperlyConfigured
                  [Lit "Template "; Fmt (VStr name);
                   Lit " 'dest' parameter in STATIC_TEMPLATES must be a string or path-like object, not ";
                   FmtType dest])
    end
  with
  | inl e => inl e
  | inr d =>
      match context with
      | VNone => inr (mkTemplateConfig name d cls_context_)
      | VDict r => inr (mkTemplateConfig name d r)
      | _ => inl (ImproperlyConfigured
                    [Lit "Template "; Fmt (VStr name);
                     Lit " 'context' parameter in STATIC_TEMPLATES must be a dictionary, not ";
                     FmtType context])
      end
  end.

(** [TemplateConfig.context] *)
Definition context (c : TemplateConfig) : loc := context_ c.

(** [TemplateConfig.dest] *)
Definition dest (c : TemplateConfig) : option Path := dest_ c.

(** [TemplateConfig(name=name, **kwargs)]: keyword arguments other than
    [dest] and [context] are a [TypeError]. *)
Definition call (name : string) (kwargs : dict) : exn + TemplateConfig :=
  if forallb (fun k => String.eqb k "dest" || String.eqb k "context") (Dict.keys kwargs)
  then init name (default VNone (Dict.get "dest" kwargs))
                 (default VNone (Dict.get "context" kwargs))
  else inl (PyError "TypeError").

End TemplateConfigClass.

(** ** [StaticTemplateEngine] *)

Section Engine.

Variable host : Host.

(** [StaticTemplateEngine.__init__(self, config=None)] on a new instance;
    the store and the file system are those of [world]. *)
Definition init (config : value) (world : State) : State :=
  mkState (store world)
          (if truthy (store world) config then Some config else None)
          None None None None
          (dirs world) (files world) (renders world).

(** [self.config_]: the instance attribute, else the class attribute. *)
Definition self_config_ (s : State) : value :=
  default (VDict cls_config_) (config_ s).

Definition recognized_key (key : string) : bool :=
  String.eqb key "ENGINES" || String.eqb key "templates" || String.eqb key "context".

(** engine.py 164-166 *)
Definition unrecognized_keys_of (config_ : dict) : list string :=
  List.filter (fun key => negb (recognized_key key)) (Dict.keys config_).

(** engine.py 145-171 *)
Definition config : M loc :=
  cached_property cached_config with_cached_config
    (s <- get_state ;;
     cur <- (if negb (truthy (store s) (self_config_ s)) then
               match STATIC_TEMPLATES host with
               | None =>
                   raise (ImproperlyConfigured
                            [Lit "No STATIC_TEMPLATES configuration directive in settings!"])
               | Some VNone =>
                   r <- alloc [] ;;
                   modify (with_config_ (VDict r)) ;;;
                   ret (VDict r)
               | Some v =>
                   modify (with_config_ v) ;;;
                   ret v
               end
             else ret (self_config_ s)) ;;
     match cur with
     | VDict r =>
         s <- get_state ;;
         let unrecognized_keys := unrecognized_keys_of (deref (store s) r) in
         match unrecognized_keys with
         | [] => ret r
         | _ =>
             raise (ImproperlyConfigured
                      [Lit "Unrecognized STATIC_TEMPLATES configuration directives: ";
                       Fmt (VList (List.map VStr unrecognized_keys))])
         end
     | _ => raise (PyError "AttributeError")      (* no [keys] method *)
     end).

(** engine.py 173-191 *)
Definition context : M loc :=
  cached_property cached_context with_cached_context
    (cfg <- config ;;
     s <- get_state ;;
     global_ctx <- match Dict.get "context" (deref (store s) cfg) with
                   | None => ret []
                   | Some (VDict g) => ret (deref (store s) g)
                   | Some _ =>
                       raise (ImproperlyConfigured
                                [Lit "STATIC_TEMPLATES 'context' configuration directive must be a dictionary!"])
                   end ;;
     alloc (Dict.update [("settings", VSettings)] global_ctx)).

(** The body of the dictionary comprehension of [templates], for one item. *)
Definition template_item (item : string * value) : M (string * TemplateConfig) :=
  s <- get_state ;;
  match snd item with
  | VDict c =>
      tc <- lift (TemplateConfigClass.call (fst item) (deref (store s) c)) ;;
      ret (fst item, tc)
  | _ => raise (PyError "TypeError")      (* [**config] of a non-mapping *)
  end.

(** engine.py 193-212 *)
Definition templates : M (list (string * TemplateConfig)) :=
  cached_property cached_templates with_cached_templates
    (catch
       (cfg <- config ;;
        s <- get_state ;;
        match Dict.get "templates" (deref (store s) cfg) with
        | None => ret []
        | Some (VDict t) => for_each template_item (deref (store s) t)
        | Some _ => raise (PyError "AttributeError")      (* no [items] method *)
        end)
       (fun exp =>
          if is_ImproperlyConfigured exp then raise exp
          else raise (ImproperlyConfigured
                        [Lit "Invalid 'templates' in STATIC_TEMPLATE: "; FmtExc exp; Lit "!"]))).

Definition invalid_backend_error (invalid_backend : value) : exn :=
  ImproperlyConfigured
    [Lit "Invalid BACKEND for a static template engine: "; Fmt invalid_backend;
     Lit ". Check your STATIC_TEMPLATES setting."].

(** engine.py 235-253, for one element of [ENGINES]: the alias and the
    definition with its defaults filled in. The mapping [engines] of this
    model is keyed by strings: a [NAME] that is not a string is outside it. *)
Definition backend_entry (backend : value) : M (string * dict) :=
  s <- get_state ;;
  match backend with
  | VDict b =>
      let given := deref (store s) b in
      match Dict.get "BACKEND" given with
      | Some (VStr path) =>
          let default_name := Str.last_item (Str.rsplit "." 2 path) in
          options <- alloc [] ;;
          let backend' :=
            Dict.update [("NAME", VStr default_name); ("DIRS", VList []);
                         ("APP_DIRS", VBool false); ("OPTIONS", VDict options)]
                        given in
          match Dict.get "NAME" backend' with
          | Some (VStr alias) => ret (alias, backend')
          | _ => raise (Unmodelled "NAME that is not a string")
          end
      | Some other => raise (invalid_backend_error other)      (* no [rsplit] *)
      | None => raise (invalid_backend_error (VStr "<not defined>"))
      end
  | _ => raise (PyError "AttributeError")      (* no [get] in the handler *)
  end.

(** [engines[backend['NAME']] = backend] over all entries, in order. *)
Definition collect (entries : list (string * dict)) : list (string * dict) :=
  fold_left (fun engines e => Dict.set (fst e) (snd e) engines) entries [].

(** engine.py 257-258 *)
Definition duplicates_of (backend_names : list string) : list string :=
  let counts := Counter.of_list backend_names in
  List.map fst (List.filter (fun ac => Nat.ltb 1 (snd ac)) (Counter.most_common counts)).

Definition duplicates_error (duplicates : list string) : exn :=
  ImproperlyConfigured
    [Lit "Template engine aliases are not unique, duplicates: ";
     Fmt (VStr (Str.join ", " duplicates));
     Lit ". Set a unique NAME for each engine in settings.STATIC_TEMPLATES."].

(** engine.py 265-268, for one alias *)
Definition instantiate (entry : string * dict) : M (string * Backend) :=
  let params := Dict.remove "BACKEND" (snd entry) in
  match Dict.get "BACKEND" (snd entry) with
  | Some (VStr backend) =>
      instance <- lift (import_string host backend params) ;;
      ret (fst entry, instance)
  | _ => raise (PyError "KeyError")
  end.

(** engine.py 223-230: fall back on the default definitions, or insist on an
    iterable. *)
Definition ensure_engines : M unit :=
  cfg <- config ;;
  s <- get_state ;;
  match Dict.get "ENGINES" (deref (store s) cfg) with
  | None | Some VNone =>
      cfg' <- config ;;
      s' <- get_state ;;
      store_set cfg' (Dict.set "ENGINES" DEFAULT_ENGINE_CONFIG (deref (store s') cfg'))
  | Some engine_defs =>
      if has_iter engine_defs then ret tt
      else raise (ImproperlyConfigured
                    [Lit "ENGINES in STATIC_TEMPLATES setting must be an iterable containing engine configurations! Encountered: ";
                     FmtType engine_defs])
  end.

(** engine.py 232-270: collect the definitions, refuse duplicate aliases,
    instantiate. *)
Definition build_engines : M (list (string * Backend)) :=
  cfg <- config ;;
  s <- get_state ;;
  match iterate (store s) (default (VList []) (Dict.get "ENGINES" (deref (store s) cfg))) with
  | None => raise (PyError "TypeError")
  | Some defs =>
      entries <- for_each backend_entry defs ;;
      let engines := collect entries in
      let backend_names := List.map fst entries in
      match duplicates_of backend_names with
      | [] => for_each instantiate engines
      | duplicates => raise (duplicates_error duplicates)
      end
  end.

(** engine.py 214-270 *)
Definition engines : M (list (string * Backend)) :=
  cached_property cached_engines with_cached_engines
    (ensure_engines ;;; build_engines).

(** engine.py 272-286: [self.engines] is read inside the [try], so a
    [KeyError] raised while the backends are built is converted too. *)
Definition getitem (alias : string) : M Backend :=
  catch
    (engs <- engines ;;
     match Dict.get alias engs with
     | Some b => ret b
     | None => raise (PyError "KeyError")
     end)
    (fun key_error =>
       if is_KeyError key_error then
         raise (InvalidTemplateEngineError
                  [Lit "Could not find config for '"; Fmt (VStr alias);
                   Lit "' in settings.STATIC_TEMPLATES"])
       else raise key_error).

(** engine.py 288-292 *)
Definition iter : M (list string) :=
  engs <- engines ;;
  ret (Dict.keys engs).

(** engine.py 294-299 *)
Definition all : M (list Backend) :=
  aliases <- iter ;;
  for_each getitem aliases.

(** engine.py 326-333: the loop over [self.all()]; [template] and [chain]
    are the loop's two variables. *)
Fixpoint lookup_loop (template_name : string) (backends : list Backend)
    (template : option Template) (chain : list exn)
    : exn + (option Template * list exn) :=
  match backends with
  | [] => inr (template, chain)
  | engine :: rest =>
      match get_template engine template_name with
      | inr found => lookup_loop template_name rest (Some found) chain
      | inl tdne =>
          if is_TemplateDoesNotExist tdne
          then lookup_loop template_name rest template (chain ++ [tdne])
          else inl tdne
      end
  end.

Definition missing_destination_error (template_name : string) : exn :=
  ImproperlyConfigured
    [Lit "Template "; Fmt (VStr template_name);
     Lit " must either be configured with a 'dest' or STATIC_ROOT must be defined in settings, because it was not loaded from an app!"].

(** [Path(v)] *)
Definition to_path (v : value) : exn + Path :=
  match v with
  | VStr s => inr (PathLib.of_str s)
  | VPath p => inr p
  | _ => inl (PyError "TypeError")
  end.

(** engine.py 337-357: where the template goes. *)
Definition resolve_dest (h : heap) (template_name : string) (config : TemplateConfig)
    (template : Template) (dest : value) : exn + Path :=
  let app := origin_app template in
  let dest :=
    match dest with
    | VNone => match TemplateConfigClass.dest config with
               | Some p => VPath p
               | None => VNone
               end
    | _ => dest
    end in
  match
    match dest with
    | VNone =>
        match app with
        | Some app_path =>
            inr (VPath (PathLib.of_str app_path // "static" // template_name))
        | None =>
            let dest := default VNone (STATIC_ROOT host) in
            if truthy h dest then
              match to_path dest with
              | inr root => inr (VPath (root // template_name))
              | inl e => inl e
              end
            else inl (missing_destination_error template_name)
        end
    | _ => inr dest
    end
  with
  | inl e => inl e
  | inr (VStr s) => inr (PathLib.of_str s)
  | inr (VPath p) => inr p
  | inr _ => inl (PyError "AttributeError")      (* no [parent] attribute *)
  end.

(** A path of the model's file system: absolute, made of names, so that
    two of them are the same file only when they are equal. *)
Definition normalised (p : Path) : bool :=
  absolute p && forallb PathLib.is_name (segs p).

(** [p.is_dir()]: the root always is one. *)
Definition is_dir (s : State) (p : Path) : bool :=
  match segs p with
  | [] => true
  | _ => bool_decide (p ∈ dirs s)
  end.

(** [p.is_file()] *)
Definition is_file (s : State) (p : Path) : bool :=
  bool_decide (p ∈ List.map fst (files s)).

(** [p.exists()] *)
Definition path_exists (s : State) (p : Path) : bool :=
  match segs p with
  | [] => true
  | _ => bool_decide (p ∈ dirs s) || bool_decide (p ∈ List.map fst (files s))
  end.

(** [os.makedirs(str(p))]: a regular file above [p] is a
    [NotADirectoryError], something at [p] a [FileExistsError]. *)
Definition makedirs (p : Path) : M unit :=
  s <- get_state ;;
  if existsb (is_file s) (PathLib.ancestors_and_self (PathLib.parent p))
  then raise (PyError "NotADirectoryError")
  else if path_exists s p then raise (PyError "FileExistsError")
  else modify (fun s => with_dirs (dirs s ++ List.filter (fun d => negb (path_exists s d))
                                                         (PathLib.ancestors_and_self p)) s).

(** engine.py 359-360 *)
Definition ensure_parent (dest : Path) : M unit :=
  s <- get_state ;;
  if path_exists s (PathLib.parent dest) then ret tt
  else makedirs (PathLib.parent dest).

(** The state once the file at [p] holds [text]. *)
Definition with_file (p : Path) (text : string) (s : State) : State :=
  with_files ((p, text) :: List.filter (fun f => negb (bool_decide (fst f = p))) (files s)) s.

(** [open(p, 'w')]: the file is created or emptied, unless [p] is a
    directory or is not in one. *)
Definition open_w (p : Path) : M unit :=
  s <- get_state ;;
  if is_dir s p then raise (PyError "IsADirectoryError")
  else if is_dir s (PathLib.parent p) then modify (with_file p "")
  else if path_exists s (PathLib.parent p) then raise (PyError "NotADirectoryError")
  else raise (PyError "FileNotFoundError").

(** [temp_out.write(text)] and the end of the [with] block *)
Definition write_file (p : Path) (text : string) : M unit :=
  modify (with_file p text).

(** engine.py 322-335: the template's configuration and the template. *)
Definition locate (template_name : string) : M (TemplateConfig * Template) :=
  tmpls <- templates ;;
  let config := default (mkTemplateConfig template_name None cls_context_)
                        (Dict.get template_name tmpls) in
  backends <- all ;;
  found <- lift (lookup_loop template_name backends None []) ;;
  match fst found with
  | None => raise (TemplateDoesNotExist template_name (snd found))
  | Some template => ret (config, template)
  end.

(** engine.py 362-364: [ctx.update(context)] on the template's own dictionary. *)
Definition update_ctx (ctx : loc) (context_arg : value) : M unit :=
  match context_arg with
  | VNone => ret tt
  | VDict other =>
      s <- get_state ;;
      store_set ctx (Dict.update (deref (store s) ctx) (deref (store s) other))
  | _ => raise (Unmodelled "context that is neither None nor a dict")
  end.

(** engine.py 301-374 *)
Definition render_to_disk (template_name : string) (context_arg dest : value) : M Path :=
  located <- locate template_name ;;
  let config := fst located in
  let template := snd located in
  s <- get_state ;;
  dest <- lift (resolve_dest (store s) template_name config template dest) ;;
  (if normalised dest then ret tt
   else raise (Unmodelled "destination that is not an absolute path free of '..'")) ;;;
  ensure_parent dest ;;;
  let ctx := TemplateConfigClass.context config in
  update_ctx ctx context_arg ;;;
  open_w dest ;;;
  global <- context ;;
  s <- get_state ;;
  let final := Dict.update (deref (store s) global) (deref (store s) ctx) in
  modify (fun s => with_renders ((template, final) :: renders s) s) ;;;
  text <- lift (render template final) ;;
  write_file dest text ;;;
  ret dest.

End Engine.

(** * Vocabulary of the properties *)

(** What the root-key check answers for the mapping at [r]. *)
Definition root_key_check (h : heap) (r : loc) : exn + loc :=
  match unrecognized_keys_of (deref h r) with
  | [] => inr r
  | unknown =>
      inl (ImproperlyConfigured
             [Lit "Unrecognized STATIC_TEMPLATES configuration directives: ";
              Fmt (VList (List.map VStr unknown))])
  end.

(** The caller-declared global context of the configuration at [cfg]:
    the mapping under the root key 'context', empty when the key is absent. *)
Definition declared_global (h : heap) (cfg : loc) : option dict :=
  match Dict.get "context" (deref h cfg) with
  | None => Some []
  | Some (VDict g) => Some (deref h g)
  | Some _ => None
  end.

(** How often [a] occurs in [names]; the count an accumulator holds for [a]. *)
Definition occurrences (names : list string) (a : string) : nat :=
  count_occ string_dec names a.

Definition tally (acc : list (string * nat)) (a : string) : nat :=
  default 0 (Dict.get a acc).

(** [most_common] lists the entries by decreasing count. *)
Definition by_decreasing_count (x y : string * nat) : Prop := snd y <= snd x.

(** A backend definition (a dictionary with a string BACKEND) resolves to
    [alias]: its NAME when it has one, else the last dot-separated segment
    of its BACKEND. *)
Definition resolves_to (h : heap) (def : value) (alias : string) : Prop :=
  exists b path,
    def = VDict b
    /\ List.NoDup (Dict.keys (deref h b))
    /\ Dict.get "BACKEND" (deref h b) = Some (VStr path)
    /\ (Dict.get "NAME" (deref h b) = Some (VStr alias)
        \/ (Dict.get "NAME" (deref h b) = None
            /\ alias = Str.last_item (Str.split "." path))).

(** A backend that signals "not found" for [template_name]. *)
Definition misses (template_name : string) (engine : Backend) : Prop :=
  exists tdne, get_template engine template_name = inl tdne
               /\ is_TemplateDoesNotExist tdne = true.

(** Nothing but new, empty dictionaries in the store. *)
Definition grows (s s' : State) : Prop :=
  exists n, s' = with_store (store s ++ replicate n []) s.

(** A destination as the signature types it: [None], a string or a path. *)
Definition dest_typed (v : value) : Prop :=
  match v with
  | VNone | VStr _ | VPath _ => True
  | _ => False
  end.

(** The [dest] configured for [template_name] in the configuration at
    [cfg], as a path. *)
Definition configured_dest (h : heap) (cfg : loc) (template_name : string) : option Path :=
  match Dict.get "templates" (deref h cfg) with
  | Some (VDict t) =>
      match Dict.get template_name (deref h t) with
      | Some (VDict c) =>
          match Dict.get "dest" (deref h c) with
          | Some (VStr d) => Some (PathLib.of_str d)
          | Some (VPath d) => Some d
          | _ => None
          end
      | _ => None
      end
  | _ => None
  end.

(** The entries of [templates], once cached, carry the [dest] that the
    configuration at [cfg] gives their template. On an engine that has not
    read its templates yet there is nothing to ask; [templates] makes it
    so, and it stays so while the configured dictionaries are left alone. *)
Definition entries_as_configured (s : State) (cfg : loc) : Prop :=
  forall tmpls, cached_templates s = Some tmpls ->
    forall template_name,
      TemplateConfigClass.dest (default (mkTemplateConfig template_name None cls_context_)
                                        (Dict.get template_name tmpls))
      = configured_dest (store s) cfg template_name.

(** The first defined of: the [dest] of the call, the configured [dest], the
    owning app's static directory, [STATIC_ROOT] (defined when it is a
    non-empty string or a path). *)
Definition first_defined_destination (host : Host) (template_name : string)
    (call_dest : value) (configured : option Path) (template : Template) : option Path :=
  match call_dest with
  | VStr s => Some (PathLib.of_str s)
  | VPath p => Some p
  | _ =>
      match configured with
      | Some p => Some p
      | None =>
          match origin_app template with
          | Some app_path => Some (PathLib.of_str app_path // "static" // template_name)
          | None =>
              match STATIC_ROOT host with
              | Some (VStr root) =>
                  if String.eqb root "" then None
                  else Some (PathLib.of_str root // template_name)
              | Some (VPath root) => Some (root // template_name)
              | _ => None
              end
          end
      end
  end.

(** The directory of [p] exists, or can be made: nothing above it is a
    regular file. *)
Definition parent_available (s : State) (p : Path) : bool :=
  path_exists s (PathLib.parent p)
  || negb (existsb (is_file s)
                   (PathLib.ancestors_and_self (PathLib.parent (PathLib.parent p)))).

(** The file at [p] can be written: [p] is a path of the model and no
    directory, and its directory exists or can be made (nothing above it
    is a regular file). *)
Definition writable (s : State) (p : Path) : bool :=
  normalised p
  && negb (is_dir s p)
  && (if path_exists s (PathLib.parent p) then is_dir s (PathLib.parent p)
      else negb (existsb (is_file s)
                         (PathLib.ancestors_and_self (PathLib.parent (PathLib.parent p))))).

(** The state once the destination's directory exists. *)
Definition with_parent_of (p : Path) (s : State) : State :=
  if path_exists s (PathLib.parent p) then s
  else with_dirs (dirs s ++ List.filter (fun d => negb (path_exists s d))
                                        (PathLib.ancestors_and_self (PathLib.parent p))) s.

(** The part of the state that reading the configuration leaves alone. *)
Definition beside_config (s : State) :=
  (cached_context s, cached_templates s, cached_engines s, dirs s, files s, renders s).

(** Steps that leave every dictionary as it is, but for the key 'ENGINES'
    of the configuration at [cfg], and that neither render nor touch the
    cached global context. *)
Record settled (cfg : loc) (s s' : State) : Prop := mkSettled {
  st_length : length (store s) <= length (store s');
  st_cells : forall r, r <> cfg -> deref (store s') r = deref (store s) r;
  st_root : forall k, k <> "ENGINES" ->
                      Dict.get k (deref (store s') cfg) = Dict.get k (deref (store s) cfg);
  st_context : cached_context s' = cached_context s;
  st_renders : renders s' = renders s;
  st_config : forall c, cached_config s = Some c -> cached_config s' = Some c
}.

(** The dictionary that holds the per-template context of [template_name]
    under the configuration at [cfg]: the one configured for it, else the
    class-level default. *)
Definition template_context_loc (h : heap) (cfg : loc) (template_name : string) : loc :=
  match Dict.get "templates" (deref h cfg) with
  | Some (VDict t) =>
      match Dict.get template_name (deref h t) with
      | Some (VDict c) =>
          match Dict.get "context" (deref h c) with
          | Some (VDict pc) => pc
          | _ => cls_context_
          end
      | _ => cls_context_
      end
  | _ => cls_context_
  end.

(** The call-time override, as a dictionary. *)
Definition override_layer (h : heap) (context_arg : value) : dict :=
  match context_arg with
  | VDict other => deref h other
  | _ => []
  end.

(** Looking a key up through the layers, the later layer first: call-time
    override [O], per-template context [P], global context [G], and under
    them all the reserved 'settings' entry. *)
Definition layered_get (G P O : dict) (k : string) : option value :=
  match Dict.get k O with
  | Some v => Some v
  | None =>
      match Dict.get k P with
      | Some v => Some v
      | None =>
          match Dict.get k G with
          | Some v => Some v
          | None => if String.eqb k "settings" then Some VSettings else None
          end
      end
  end.

(** A context argument as the signature types it: [None] or a dictionary. *)
Definition context_typed (context_arg : value) : Prop :=
  match context_arg with
  | VNone | VDict _ => True
  | _ => False
  end.

(** The caches of an engine fit together: whatever is cached was computed
    from a configuration that is cached too, and the cached mapping of
    backends has distinct aliases. *)
Definition coherent (s : State) : Prop :=
  (cached_templates s <> None -> cached_config s <> None)
  /\ (cached_context s <> None -> cached_config s <> None)
  /\ (forall e, cached_engines s = Some e ->
                cached_config s <> None /\ List.NoDup (Dict.keys e)).

(** What the comprehension of [templates] makes of one item of the
    configured mapping: [TemplateConfig(name=name, **config)]. *)
Definition entry_result (h : heap) (item : string * value) : exn + TemplateConfig :=
  match snd item with
  | VDict c => TemplateConfigClass.call (fst item) (deref h c)
  | _ => inl (PyError "TypeError")
  end.

(** The items of the configured 'templates' mapping, none when the key is
    absent. *)
Definition configured_templates (h : heap) (cfg : loc) : dict :=
  match Dict.get "templates" (deref h cfg) with
  | Some (VDict t) => deref h t
  | _ => []
  end.

(** How [templates] reports an exception raised while it builds the entries. *)
Definition templates_error (exp : exn) : exn :=
  if is_ImproperlyConfigured exp then exp
  else ImproperlyConfigured
         [Lit "Invalid 'templates' in STATIC_TEMPLATE: "; FmtExc exp; Lit "!"].

(** engine.py 247-253: a backend definition with its defaults filled in;
    [options] is the new dictionary of ['OPTIONS': {}]. *)
Definition filled_in (path : string) (options : loc) (given : dict) : dict :=
  Dict.update [("NAME", VStr (Str.last_item (Str.rsplit "." 2 path))); ("DIRS", VList []);
               ("APP_DIRS", VBool false); ("OPTIONS", VDict options)]
              given.

(** The entry that the loop over 'ENGINES' keeps for the definition [def]. *)
Definition built_entry (h : heap) (def : value) (entry : string * dict) : Prop :=
  exists b path options,
    def = VDict b
    /\ List.NoDup (Dict.keys (deref h b))
    /\ Dict.get "BACKEND" (deref h b) = Some (VStr path)
    /\ length h <= options
    /\ snd entry = filled_in path options (deref h b)
    /\ Dict.get "NAME" (snd entry) = Some (VStr (fst entry)).

(** The parameters a backend is instantiated with, against its definition
    [given]: no BACKEND, the alias as NAME, DIRS, APP_DIRS and OPTIONS as
    given or else [[]], [False] and a new empty dictionary (one that is not
    in [h] and is empty in [h']), every other key as given. *)
Definition parameters_of (h h' : heap) (given : dict) (alias : string) (params : dict) : Prop :=
  Dict.get "BACKEND" params = None
  /\ Dict.get "NAME" params = Some (VStr alias)
  /\ Dict.get "DIRS" params = Some (default (VList []) (Dict.get "DIRS" given))
  /\ Dict.get "APP_DIRS" params = Some (default (VBool false) (Dict.get "APP_DIRS" given))
  /\ match Dict.get "OPTIONS" given with
     | Some v => Dict.get "OPTIONS" params = Some v
     | None => exists options, Dict.get "OPTIONS" params = Some (VDict options)
                               /\ length h <= options /\ deref h' options = []
     end
  /\ forall k, k <> "BACKEND" -> k <> "NAME" -> k <> "DIRS" -> k <> "APP_DIRS" ->
                k <> "OPTIONS" -> Dict.get k params = Dict.get k given.

(** What is on disk, and what has been rendered. *)
Definition disk (s : State) : list Path * list (Path * string) * list (Template * dict) :=
  (dirs s, files s, renders s).

(** A backend that answers for [template_name] as the lookup loop expects:
    with a template or with [TemplateDoesNotExist]. *)
Definition answers (template_name : string) (engine : Backend) : Prop :=
  match get_template engine template_name with
  | inr _ => True
  | inl e => is_TemplateDoesNotExist e = true
  end.

(** The files other than the one at [p]. *)
Definition files_beside (p : Path) (s : State) : list (Path * string) :=
  List.filter (fun f => negb (bool_decide (fst f = p))) (files s).

(** [c in s] *)
Fixpoint contains (c : ascii) (s : string) : bool :=
  match s with
  | EmptyString => false
  | String a rest => Ascii.eqb a c || contains c rest
  end.

(** * Sample engines *)

Module Sample.

(** A world with nothing cached, no directories and no files. *)
Definition world_of (h : heap) : State := mkState h None None None None None [] [] [].

(** A host without [STATIC_TEMPLATES] and [STATIC_ROOT] whose imports fail. *)
Definition bare_host : Host :=
  mkHost None None (fun _ _ => inl (BackendError "ImportError")).

(** [{'ENGINES': [], 'bogus': 1, 'templates': {}, 'extra': 2}] at location 4 *)
Definition bad_root : State :=
  world_of (module_heap ++
            [ [("ENGINES", VList []); ("bogus", VInt 1); ("templates", VDict 5);
               ("extra", VInt 2)];
              [] ]).

(** [{'ENGINES': [], 'context': {}}] at location 4 *)
Definition good_root : State :=
  world_of (module_heap ++ [ [("ENGINES", VList []); ("context", VDict 5)]; [] ]).

End Sample.

Module SampleContext.

(** [{'context': {'settings': 'mine', 'a': 1}}] at location 4 *)
Definition own_settings : State :=
  Sample.world_of (module_heap ++
                   [ [("context", VDict 5)];
                     [("settings", VStr "mine"); ("a", VInt 1)] ]).

Definition engine : State := init (VDict 4) own_settings.

End SampleContext.

Module SampleDuplicates.

(** [{'ENGINES': [{'BACKEND': 'pkg.One'}, {'BACKEND': 'other.mod.One'},
                  {'BACKEND': 'x.Y', 'NAME': 'dup'}, {'BACKEND': 'a.Solo'},
                  {'BACKEND': 'x.Z', 'NAME': 'dup'}]}] at location 4 *)
Definition defs : list value := [VDict 5; VDict 6; VDict 7; VDict 8; VDict 9].

Definition world : State :=
  Sample.world_of (module_heap ++
                   [ [("ENGINES", VList defs)];
                     [("BACKEND", VStr "pkg.One")];
                     [("BACKEND", VStr "other.mod.One")];
                     [("BACKEND", VStr "x.Y"); ("NAME", VStr "dup")];
                     [("BACKEND", VStr "a.Solo")];
                     [("BACKEND", VStr "x.Z"); ("NAME", VStr "dup")] ]).

Definition engine : State := init (VDict 4) world.

Definition aliases : list string := ["One"; "One"; "dup"; "Solo"; "dup"].

End SampleDuplicates.

Module SampleLookup.

Definition first_template : Template := mkTemplate None (fun _ => inr "first").
Definition second_template : Template := mkTemplate None (fun _ => inr "second").

(** Both backends hold 'x.html'; neither holds anything else. *)
Definition first : Backend :=
  mkBackend (fun n => if String.eqb n "x.html" then inr first_template
                      else inl (TemplateDoesNotExist (String.append "first: " n) [])).
Definition second : Backend :=
  mkBackend (fun n => if String.eqb n "x.html" then inr second_template
                      else inl (TemplateDoesNotExist (String.append "second: " n) [])).

Definition host : Host :=
  mkHost None (Some (VStr "/var/static"))
         (fun backend _ =>
            if String.eqb backend "pkg.First" then inr first
            else if String.eqb backend "pkg.Second" then inr second
            else inl (BackendError "ImportError")).

(** [{'ENGINES': [{'BACKEND': 'pkg.First'}, {'BACKEND': 'pkg.Second'}]}] *)
Definition world : State :=
  Sample.world_of (module_heap ++
                   [ [("ENGINES", VList [VDict 5; VDict 6])];
                     [("BACKEND", VStr "pkg.First")];
                     [("BACKEND", VStr "pkg.Second")] ]).

Definition engine : State := init (VDict 4) world.

Definition engs : list (string * Backend) := [("First", first); ("Second", second)].

End SampleLookup.

Module SampleDefault.

(** [{'context': {'a': 1}}] at location 4: no 'ENGINES' *)
Definition root : dict := [("context", VDict 5)].

Definition world : State :=
  Sample.world_of (module_heap ++ [ root; [("a", VInt 1)] ]).

Definition engine : State := init (VDict 4) world.

End SampleDefault.

Module SampleRender.

(** A template that shows which keys it was given. *)
Definition page : Template :=
  mkTemplate None (fun ctx => inr (Str.join "," (Dict.keys ctx))).

(** The only backend holds every template. *)
Definition only : Backend := mkBackend (fun _ => inr page).

Definition host : Host :=
  mkHost None (Some (VStr "/var/static")) (fun _ _ => inr only).

(** Location 4:
    [{'ENGINES': [{'BACKEND': 'pkg.Only'}],
      'context': {'a': 1, 'b': 2},
      'templates': {'x.html': {'context': {'b': 3, 'c': 4}}}}];
    location 10: the call-time override [{'c': 5, 'd': 6}]. *)
Definition world : State :=
  Sample.world_of (module_heap ++
                   [ [("ENGINES", VList [VDict 5]); ("context", VDict 6); ("templates", VDict 7)];
                     [("BACKEND", VStr "pkg.Only")];
                     [("a", VInt 1); ("b", VInt 2)];
                     [("x.html", VDict 8)];
                     [("context", VDict 9)];
                     [("b", VInt 3); ("c", VInt 4)];
                     [("c", VInt 5); ("d", VInt 6)] ]).

Definition engine : State := init (VDict 4) world.

Definition override : value := VDict 10.

(** The engine once [templates] has been read and cached. *)
Definition prepared : State := snd (templates host engine).

(** The state after [render_to_disk(name, context=override)]. *)
Definition after (template_name : string) : State :=
  snd (render_to_disk host template_name override VNone prepared).

(** The context dictionary of the cached [TemplateConfig] of a template. *)
Definition cached_entry_context (s : State) (template_name : string) : option dict :=
  match cached_templates s with
  | Some tmpls =>
      option_map (fun tc => deref (store s) (TemplateConfigClass.context tc))
                 (Dict.get template_name tmpls)
  | None => None
  end.

End SampleRender.

Module SampleLeak.

(** The world once an engine on the configuration of [SampleRender] has
    rendered 'z.html', which has no configured context, with the override
    [{'c': 5, 'd': 6}]. *)
Definition world : State :=
  snd (render_to_disk SampleRender.host "z.html" SampleRender.override VNone
         SampleRender.engine).

(** Another engine, constructed in that world on the same configuration. *)
Definition engine : State := init (VDict 4) world.

End SampleLeak.

Module SampleDest.

Definition from_app : Template := mkTemplate (Some "/srv/app") (fun _ => inr "app").
Definition plain : Template := mkTemplate None (fun _ => inr "plain").

(** 'app.html' comes from the app at /srv/app; any other template from no app. *)
Definition apps : Backend :=
  mkBackend (fun n => if String.eqb n "app.html" then inr from_app else inr plain).

Definition with_root : Host :=
  mkHost None (Some (VStr "/var/static")) (fun _ _ => inr apps).
Definition without_root : Host :=
  mkHost None None (fun _ _ => inr apps).

(** [{'ENGINES': [{'BACKEND': 'pkg.Apps'}],
      'templates': {'fixed.html': {'dest': '/srv/out/fixed.html'}}}] *)
Definition world : State :=
  Sample.world_of (module_heap ++
                   [ [("ENGINES", VList [VDict 5]); ("templates", VDict 6)];
                     [("BACKEND", VStr "pkg.Apps")];
                     [("fixed.html", VDict 7)];
                     [("dest", VStr "/srv/out/fixed.html")] ]).

Definition engine : State := init (VDict 4) world.

Definition fixed_config : TemplateConfig :=
  mkTemplateConfig "fixed.html" (Some (mkPath true ["srv"; "out"; "fixed.html"])) cls_context_.
Definition plain_config : TemplateConfig :=
  mkTemplateConfig "plain.html" None cls_context_.

End SampleDest.

Module SampleTemplates.

(** Location 4:
    [{'templates': {'a.html': {'dest': '/out/a.html'},
                    'b.html': {'destination': '/out/b.html'},
                    'c.html': {'dest': 'relative/c.html'}}}] *)
Definition unknown_parameter : State :=
  Sample.world_of (module_heap ++
                   [ [("templates", VDict 5)];
                     [("a.html", VDict 6); ("b.html", VDict 7); ("c.html", VDict 8)];
                     [("dest", VStr "/out/a.html")];
                     [("destination", VStr "/out/b.html")];
                     [("dest", VStr "relative/c.html")] ]).

(** Location 4:
    [{'templates': {'a.html': {'dest': '/out/a.html'},
                    'b.html': {'context': {'x': 1}},
                    'c.html': {}}}] *)
Definition three : State :=
  Sample.world_of (module_heap ++
                   [ [("templates", VDict 5)];
                     [("a.html", VDict 6); ("b.html", VDict 7); ("c.html", VDict 8)];
                     [("dest", VStr "/out/a.html")];
                     [("context", VDict 9)];
                     [];
                     [("x", VInt 1)] ]).

(** What [templates] makes of [three]: 'b.html' shares the dictionary at
    location 9, 'c.html' the class-level default. *)
Definition three_entries : list (string * TemplateConfig) :=
  [ ("a.html", mkTemplateConfig "a.html" (Some (mkPath true ["out"; "a.html"])) cls_context_);
    ("b.html", mkTemplateConfig "b.html" None 9);
    ("c.html", mkTemplateConfig "c.html" None cls_context_) ].

End SampleTemplates.

Module SampleEngines.

(** [{'ENGINES': [{'BACKEND': 'pkg.First'}, {'NAME': 'second'},
                  {'BACKEND': 'pkg.Third'}]}] at location 4 *)
Definition no_backend : State :=
  Sample.world_of (module_heap ++
                   [ [("ENGINES", VList [VDict 5; VDict 6; VDict 7])];
                     [("BACKEND", VStr "pkg.First")];
                     [("NAME", VStr "second")];
                     [("BACKEND", VStr "pkg.Third")] ]).

(** [{'ENGINES': 'pkg.First'}] at location 4 *)
Definition engines_as_string : State :=
  Sample.world_of (module_heap ++ [ [("ENGINES", VStr "pkg.First")] ]).

(** [{'ENGINES': 5}] at location 4 *)
Definition engines_as_number : State :=
  Sample.world_of (module_heap ++ [ [("ENGINES", VInt 5)] ]).

(** Every backend can be imported but 'pkg.Broken'. *)
Definition one_broken : Host :=
  mkHost None None
         (fun backend _ =>
            if String.eqb backend "pkg.Broken" then inl (BackendError "ImportError")
            else inr (mkBackend (fun n => inl (TemplateDoesNotExist n [])))).

(** Every backend can be imported; the instance shows the parameters it
    was given as the templates it holds. *)
Definition showing : Host :=
  mkHost None None
         (fun _ params =>
            inr (mkBackend (fun n => if Dict.mem n params
                                     then inr (mkTemplate None (fun _ => inr n))
                                     else inl (TemplateDoesNotExist n [])))).

(** [{'ENGINES': [{'BACKEND': 'pkg.First', 'DIRS': ['/t']},
                  {'BACKEND': 'pkg.Broken', 'NAME': 'second'},
                  {'BACKEND': 'pkg.Third'}]}] at location 4 *)
Definition three : State :=
  Sample.world_of (module_heap ++
                   [ [("ENGINES", VList [VDict 5; VDict 6; VDict 7])];
                     [("BACKEND", VStr "pkg.First"); ("DIRS", VList [VStr "/t"])];
                     [("BACKEND", VStr "pkg.Broken"); ("NAME", VStr "second")];
                     [("BACKEND", VStr "pkg.Third")] ]).

(** [{'ENGINES': [{'BACKEND': 'dotless', 'DIRS': []}]}] at location 4 *)
Definition dotless : State :=
  Sample.world_of (module_heap ++
                   [ [("ENGINES", VList [VDict 5])];
                     [("BACKEND", VStr "dotless"); ("DIRS", VList [])] ]).

End SampleEngines.

Module SampleGlobal.

(** [{'context': None}] at location 4 *)
Definition context_none : State :=
  Sample.world_of (module_heap ++ [ [("context", VNone)] ]).

End SampleGlobal.

Module SampleCrash.

(** A backend that cannot compile the template it finds. *)
Definition crashing : Backend :=
  mkBackend (fun _ => inl (BackendError "TemplateSyntaxError")).

Definition host : Host :=
  mkHost None (Some (VStr "/var/static"))
         (fun backend _ =>
            if String.eqb backend "pkg.First" then inr SampleLookup.first
            else if String.eqb backend "pkg.Crashing" then inr crashing
            else inr SampleLookup.second).

(** [{'ENGINES': [{'BACKEND': 'pkg.First'}, {'BACKEND': 'pkg.Crashing'},
                  {'BACKEND': 'pkg.Second'}]}] at location 4 *)
Definition world : State :=
  Sample.world_of (module_heap ++
                   [ [("ENGINES", VList [VDict 5; VDict 6; VDict 7])];
                     [("BACKEND", VStr "pkg.First")];
                     [("BACKEND", VStr "pkg.Crashing")];
                     [("BACKEND", VStr "pkg.Second")] ]).

Definition engine : State := init (VDict 4) world.

Definition engs : list (string * Backend) :=
  [("First", SampleLookup.first); ("Crashing", crashing); ("Second", SampleLookup.second)].

End SampleCrash.

Module SampleDisk.

(** The world of [SampleRender] with two files on disk, one of them where
    'x.html' is rendered to. *)
Definition world : State :=
  with_files [ (mkPath true ["var"; "static"; "x.html"], "old");
               (mkPath true ["srv"; "keep.txt"], "kept") ]
             SampleRender.world.

Definition engine : State := init (VDict 4) world.

(** The same, with [None] for the global context:
    [{'ENGINES': [{'BACKEND': 'pkg.Only'}], 'context': None}] at location 4. *)
Definition broken_world : State :=
  with_files [ (mkPath true ["var"; "static"; "x.html"], "old");
               (mkPath true ["srv"; "keep.txt"], "kept") ]
             (Sample.world_of (module_heap ++
                               [ [("ENGINES", VList [VDict 5]); ("context", VNone)];
                                 [("BACKEND", VStr "pkg.Only")] ])).

Definition broken_engine : State := init (VDict 4) broken_world.

End SampleDisk.

(** * Properties *)

(** ** The helpers on strings, paths and counters, by example *)

Example path_join_example :
  PathLib.of_str "/srv/app" // "static" // "app/html/x.html"
  = mkPath true ["srv"; "app"; "static"; "app"; "html"; "x.html"].
Proof. reflexivity. Qed.

Example rsplit_example :
  Str.rsplit "." 2 "render_static.backends.StaticDjangoTemplates"
  = ["render_static"; "backends"; "StaticDjangoTemplates"]
  /\ Str.rsplit "." 2 "a.b.c.d" = ["a.b"; "c"; "d"]
  /\ Str.rsplit "." 2 "nodots" = ["nodots"].
Proof. repeat split; reflexivity. Qed.

Example counter_example :
  Counter.most_common (Counter.of_list ["a"; "b"; "c"; "b"; "c"; "c"; "d"; "d"])
  = [("c", 3); ("b", 2); ("d", 2); ("a", 1)].
Proof. reflexivity. Qed.

(** ** Dictionaries *)

Module DictFacts.
Section Facts.
Context {V : Type}.
Implicit Types (d other : list (string * V)) (k : string) (v : V).

Lemma get_set k k' v d :
  Dict.get k (Dict.set k' v d) = if String.eqb k k' then Some v else Dict.get k d.
Proof.
  induction d as [|[k0 v0] d IH]; simpl.
  - destruct (String.eqb_spec k k'); reflexivity.
  - destruct (String.eqb_spec k' k0) as [->|Hne]; simpl.
    + destruct (String.eqb_spec k k0); reflexivity.
    + rewrite IH. destruct (String.eqb_spec k k0) as [->|]; [|reflexivity].
      destruct (String.eqb_spec k0 k'); congruence.
Qed.

Lemma get_set_eq k v d : Dict.get k (Dict.set k v d) = Some v.
Proof. rewrite get_set, String.eqb_refl. reflexivity. Qed.

Lemma get_set_ne k k' v d : k <> k' -> Dict.get k (Dict.set k' v d) = Dict.get k d.
Proof.
  intros Hne. rewrite get_set. destruct (String.eqb_spec k k'); congruence.
Qed.

Lemma get_None_keys k d : Dict.get k d = None <-> ~ In k (Dict.keys d).
Proof.
  induction d as [|[k0 v0] d IH]; simpl.
  - tauto.
  - destruct (String.eqb_spec k k0) as [->|Hne].
    + split; [discriminate | intros H; exfalso; apply H; auto].
    + rewrite IH. split; [intros H [?|?]; congruence | tauto].
Qed.

Lemma get_Some_keys k v d : Dict.get k d = Some v -> In k (Dict.keys d).
Proof.
  intros H. destruct (in_dec string_dec k (Dict.keys d)) as [|Hn]; [assumption|].
  apply get_None_keys in Hn. congruence.
Qed.

Lemma get_Some_In k v d : Dict.get k d = Some v -> In (k, v) d.
Proof.
  induction d as [|[k0 v0] d IH]; simpl; [discriminate|].
  destruct (String.eqb_spec k k0) as [->|Hne].
  - intros [= ->]. auto.
  - auto.
Qed.

Lemma In_get k v d : List.NoDup (Dict.keys d) -> In (k, v) d -> Dict.get k d = Some v.
Proof.
  induction d as [|[k0 v0] d IH]; simpl; [tauto|].
  intros Hnd [Heq|Hin].
  - injection Heq as -> ->. rewrite String.eqb_refl. reflexivity.
  - apply List.NoDup_cons_iff in Hnd as [Hnotin Hnd].
    destruct (String.eqb_spec k k0) as [->|Hne]; [|auto].
    exfalso. apply Hnotin. change (In k0 (List.map fst d)).
    apply in_map_iff. exists (k0, v). auto.
Qed.

Lemma keys_set k v d :
  Dict.keys (Dict.set k v d)
  = if Dict.mem k d then Dict.keys d else Dict.keys d ++ [k].
Proof.
  unfold Dict.mem. induction d as [|[k0 v0] d IH]; simpl; [reflexivity|].
  destruct (String.eqb_spec k k0) as [->|Hne]; simpl; [reflexivity|].
  rewrite IH. destruct (Dict.get k d); reflexivity.
Qed.

Lemma keys_set_In k k' v d :
  In k (Dict.keys (Dict.set k' v d)) <-> k = k' \/ In k (Dict.keys d).
Proof.
  rewrite keys_set. unfold Dict.mem.
  destruct (Dict.get k' d) eqn:Hg.
  - apply get_Some_keys in Hg. split; [auto|]. intros [->|]; auto.
  - rewrite in_app_iff. simpl. split; intros H; [|]; intuition congruence.
Qed.

Lemma NoDup_keys_set k v d :
  List.NoDup (Dict.keys d) -> List.NoDup (Dict.keys (Dict.set k v d)).
Proof.
  intros Hnd. rewrite keys_set. unfold Dict.mem.
  destruct (Dict.get k d) eqn:Hg; [assumption|].
  apply get_None_keys in Hg.
  apply List.NoDup_app; auto.
  - constructor; [simpl; tauto | constructor].
  - intros x Hx [<-|[]]. exact (Hg Hx).
Qed.

Lemma get_update k d other :
  List.NoDup (Dict.keys other) ->
  Dict.get k (Dict.update d other)
  = match Dict.get k other with Some v => Some v | None => Dict.get k d end.
Proof.
  unfold Dict.update. revert d.
  induction other as [|[k0 v0] other IH]; intros d Hnd; simpl; [reflexivity|].
  apply List.NoDup_cons_iff in Hnd as [Hnotin Hnd].
  rewrite IH by assumption.
  destruct (String.eqb_spec k k0) as [->|Hne].
  - assert (Dict.get k0 other = None) as -> by (apply get_None_keys; exact Hnotin).
    apply get_set_eq.
  - rewrite get_set_ne by assumption. reflexivity.
Qed.

Lemma NoDup_keys_update d other :
  List.NoDup (Dict.keys d) -> List.NoDup (Dict.keys (Dict.update d other)).
Proof.
  unfold Dict.update. revert d.
  induction other as [|[k0 v0] other IH]; intros d Hnd; simpl; [assumption|].
  apply IH, NoDup_keys_set, Hnd.
Qed.

Lemma keys_update_In k d other :
  In k (Dict.keys (Dict.update d other))
  <-> In k (Dict.keys d) \/ In k (Dict.keys other).
Proof.
  unfold Dict.update. revert d.
  induction other as [|[k0 v0] other IH]; intros d; simpl; [tauto|].
  rewrite IH, keys_set_In. intuition.
Qed.

End Facts.
End DictFacts.

(** ** Template configuration entries *)

(** C8. A [dest] that is given (not [None]) and is either not a string or
    path, or a relative path, makes [TemplateConfig.__init__] raise
    [ImproperlyConfigured], whatever the context; an absolute string or path
    is stored as the entry's destination (the entry's [context] being, as its
    type says, absent or a dictionary). *)
Theorem template_config_dest_validation (name : string) (dest context : value) :
  (dest <> VNone ->
   (forall p, to_path dest = inr p -> PathLib.is_absolute p = false) ->
   exists msg, TemplateConfigClass.init name dest context = inl (ImproperlyConfigured msg)
               /\ In (Fmt (VStr name)) msg)
  /\
  (forall p, to_path dest = inr p -> PathLib.is_absolute p = true ->
     context = VNone \/ (exists r, context = VDict r) ->
     exists tc, TemplateConfigClass.init name dest context = inr tc
                /\ TemplateConfigClass.dest tc = Some p).
Proof.
  split.
  - intros Hgiven Hrel. unfold TemplateConfigClass.init.
    destruct dest; try congruence;
      try (eexists; split; [reflexivity | simpl; auto]).
    + unfold TemplateConfigClass.check_absolute.
      rewrite (Hrel (PathLib.of_str s) eq_refl).
      eexists; split; [reflexivity | simpl; auto].
    + unfold TemplateConfigClass.check_absolute.
      rewrite (Hrel p eq_refl).
      eexists; split; [reflexivity | simpl; auto].
  - intros p Hp Habs Hctx. unfold TemplateConfigClass.init.
    assert (match dest with
            | VNone => inr None
            | VStr s => TemplateConfigClass.check_absolute name (PathLib.of_str s)
            | VPath q => TemplateConfigClass.check_absolute name q
            | _ => inl (ImproperlyConfigured
                          [Lit "Template "; Fmt (VStr name);
                           Lit " 'dest' parameter in STATIC_TEMPLATES must be a string or path-like object, not ";
                           FmtType dest])
            end = inr (Some p)) as ->.
    { destruct dest; simpl in Hp; try discriminate;
        injection Hp as <-; unfold TemplateConfigClass.check_absolute;
        rewrite Habs; reflexivity. }
    destruct Hctx as [-> | [r ->]]; eexists; split; reflexivity.
Qed.

Lemma template_config_dest_validation_witness :
  (exists msg, TemplateConfigClass.init "app/x.html" (VStr "static/x.html") VNone
               = inl (ImproperlyConfigured msg) /\ In (Fmt (VStr "app/x.html")) msg)
  /\ (exists msg, TemplateConfigClass.init "app/x.html" (VInt 7) VNone
                  = inl (ImproperlyConfigured msg) /\ In (Fmt (VStr "app/x.html")) msg)
  /\ (exists tc, TemplateConfigClass.init "app/x.html" (VStr "/srv/static/x.html") VNone = inr tc
                 /\ TemplateConfigClass.dest tc = Some (mkPath true ["srv"; "static"; "x.html"])).
Proof.
  split; [|split].
  - apply (template_config_dest_validation "app/x.html" (VStr "static/x.html") VNone).
    + discriminate.
    + intros p [= <-]. reflexivity.
  - apply (template_config_dest_validation "app/x.html" (VInt 7) VNone).
    + discriminate.
    + intros p [=].
  - apply (template_config_dest_validation "app/x.html" (VStr "/srv/static/x.html") VNone).
    + reflexivity.
    + reflexivity.
    + left; reflexivity.
Defined.

(** ** Running the monad *)

Lemma bind_run {A B} (m : M A) (k : A -> M B) (s : State) :
  bind m k s = match m s with
               | (inr a, s') => k a s'
               | (inl e, s') => (inl e, s')
               end.
Proof. reflexivity. Qed.

Lemma cached_property_hit {A} (read : State -> option A) write body s a :
  read s = Some a -> cached_property read write body s = (inr a, s).
Proof. intros H. unfold cached_property. rewrite H. reflexivity. Qed.

Lemma cached_property_miss {A} (read : State -> option A) write body s :
  read s = None ->
  cached_property read write body s
  = match body s with
    | (inr a, s') => (inr a, write a s')
    | failed => failed
    end.
Proof. intros H. unfold cached_property. rewrite H. reflexivity. Qed.

(** ** The configuration *)

Section ConfigFacts.
Variable host : Host.

Lemma config_cached s c : cached_config s = Some c -> config host s = (inr c, s).
Proof. intros H. unfold config. apply cached_property_hit, H. Qed.

Lemma config_given s r :
  cached_config s = None ->
  config_ s = Some (VDict r) ->
  deref (store s) r <> [] ->
  fst (config host s) = root_key_check (store s) r.
Proof.
  intros Hc Hg Hne.
  unfold config, cached_property, root_key_check, bind, get_state, ret, raise, self_config_.
  rewrite Hc, Hg. simpl.
  destruct (deref (store s) r) as [|kv d] eqn:Hd; [congruence|]. simpl. rewrite Hd.
  destruct (unrecognized_keys_of (kv :: d)); reflexivity.
Qed.

Lemma config_from_settings s r :
  cached_config s = None ->
  truthy (store s) (self_config_ s) = false ->
  STATIC_TEMPLATES host = Some (VDict r) ->
  fst (config host s) = root_key_check (store s) r.
Proof.
  intros Hc Hf Hs.
  unfold config, cached_property, root_key_check, bind, get_state, ret, raise, modify.
  rewrite Hc, Hf, Hs. simpl.
  destruct (unrecognized_keys_of (deref (store s) r)); reflexivity.
Qed.

End ConfigFacts.

Lemma unrecognized_keys_of_spec (d : dict) (k : string) :
  In k (unrecognized_keys_of d)
  <-> In k (Dict.keys d) /\ k <> "ENGINES" /\ k <> "templates" /\ k <> "context".
Proof.
  unfold unrecognized_keys_of, recognized_key. rewrite filter_In.
  destruct (String.eqb_spec k "ENGINES"), (String.eqb_spec k "templates"),
    (String.eqb_spec k "context"); simpl; intuition congruence.
Qed.

(** C6. Let [d] be the configuration mapping, given to the constructor (where
    it counts when it is not empty) or found in [settings.STATIC_TEMPLATES].
    If [d] has a root key other than ENGINES, templates and context, reading
    [engine.config] raises [ImproperlyConfigured] and the message shows the
    list of exactly those keys, in the mapping's order; if every root key is
    one of the three, the check passes and the mapping is returned. *)
Theorem root_keys_validated (host : Host) (world : State) (r : loc) :
  let d := deref (store world) r in
  let unknown := unrecognized_keys_of d in
  let rejected :=
    inl (ImproperlyConfigured
           [Lit "Unrecognized STATIC_TEMPLATES configuration directives: ";
            Fmt (VList (List.map VStr unknown))]) in
  (forall k, In k unknown
             <-> In k (Dict.keys d) /\ k <> "ENGINES" /\ k <> "templates" /\ k <> "context")
  /\ ((exists k, In k (Dict.keys d) /\ ~ In k ["ENGINES"; "templates"; "context"]) ->
      fst (config host (init (VDict r) world)) = rejected
      /\ (STATIC_TEMPLATES host = Some (VDict r) ->
          deref (store world) cls_config_ = [] ->
          fst (config host (init VNone world)) = rejected))
  /\ ((forall k, In k (Dict.keys d) -> In k ["ENGINES"; "templates"; "context"]) ->
      (d <> [] -> fst (config host (init (VDict r) world)) = inr r)
      /\ (STATIC_TEMPLATES host = Some (VDict r) ->
          deref (store world) cls_config_ = [] ->
          fst (config host (init VNone world)) = inr r)).
Proof.
  intros d unknown rejected.
  assert (Hgiven : d <> [] ->
            fst (config host (init (VDict r) world)) = root_key_check (store world) r).
  { intros Hne. rewrite config_given with (r := r); try reflexivity.
    - unfold init. cbn [config_ truthy]. fold d.
      destruct d; [congruence | reflexivity].
    - exact Hne. }
  assert (Hsettings : STATIC_TEMPLATES host = Some (VDict r) ->
            deref (store world) cls_config_ = [] ->
            fst (config host (init VNone world)) = root_key_check (store world) r).
  { intros Hs Hcls. rewrite config_from_settings with (r := r); try reflexivity.
    - unfold self_config_, init. cbn [config_ truthy default store]. rewrite Hcls. reflexivity.
    - exact Hs. }
  split; [intros k; apply unrecognized_keys_of_spec|].
  split.
  - intros [k [Hin Hout]].
    assert (Hk : In k unknown).
    { apply unrecognized_keys_of_spec. split; [exact Hin|].
      simpl in Hout. intuition. }
    assert (Hcheck : root_key_check (store world) r = rejected).
    { unfold root_key_check, rejected. fold d. fold unknown.
      destruct unknown; [destruct Hk | reflexivity]. }
    split.
    + rewrite Hgiven; [exact Hcheck|].
      intros Hd. fold d in Hin. rewrite Hd in Hin. exact Hin.
    + intros Hs Hcls. rewrite Hsettings by assumption. exact Hcheck.
  - intros Hall.
    assert (Hcheck : root_key_check (store world) r = inr r).
    { unfold root_key_check. fold d. fold unknown.
      destruct unknown as [|k rest] eqn:Hu; [reflexivity|].
      assert (Hk : In k unknown) by (rewrite Hu; left; reflexivity).
      apply unrecognized_keys_of_spec in Hk as (Hin & H1 & H2 & H3).
      apply Hall in Hin. simpl in Hin. intuition congruence. }
    split.
    + intros Hne. rewrite Hgiven by assumption. exact Hcheck.
    + intros Hs Hcls. rewrite Hsettings by assumption. exact Hcheck.
Qed.

Lemma root_keys_validated_witness :
  fst (config Sample.bare_host (init (VDict 4) Sample.bad_root))
  = inl (ImproperlyConfigured
           [Lit "Unrecognized STATIC_TEMPLATES configuration directives: ";
            Fmt (VList [VStr "bogus"; VStr "extra"])])
  /\ fst (config Sample.bare_host (init (VDict 4) Sample.good_root)) = inr 4.
Proof.
  split.
  - destruct (root_keys_validated Sample.bare_host Sample.bad_root 4) as (_ & Hbad & _).
    apply Hbad. exists "bogus". split.
    + simpl. auto.
    + simpl. intros [H|[H|[H|[]]]]; discriminate H.
  - destruct (root_keys_validated Sample.bare_host Sample.good_root 4) as (_ & _ & Hgood).
    apply Hgood.
    + simpl. intros k [<-|[<-|[]]]; auto.
    + discriminate.
Defined.

(** ** The store *)

Lemma deref_alloc (h : heap) (d : dict) : deref (h ++ [d]) (length h) = d.
Proof. unfold deref. rewrite list_lookup_middle by reflexivity. reflexivity. Qed.

Lemma deref_alloc_old (h : heap) (d : dict) (r : loc) :
  r < length h -> deref (h ++ [d]) r = deref h r.
Proof. intros H. unfold deref. rewrite lookup_app_l by exact H. reflexivity. Qed.

Lemma deref_insert_eq (h : heap) (d : dict) (r : loc) :
  r < length h -> deref (<[r := d]> h) r = d.
Proof. intros H. unfold deref. rewrite list_lookup_insert_eq by exact H. reflexivity. Qed.

Lemma deref_insert_ne (h : heap) (d : dict) (r r' : loc) :
  r <> r' -> deref (<[r := d]> h) r' = deref h r'.
Proof. intros H. unfold deref. rewrite list_lookup_insert_ne by exact H. reflexivity. Qed.

Lemma deref_in_range (h : heap) (r : loc) : deref h r <> [] -> r < length h.
Proof.
  unfold deref. intros H. destruct (h !! r) eqn:E.
  - eapply lookup_lt_Some, E.
  - simpl in H. congruence.
Qed.

(** ** The global context *)

Section ContextFacts.
Variable host : Host.

Lemma context_run s cfg s1 :
  cached_context s = None ->
  config host s = (inr cfg, s1) ->
  context host s
  = match declared_global (store s1) cfg with
    | Some G =>
        let g := length (store s1) in
        (inr g,
         with_cached_context g
           (with_store (store s1 ++ [Dict.update [("settings", VSettings)] G]) s1))
    | None =>
        (inl (ImproperlyConfigured
                [Lit "STATIC_TEMPLATES 'context' configuration directive must be a dictionary!"]),
         s1)
    end.
Proof.
  intros Hc Hcfg.
  unfold context, cached_property, declared_global, bind. rewrite Hc, Hcfg.
  unfold get_state, ret, raise, alloc.
  destruct (Dict.get "context" (deref (store s1) cfg)) as [[]|]; reflexivity.
Qed.

End ContextFacts.

(** C9, as amended. For a valid configuration whose declared global context
    is a dictionary [G] (or is absent, [G] empty), the global context the
    engine computes holds every key of [G] with its declared value, holds
    the key 'settings', and holds nothing else; 'settings' is the host's
    settings object unless [G] declares a key 'settings' of its own, whose
    value is then the one kept. *)
Theorem global_context_contents (host : Host) (s s1 : State) (cfg : loc) (G : dict) :
  cached_context s = None ->
  config host s = (inr cfg, s1) ->
  declared_global (store s1) cfg = Some G ->
  List.NoDup (Dict.keys G) ->
  exists g s',
    context host s = (inr g, s')
    /\ cached_context s' = Some g
    /\ (forall k v, Dict.get k G = Some v -> Dict.get k (deref (store s') g) = Some v)
    /\ Dict.get "settings" (deref (store s') g)
       = Some (default VSettings (Dict.get "settings" G))
    /\ (forall k, In k (Dict.keys (deref (store s') g))
                  <-> k = "settings" \/ In k (Dict.keys G)).
Proof.
  intros Hc Hcfg HG Hnd.
  rewrite (context_run host s cfg s1 Hc Hcfg), HG. cbn zeta.
  eexists _, _. split; [reflexivity|].
  cbn [store with_cached_context with_store cached_context].
  rewrite deref_alloc.
  split; [reflexivity|]. split; [|split].
  - intros k v Hk. rewrite DictFacts.get_update by exact Hnd. rewrite Hk. reflexivity.
  - rewrite DictFacts.get_update by exact Hnd.
    destruct (Dict.get "settings" G); reflexivity.
  - intros k. rewrite DictFacts.keys_update_In. simpl. intuition.
Qed.

Lemma global_context_contents_witness :
  exists g s',
    context Sample.bare_host SampleContext.engine = (inr g, s')
    /\ Dict.get "a" (deref (store s') g) = Some (VInt 1)
    /\ Dict.get "settings" (deref (store s') g) = Some (VStr "mine").
Proof.
  destruct (global_context_contents Sample.bare_host SampleContext.engine
              (snd (config Sample.bare_host SampleContext.engine)) 4
              [("settings", VStr "mine"); ("a", VInt 1)])
    as (g & s' & Hrun & _ & Hkeep & Hsettings & _).
  - reflexivity.
  - reflexivity.
  - reflexivity.
  - repeat constructor; simpl; intuition discriminate.
  - exists g, s'. split; [exact Hrun|]. split.
    + apply Hkeep. reflexivity.
    + exact Hsettings.
Defined.

(** C9 as stated fails: the configuration [{'context': {'settings': 'mine',
    'a': 1}}] is valid, and the 'settings' entry of the computed global
    context is the caller's string, not the host's settings object. *)
Lemma global_context_settings_shadowed :
  fst (config Sample.bare_host SampleContext.engine) = inr 4
  /\ fst (context Sample.bare_host SampleContext.engine) = inr 6
  /\ Dict.get "settings"
       (deref (store (snd (context Sample.bare_host SampleContext.engine))) 6)
     = Some (VStr "mine")
  /\ Dict.get "settings"
       (deref (store (snd (context Sample.bare_host SampleContext.engine))) 6)
     <> Some VSettings.
Proof. repeat split. discriminate. Qed.

(** ** Counting aliases *)

Module CounterFacts.

Lemma tally_bump acc a b :
  tally (Counter.bump acc b) a = (if String.eqb a b then 1 else 0) + tally acc a.
Proof.
  unfold tally, Counter.bump. rewrite DictFacts.get_set.
  destruct (String.eqb_spec a b) as [->|]; reflexivity.
Qed.

Lemma tally_fold names : forall acc a,
  tally (fold_left Counter.bump names acc) a = occurrences names a + tally acc a.
Proof.
  unfold occurrences.
  induction names as [|b names IH]; intros acc a; simpl; [reflexivity|].
  rewrite IH, tally_bump.
  destruct (string_dec b a) as [->|Hne].
  - rewrite String.eqb_refl. lia.
  - destruct (String.eqb_spec a b); [congruence | lia].
Qed.

Lemma keys_fold names : forall acc a,
  In a (Dict.keys (fold_left Counter.bump names acc))
  <-> In a names \/ In a (Dict.keys acc).
Proof.
  induction names as [|b names IH]; intros acc a; simpl; [tauto|].
  rewrite IH. unfold Counter.bump. rewrite DictFacts.keys_set_In.
  intuition congruence.
Qed.

Lemma NoDup_keys_fold names : forall acc,
  List.NoDup (Dict.keys acc) ->
  List.NoDup (Dict.keys (fold_left Counter.bump names acc)).
Proof.
  induction names as [|b names IH]; intros acc Hnd; simpl; [assumption|].
  apply IH, DictFacts.NoDup_keys_set, Hnd.
Qed.

Lemma tally_of_list names a : tally (Counter.of_list names) a = occurrences names a.
Proof. unfold Counter.of_list. rewrite tally_fold. unfold tally. simpl. lia. Qed.

Lemma NoDup_keys_of_list names : List.NoDup (Dict.keys (Counter.of_list names)).
Proof. apply NoDup_keys_fold. constructor. Qed.

(** An entry of the counter is an alias with the number of times it occurs. *)
Lemma In_of_list names a n :
  In (a, n) (Counter.of_list names) <-> (n = occurrences names a /\ 0 < n).
Proof.
  split.
  - intros Hin.
    pose proof (DictFacts.In_get a n _ (NoDup_keys_of_list names) Hin) as Hget.
    pose proof (tally_of_list names a) as Ht. unfold tally in Ht.
    rewrite Hget in Ht. simpl in Ht. split; [exact Ht|].
    assert (In a names) as Hn.
    { assert (In a (Dict.keys (Counter.of_list names))) as Hk
        by (eapply DictFacts.get_Some_keys, Hget).
      apply keys_fold in Hk. simpl in Hk. tauto. }
    subst n. unfold occurrences. apply count_occ_In, Hn.
  - intros [-> Hpos].
    assert (In a names) as Hn by (eapply count_occ_In, Hpos).
    assert (In a (Dict.keys (Counter.of_list names))) as Hk
      by (apply keys_fold; auto).
    destruct (Dict.get a (Counter.of_list names)) as [m|] eqn:Hget.
    + pose proof (tally_of_list names a) as Ht. unfold tally in Ht.
      rewrite Hget in Ht. simpl in Ht. subst m.
      apply DictFacts.get_Some_In, Hget.
    + apply DictFacts.get_None_keys in Hget. contradiction.
Qed.

Lemma insert_desc_perm x l : Permutation (Counter.insert_desc x l) (x :: l).
Proof.
  induction l as [|y l IH]; simpl; [reflexivity|].
  destruct (Nat.ltb (snd x) (snd y)); [|reflexivity].
  rewrite IH. apply perm_swap.
Qed.

Lemma most_common_perm c : Permutation (Counter.most_common c) c.
Proof.
  unfold Counter.most_common.
  induction c as [|x c IH]; simpl; [reflexivity|].
  rewrite insert_desc_perm. apply perm_skip, IH.
Qed.

Lemma insert_desc_sorted x l :
  StronglySorted by_decreasing_count l ->
  StronglySorted by_decreasing_count (Counter.insert_desc x l).
Proof.
  induction 1 as [|y l Hl IH Hy]; simpl.
  - repeat constructor.
  - destruct (Nat.ltb_spec (snd x) (snd y)) as [Hlt|Hge].
    + constructor; [exact IH|].
      rewrite (insert_desc_perm x l). constructor; [|exact Hy].
      unfold by_decreasing_count. lia.
    + constructor; [constructor; assumption|].
      constructor; [exact Hge|].
      eapply List.Forall_impl; [|exact Hy].
      unfold by_decreasing_count. intros z Hz. lia.
Qed.

Lemma most_common_sorted c : StronglySorted by_decreasing_count (Counter.most_common c).
Proof.
  unfold Counter.most_common.
  induction c as [|x c IH]; simpl; [constructor|].
  apply insert_desc_sorted, IH.
Qed.

Lemma NoDup_keys_filter {V} (f : string * V -> bool) (l : list (string * V)) :
  List.NoDup (Dict.keys l) -> List.NoDup (Dict.keys (List.filter f l)).
Proof.
  induction l as [|x l IH]; simpl; [auto|].
  intros Hnd. apply List.NoDup_cons_iff in Hnd as [Hx Hnd].
  destruct (f x); [|auto].
  simpl. constructor; [|auto].
  intros Hin. apply Hx.
  unfold Dict.keys in *. apply in_map_iff in Hin as (y & Hy & Hin).
  apply filter_In in Hin as [Hin _].
  apply in_map_iff. exists y. auto.
Qed.

End CounterFacts.

Lemma duplicates_of_spec (names : list string) (a : string) :
  In a (duplicates_of names) <-> 2 <= occurrences names a.
Proof.
  unfold duplicates_of. rewrite in_map_iff. split.
  - intros ([a' n] & <- & Hin). simpl.
    apply filter_In in Hin as [Hin Hn]. simpl in Hn.
    apply Nat.ltb_lt in Hn.
    apply (Permutation_in _ (CounterFacts.most_common_perm _)) in Hin.
    apply CounterFacts.In_of_list in Hin as [-> _]. lia.
  - intros Hge. exists (a, occurrences names a). split; [reflexivity|].
    apply filter_In. split.
    + apply (Permutation_in _ (Permutation_sym (CounterFacts.most_common_perm _))).
      apply CounterFacts.In_of_list. split; [reflexivity | lia].
    + simpl. apply Nat.ltb_lt. lia.
Qed.

Lemma duplicates_of_NoDup (names : list string) : List.NoDup (duplicates_of names).
Proof.
  unfold duplicates_of.
  apply (CounterFacts.NoDup_keys_filter (fun ac => Nat.ltb 1 (snd ac))).
  unfold Dict.keys.
  eapply Permutation_NoDup.
  - apply Permutation_map, Permutation_sym, CounterFacts.most_common_perm.
  - apply CounterFacts.NoDup_keys_of_list.
Qed.

(** ** The default alias *)

Lemma last_cons_nonempty (x : string) (l : list string) (d : string) :
  l <> [] -> List.last (x :: l) d = List.last l d.
Proof. destruct l; [congruence | reflexivity]. Qed.

Lemma last_drop (l : list string) (d : string) : forall k,
  k < length l -> List.last (drop k l) d = List.last l d.
Proof.
  induction l as [|x l IH]; intros k Hk; simpl in Hk; [lia|].
  destruct k as [|k]; [reflexivity|].
  change (drop (S k) (x :: l)) with (drop k l).
  rewrite IH by lia. symmetry. apply last_cons_nonempty.
  destruct l; simpl in Hk; [lia | discriminate].
Qed.

Lemma split_nonempty (c : ascii) (s : string) : Str.split c s <> [].
Proof.
  destruct s as [|a s]; simpl; [discriminate|].
  destruct (Ascii.eqb a c); [discriminate|].
  destruct (Str.split c s); discriminate.
Qed.

(** [s.rsplit(c, n)[-1]] is the last piece of [s.split(c)] as soon as [n >= 1]. *)
Lemma rsplit_last (c : ascii) (n : nat) (s : string) :
  Str.last_item (Str.rsplit c (S n) s) = Str.last_item (Str.split c s).
Proof.
  unfold Str.rsplit, Str.last_item.
  pose proof (split_nonempty c s) as Hne.
  destruct (Nat.leb_spec (length (Str.split c s)) (S (S n))) as [Hle|Hgt]; [reflexivity|].
  set (pieces := Str.split c s) in *.
  assert (Hk : length pieces - S n < length pieces) by lia.
  rewrite last_cons_nonempty.
  - apply last_drop, Hk.
  - intros Hnil. apply (f_equal (@length string)) in Hnil.
    rewrite length_drop in Hnil. simpl in Hnil. lia.
Qed.

(** ** Backend resolution *)

Lemma resolves_to_grows (h ext : heap) (def : value) (alias : string) :
  resolves_to h def alias -> resolves_to (h ++ ext) def alias.
Proof.
  intros (b & path & -> & Hnd & Hb & Hn).
  assert (Hsame : deref (h ++ ext) b = deref h b).
  { unfold deref. rewrite lookup_app_l; [reflexivity|].
    apply deref_in_range. intros Hnil. rewrite Hnil in Hb. discriminate. }
  exists b, path. rewrite Hsame. auto.
Qed.

Lemma with_store_twice (h h' : heap) (s : State) :
  with_store h (with_store h' s) = with_store h s.
Proof. reflexivity. Qed.

Lemma backend_entry_run (s : State) (def : value) (alias : string) :
  resolves_to (store s) def alias ->
  exists merged,
    backend_entry def s = (inr (alias, merged), with_store (store s ++ [[]]) s)
    /\ (exists path, Dict.get "BACKEND" merged = Some (VStr path)).
Proof.
  intros (b & path & -> & Hnd & Hb & Hn).
  unfold backend_entry, bind, get_state, alloc, ret, raise. rewrite Hb.
  rewrite !DictFacts.get_update by exact Hnd.
  rewrite rsplit_last.
  destruct Hn as [Hn | [Hn ->]]; rewrite Hn; simpl.
  - eexists. split; [reflexivity|]. rewrite DictFacts.get_update, Hb by exact Hnd. eauto.
  - eexists. split; [reflexivity|]. rewrite DictFacts.get_update, Hb by exact Hnd. eauto.
Qed.

Lemma for_each_backend_entry (defs : list value) (aliases : list string) : forall s,
  Forall2 (resolves_to (store s)) defs aliases ->
  exists entries ext,
    for_each backend_entry defs s = (inr entries, with_store (store s ++ ext) s)
    /\ List.map fst entries = aliases.
Proof.
  revert aliases.
  induction defs as [|def defs IH]; intros aliases s Hall.
  - apply Forall2_nil_inv_l in Hall as ->.
    exists [], []. rewrite app_nil_r. destruct s; split; reflexivity.
  - apply Forall2_cons_inv_l in Hall as (alias & aliases' & Hdef & Hrest & ->).
    destruct (backend_entry_run s def alias Hdef) as (merged & Hrun & _).
    destruct (IH aliases' (with_store (store s ++ [[]]) s)) as (entries & ext & Hloop & Hmap).
    { cbn [store with_store].
      eapply Forall2_impl; [exact Hrest|].
      intros x y. apply resolves_to_grows. }
    exists ((alias, merged) :: entries), ([[]] ++ ext).
    split.
    + cbn [for_each]. unfold bind at 1. rewrite Hrun.
      unfold bind at 1. rewrite Hloop. unfold ret.
      cbn [store with_store]. rewrite with_store_twice, <- app_assoc. reflexivity.
    + simpl. rewrite Hmap. reflexivity.
Qed.

Lemma config_result (host : Host) (s s1 : State) (c : loc) :
  config host s = (inr c, s1) -> cached_config s1 = Some c.
Proof.
  unfold config, cached_property.
  destruct (cached_config s) eqn:Hc.
  - intros [= -> <-]. exact Hc.
  - match goal with |- context [match ?b s with _ => _ end] => destruct (b s) as [[e|a] s'] end.
    + discriminate.
    + intros [= -> <-]. reflexivity.
Qed.

Lemma config_again (host : Host) (s s1 : State) (c : loc) :
  config host s = (inr c, s1) -> config host s1 = (inr c, s1).
Proof. intros H. apply config_cached, (config_result host s), H. Qed.

(** C5. When the configured ENGINES is a list of backend definitions and
    some alias is what two or more of them resolve to, [engines] raises
    [ImproperlyConfigured]; its message carries [', '.join(duplicates)],
    where [duplicates] lists, once each, exactly the aliases that occur more
    than once. *)
Theorem duplicate_aliases_rejected
    (host : Host) (s s1 : State) (cfg : loc) (defs : list value) (aliases : list string) :
  cached_engines s = None ->
  config host s = (inr cfg, s1) ->
  Dict.get "ENGINES" (deref (store s1) cfg) = Some (VList defs) ->
  Forall2 (resolves_to (store s1)) defs aliases ->
  (exists a, 2 <= count_occ string_dec aliases a) ->
  exists duplicates,
    fst (engines host s)
    = inl (ImproperlyConfigured
             [Lit "Template engine aliases are not unique, duplicates: ";
              Fmt (VStr (Str.join ", " duplicates));
              Lit ". Set a unique NAME for each engine in settings.STATIC_TEMPLATES."])
    /\ duplicates <> []
    /\ List.NoDup duplicates
    /\ (forall a, In a duplicates <-> 2 <= count_occ string_dec aliases a).
Proof.
  intros Hc Hcfg Hdefs Hres [a Ha].
  exists (duplicates_of aliases).
  assert (Hin : In a (duplicates_of aliases)) by (apply duplicates_of_spec, Ha).
  split; [|split; [|split]].
  - unfold engines. rewrite cached_property_miss by exact Hc.
    unfold bind at 1. unfold ensure_engines.
    unfold bind at 1. rewrite Hcfg.
    unfold bind at 1. cbn [get_state]. rewrite Hdefs. cbn [has_iter ret].
    unfold build_engines.
    unfold bind at 1. rewrite (config_again host s s1 cfg Hcfg).
    unfold bind at 1. cbn [get_state]. rewrite Hdefs.
    change (default (VList []) (Some (VList defs))) with (VList defs). cbn [iterate].
    destruct (for_each_backend_entry defs aliases s1 Hres) as (entries & ext & Hloop & Hmap).
    unfold bind at 1. rewrite Hloop, Hmap.
    destruct (duplicates_of aliases) eqn:Hd; [destruct Hin|].
    reflexivity.
  - intros Hnil. rewrite Hnil in Hin. destruct Hin.
  - apply duplicates_of_NoDup.
  - intros x. apply duplicates_of_spec.
Qed.

Lemma duplicate_aliases_rejected_witness :
  exists duplicates,
    fst (engines Sample.bare_host SampleDuplicates.engine)
    = inl (ImproperlyConfigured
             [Lit "Template engine aliases are not unique, duplicates: ";
              Fmt (VStr (Str.join ", " duplicates));
              Lit ". Set a unique NAME for each engine in settings.STATIC_TEMPLATES."])
    /\ In "One" duplicates /\ In "dup" duplicates /\ ~ In "Solo" duplicates.
Proof.
  destruct (duplicate_aliases_rejected Sample.bare_host SampleDuplicates.engine
              (snd (config Sample.bare_host SampleDuplicates.engine)) 4
              SampleDuplicates.defs SampleDuplicates.aliases)
    as (duplicates & Hrun & _ & _ & Hspec).
  - reflexivity.
  - reflexivity.
  - reflexivity.
  - repeat constructor;
      (eexists _, _; split; [reflexivity|]; split;
       [ repeat constructor; simpl; intuition discriminate
       | split; [reflexivity | first [left; reflexivity | right; split; reflexivity]] ]).
  - exists "One". vm_compute. lia.
  - exists duplicates. split; [exact Hrun|]. repeat split.
    + apply Hspec. vm_compute. lia.
    + apply Hspec. vm_compute. lia.
    + intros H. apply Hspec in H. vm_compute in H. lia.
Defined.

Example duplicates_message :
  fst (engines Sample.bare_host SampleDuplicates.engine)
  = inl (ImproperlyConfigured
           [Lit "Template engine aliases are not unique, duplicates: ";
            Fmt (VStr "One, dup");
            Lit ". Set a unique NAME for each engine in settings.STATIC_TEMPLATES."]).
Proof. reflexivity. Qed.

(** ** The mapping of backends has distinct aliases *)

Lemma collect_keys_NoDup (entries : list (string * dict)) :
  List.NoDup (Dict.keys (collect entries)).
Proof.
  unfold collect.
  assert (Hgen : forall acc : list (string * dict),
             List.NoDup (Dict.keys acc) ->
             List.NoDup (Dict.keys (fold_left (fun engines e => Dict.set (fst e) (snd e) engines)
                                              entries acc))).
  { induction entries as [|e entries IH]; intros acc Hacc; cbn [fold_left]; [exact Hacc|].
    apply IH, DictFacts.NoDup_keys_set, Hacc. }
  apply Hgen. constructor.
Qed.

Lemma for_each_instantiate_keys (host : Host) (entries : list (string * dict)) :
  forall s engs s',
    for_each (instantiate host) entries s = (inr engs, s') ->
    Dict.keys engs = Dict.keys entries.
Proof.
  induction entries as [|e entries IH]; intros s engs s' Hrun.
  - injection Hrun as <- _. reflexivity.
  - cbn [for_each] in Hrun. unfold bind at 1 in Hrun.
    destruct (instantiate host e s) as [[x|[alias b]] s1] eqn:He; [discriminate|].
    unfold bind at 1 in Hrun.
    destruct (for_each (instantiate host) entries s1) as [[x|rest] s2] eqn:Hrest;
      [discriminate|].
    injection Hrun as <- _.
    unfold instantiate, bind, lift, ret, raise in He.
    destruct (Dict.get "BACKEND" (snd e)) as [[]|]; try discriminate.
    destruct (import_string host s0 _); [discriminate|].
    injection He as <- _ _.
    cbn [Dict.keys List.map fst]. f_equal. apply (IH _ _ _ Hrest).
Qed.

(** Whenever [engines] builds the mapping, its aliases are distinct. *)
Lemma engines_keys_distinct (host : Host) (s s' : State) (engs : list (string * Backend)) :
  cached_engines s = None ->
  engines host s = (inr engs, s') ->
  List.NoDup (Dict.keys engs).
Proof.
  intros Hc. unfold engines. rewrite cached_property_miss by exact Hc.
  unfold bind at 1.
  destruct (ensure_engines host s) as [[e|[]] s1]; [discriminate|].
  unfold build_engines. unfold bind at 1.
  destruct (config host s1) as [[e|cfg] s2]; [discriminate|].
  unfold bind at 1. cbn [get_state].
  destruct (iterate (store s2) _) as [defs|]; [|discriminate].
  unfold bind at 1.
  destruct (for_each backend_entry defs s2) as [[e|entries] s3]; [discriminate|].
  destruct (duplicates_of (List.map fst entries)); [|discriminate].
  destruct (for_each (instantiate host) (collect entries) s3) as [[e|built] s4] eqn:Hinst;
    [discriminate|].
  intros [= <- _].
  rewrite (for_each_instantiate_keys host _ _ _ _ Hinst).
  apply collect_keys_NoDup.
Qed.

(** ** The backends, in order of precedence *)

Section LookupFacts.
Variable host : Host.

Lemma engines_cached s e : cached_engines s = Some e -> engines host s = (inr e, s).
Proof. intros H. unfold engines. apply cached_property_hit, H. Qed.

Lemma engines_result s s' e :
  engines host s = (inr e, s') -> cached_engines s' = Some e.
Proof.
  unfold engines, cached_property.
  destruct (cached_engines s) eqn:Hc.
  - intros [= -> <-]. exact Hc.
  - match goal with |- context [match ?b s with _ => _ end] => destruct (b s) as [[x|a] s0] end.
    + discriminate.
    + intros [= -> <-]. reflexivity.
Qed.

Lemma getitem_run alias s :
  getitem host alias s
  = match engines host s with
    | (inr engs, s1) =>
        match Dict.get alias engs with
        | Some b => (inr b, s1)
        | None =>
            (inl (InvalidTemplateEngineError
                    [Lit "Could not find config for '"; Fmt (VStr alias);
                     Lit "' in settings.STATIC_TEMPLATES"]), s1)
        end
    | (inl e, s1) =>
        (inl (if is_KeyError e
              then InvalidTemplateEngineError
                     [Lit "Could not find config for '"; Fmt (VStr alias);
                      Lit "' in settings.STATIC_TEMPLATES"]
              else e), s1)
    end.
Proof.
  unfold getitem, catch. unfold bind at 1.
  destruct (engines host s) as [[e|engs] s1].
  - destruct (is_KeyError e); reflexivity.
  - destruct (Dict.get alias engs); reflexivity.
Qed.

Lemma getitem_cached s e alias b :
  cached_engines s = Some e -> Dict.get alias e = Some b ->
  getitem host alias s = (inr b, s).
Proof.
  intros Hc Hb. rewrite getitem_run, (engines_cached s e Hc), Hb. reflexivity.
Qed.

Lemma for_each_getitem s e :
  cached_engines s = Some e ->
  List.NoDup (Dict.keys e) ->
  forall sub, incl sub e ->
  for_each (getitem host) (Dict.keys sub) s = (inr (Dict.values sub), s).
Proof.
  intros Hc Hnd sub. induction sub as [|[alias b] sub IH]; intros Hincl; [reflexivity|].
  cbn [Dict.keys Dict.values List.map fst snd for_each].
  unfold bind at 1.
  rewrite (getitem_cached s e alias b Hc).
  - unfold bind at 1. unfold Dict.keys, Dict.values in IH. rewrite IH; [reflexivity|].
    intros x Hx. apply Hincl. right. exact Hx.
  - apply DictFacts.In_get; [exact Hnd|]. apply Hincl. left. reflexivity.
Qed.

(** [all] lists the backend instances in the order of the mapping. *)
Lemma all_run s s' e :
  engines host s = (inr e, s') ->
  List.NoDup (Dict.keys e) ->
  all host s = (inr (Dict.values e), s').
Proof.
  intros He Hnd. unfold all, iter. unfold bind at 1. unfold bind at 1.
  rewrite He. cbn [ret].
  apply (for_each_getitem s' e);
    [exact (engines_result s s' e He) | exact Hnd | apply incl_refl].
Qed.

End LookupFacts.

Lemma lookup_loop_all_miss (template_name : string) (backends : list Backend) :
  Forall (misses template_name) backends ->
  forall template chain,
  exists chain',
    lookup_loop template_name backends template chain = inr (template, chain ++ chain')
    /\ Forall2 (fun engine tdne => get_template engine template_name = inl tdne
                                   /\ is_TemplateDoesNotExist tdne = true)
               backends chain'.
Proof.
  induction 1 as [|engine backends (tdne & Hget & Htd) _ IH]; intros template chain.
  - exists []. rewrite app_nil_r. split; [reflexivity | constructor].
  - destruct (IH template (chain ++ [tdne])) as (chain' & Hloop & Hall).
    exists (tdne :: chain'). split.
    + cbn [lookup_loop]. rewrite Hget, Htd, Hloop, <- app_assoc. reflexivity.
    + constructor; auto.
Qed.

(** The loop keeps the template of the last backend that resolves the name. *)
Lemma lookup_loop_keeps_last (template_name : string) (before after : list Backend)
    (engine : Backend) (found : Template) :
  get_template engine template_name = inr found ->
  Forall (misses template_name) after ->
  forall template chain,
  match lookup_loop template_name (before ++ engine :: after) template chain with
  | inr (kept, _) => kept = Some found
  | inl _ => True
  end.
Proof.
  intros Hfound Hafter.
  induction before as [|b before IH]; intros template chain.
  - cbn [app lookup_loop]. rewrite Hfound.
    destruct (lookup_loop_all_miss template_name after Hafter (Some found) chain)
      as (chain' & -> & _).
    reflexivity.
  - cbn [app lookup_loop]. destruct (get_template b template_name) as [e|t].
    + destruct (is_TemplateDoesNotExist e); [apply IH | exact I].
    + apply IH.
Qed.

(** C1 does not hold of the code. Both backends of [SampleLookup] resolve
    'x.html', [all] lists them in declared order, and [render_to_disk]
    renders the template of the second one: the loop assigns [template] at
    every hit and never leaves early. *)
Theorem render_uses_last_resolving_backend :
  fst (all SampleLookup.host SampleLookup.engine)
  = inr [SampleLookup.first; SampleLookup.second]
  /\ get_template SampleLookup.first "x.html" = inr SampleLookup.first_template
  /\ get_template SampleLookup.second "x.html" = inr SampleLookup.second_template
  /\ fst (render_to_disk SampleLookup.host "x.html" VNone VNone SampleLookup.engine)
     = inr (mkPath true ["var"; "static"; "x.html"])
  /\ List.map fst
       (renders (snd (render_to_disk SampleLookup.host "x.html" VNone VNone
                        SampleLookup.engine)))
     = [SampleLookup.second_template]
  /\ files (snd (render_to_disk SampleLookup.host "x.html" VNone VNone SampleLookup.engine))
     = [(mkPath true ["var"; "static"; "x.html"], "second")].
Proof. repeat split. Qed.

(** ** What building the backends changes *)

Lemma grows_refl (s : State) : grows s s.
Proof. exists 0. cbn [replicate]. rewrite app_nil_r. destruct s; reflexivity. Qed.

Lemma grows_trans (s1 s2 s3 : State) : grows s1 s2 -> grows s2 s3 -> grows s1 s3.
Proof.
  intros [n1 ->] [n2 ->]. exists (n1 + n2).
  cbn [store with_store]. rewrite with_store_twice, <- app_assoc, <- replicate_add.
  reflexivity.
Qed.

Lemma for_each_grows {A B} (body : A -> M B) :
  (forall x s r s', body x s = (r, s') -> grows s s') ->
  forall items s r s', for_each body items s = (r, s') -> grows s s'.
Proof.
  intros Hbody. induction items as [|x items IH]; intros s r s' Hrun.
  - injection Hrun as _ <-. apply grows_refl.
  - cbn [for_each] in Hrun. unfold bind at 1 in Hrun.
    destruct (body x s) as [[e|y] s1] eqn:Hx.
    + injection Hrun as _ <-. eapply Hbody, Hx.
    + unfold bind at 1 in Hrun.
      destruct (for_each body items s1) as [[e|ys] s2] eqn:Hrest.
      * injection Hrun as _ <-.
        eapply grows_trans; [eapply Hbody, Hx | eapply IH, Hrest].
      * injection Hrun as _ <-.
        eapply grows_trans; [eapply Hbody, Hx | eapply IH, Hrest].
Qed.

Lemma backend_entry_grows (def : value) (s : State) r s' :
  backend_entry def s = (r, s') -> grows s s'.
Proof.
  unfold backend_entry, bind, get_state, alloc, ret, raise.
  destruct def; try (intros [= _ <-]; apply grows_refl).
  destruct (Dict.get "BACKEND" (deref (store s) r0)) as [[]|];
    try (intros [= _ <-]; apply grows_refl).
  match goal with
  | |- context [match ?g with _ => _ end] => destruct g as [[]|]
  end; intros [= _ <-]; exists 1; reflexivity.
Qed.

Lemma instantiate_pure (host : Host) (entry : string * dict) (s : State) r s' :
  instantiate host entry s = (r, s') -> s' = s.
Proof.
  unfold instantiate, bind, lift, ret, raise.
  destruct (Dict.get "BACKEND" (snd entry)) as [[]|]; try (intros [= _ <-]; reflexivity).
  destruct (import_string host s0 _); intros [= _ <-]; reflexivity.
Qed.

Lemma for_each_pure {A B} (body : A -> M B) :
  (forall x s r s', body x s = (r, s') -> s' = s) ->
  forall items s r s', for_each body items s = (r, s') -> s' = s.
Proof.
  intros Hbody. induction items as [|x items IH]; intros s r s' Hrun.
  - injection Hrun as _ <-. reflexivity.
  - cbn [for_each] in Hrun. unfold bind at 1 in Hrun.
    destruct (body x s) as [[e|y] s1] eqn:Hx.
    + injection Hrun as _ <-. eapply Hbody, Hx.
    + apply Hbody in Hx as ->. unfold bind at 1 in Hrun.
      destruct (for_each body items s) as [[e|ys] s2] eqn:Hrest.
      * injection Hrun as _ <-. eapply IH, Hrest.
      * injection Hrun as _ <-. eapply IH, Hrest.
Qed.

Lemma build_engines_grows (host : Host) (s : State) (cfg : loc) r s' :
  cached_config s = Some cfg ->
  build_engines host s = (r, s') -> grows s s'.
Proof.
  intros Hc. unfold build_engines.
  unfold bind at 1. rewrite (config_cached host s cfg Hc).
  unfold bind at 1. cbn [get_state].
  destruct (iterate (store s) _) as [defs|]; [|intros [= _ <-]; apply grows_refl].
  unfold bind at 1.
  destruct (for_each backend_entry defs s) as [[e|entries] s1] eqn:Hloop.
  - intros [= _ <-]. eapply (for_each_grows backend_entry), Hloop.
    intros x. apply backend_entry_grows.
  - apply (for_each_grows backend_entry) in Hloop; [|intros x; apply backend_entry_grows].
    destruct (duplicates_of (List.map fst entries)).
    + intros Hinst. apply (for_each_pure (instantiate host)) in Hinst as ->; [exact Hloop|].
      intros x. apply instantiate_pure.
    + intros [= _ <-]. exact Hloop.
Qed.

(** ** The default engine *)

Lemma deref_lookup (h : heap) (r : loc) (d : dict) : h !! r = Some d -> deref h r = d.
Proof. intros H. unfold deref. rewrite H. reflexivity. Qed.

Lemma ensure_engines_defaults (host : Host) (s s1 : State) (cfg : loc) (d : dict) :
  config host s = (inr cfg, s1) ->
  store s1 !! cfg = Some d ->
  Dict.get "ENGINES" d = None ->
  ensure_engines host s
  = (inr tt,
     with_store (<[cfg := Dict.set "ENGINES" DEFAULT_ENGINE_CONFIG d]> (store s1)) s1).
Proof.
  intros Hcfg Hd Hnone. unfold ensure_engines.
  unfold bind at 1. rewrite Hcfg.
  unfold bind at 1. cbn [get_state].
  rewrite (deref_lookup _ _ _ Hd), Hnone.
  unfold bind at 1. rewrite (config_again host s s1 cfg Hcfg).
  unfold bind at 1. cbn [get_state].
  rewrite (deref_lookup _ _ _ Hd). reflexivity.
Qed.

(** C10. When the configuration is valid and its root mapping [d] has no
    'ENGINES' key, the first access to [engines] stores the class's
    [DEFAULT_ENGINE_CONFIG] under 'ENGINES' in that very mapping, whether or
    not the backends can then be built; from then on reading [engine.config]
    returns that mapping, with the key, and changes nothing. *)
Theorem default_engines_written_to_config
    (host : Host) (s s1 : State) (cfg : loc) (d : dict) :
  cached_engines s = None ->
  config host s = (inr cfg, s1) ->
  store s1 !! cfg = Some d ->
  Dict.get "ENGINES" d = None ->
  let after := snd (engines host s) in
  deref (store after) cfg = Dict.set "ENGINES" DEFAULT_ENGINE_CONFIG d
  /\ Dict.get "ENGINES" (deref (store after) cfg) = Some DEFAULT_ENGINE_CONFIG
  /\ config host after = (inr cfg, after).
Proof.
  intros Hc Hcfg Hd Hnone after.
  set (s2 := with_store (<[cfg := Dict.set "ENGINES" DEFAULT_ENGINE_CONFIG d]> (store s1)) s1).
  assert (Hc2 : cached_config s2 = Some cfg) by exact (config_result host s s1 cfg Hcfg).
  assert (Hin : cfg < length (store s1)) by (eapply lookup_lt_Some, Hd).
  assert (Hafter : exists ext, store after = store s2 ++ ext /\ cached_config after = Some cfg).
  { assert (Hbody : (ensure_engines host ;;; build_engines host) s = build_engines host s2).
    { unfold bind at 1.
      rewrite (ensure_engines_defaults host s s1 cfg d Hcfg Hd Hnone). reflexivity. }
    subst after. unfold engines. rewrite cached_property_miss by exact Hc.
    rewrite Hbody.
    destruct (build_engines host s2) as [[e|engs] s3] eqn:Hbuild;
      destruct (build_engines_grows host s2 cfg _ _ Hc2 Hbuild) as [n ->];
      exists (replicate n []); split; reflexivity || exact Hc2. }
  destruct Hafter as (ext & Hstore & Hcached).
  assert (Hcell : deref (store after) cfg = Dict.set "ENGINES" DEFAULT_ENGINE_CONFIG d).
  { rewrite Hstore. unfold deref. rewrite lookup_app_l.
    - cbn [s2 store with_store]. rewrite list_lookup_insert_eq by exact Hin. reflexivity.
    - cbn [s2 store with_store]. rewrite length_insert. exact Hin. }
  split; [exact Hcell|]. split.
  - rewrite Hcell. apply DictFacts.get_set_eq.
  - apply config_cached, Hcached.
Qed.

Lemma default_engines_written_to_config_witness :
  Dict.get "ENGINES"
    (deref (store (snd (engines Sample.bare_host SampleDefault.engine))) 4)
  = Some (VList [VDict default_engine])
  /\ deref (store (snd (engines Sample.bare_host SampleDefault.engine))) default_engine
     = [ ("BACKEND", VStr "render_static.backends.StaticDjangoTemplates");
         ("DIRS", VList []);
         ("OPTIONS", VDict default_options) ].
Proof.
  split.
  - apply (default_engines_written_to_config Sample.bare_host SampleDefault.engine
             (snd (config Sample.bare_host SampleDefault.engine)) 4 SampleDefault.root);
      reflexivity.
  - reflexivity.
Defined.

(** C2 does not hold of the code. [ctx = config.context] is the dictionary
    the cached [TemplateConfig] holds (the very one of the configuration),
    and [ctx.update(context)] writes the override into it; for a template
    without a configured context that dictionary is the class attribute
    shared by every [TemplateConfig]. *)
Theorem render_override_mutates_cached_context :
  (* the context of the cached entry of 'x.html' before the call *)
  SampleRender.cached_entry_context SampleRender.prepared "x.html"
  = Some [("b", VInt 3); ("c", VInt 4)]
  (* the call succeeds *)
  /\ fst (render_to_disk SampleRender.host "x.html" SampleRender.override VNone
            SampleRender.prepared)
     = inr (mkPath true ["var"; "static"; "x.html"])
  (* the context of the same cached entry after the call *)
  /\ SampleRender.cached_entry_context (SampleRender.after "x.html") "x.html"
     = Some [("b", VInt 3); ("c", VInt 5); ("d", VInt 6)]
  (* the shared default, before and after rendering a template with no
     configured context *)
  /\ deref (store SampleRender.prepared) cls_context_ = []
  /\ deref (store (SampleRender.after "z.html")) cls_context_
     = [("c", VInt 5); ("d", VInt 6)].
Proof. repeat split. Qed.

(** ** Where the template goes *)

Lemma resolve_dest_spec (host : Host) (h : heap) (template_name : string)
    (config : TemplateConfig) (template : Template) (dest : value) :
  dest_typed dest ->
  dest_typed (default VNone (STATIC_ROOT host)) ->
  resolve_dest host h template_name config template dest
  = match first_defined_destination host template_name dest
            (TemplateConfigClass.dest config) template with
    | Some p => inr p
    | None => inl (missing_destination_error template_name)
    end.
Proof.
  intros Hdest Hroot.
  unfold resolve_dest, first_defined_destination.
  destruct dest; try contradiction; try reflexivity.
  destruct (TemplateConfigClass.dest config); [reflexivity|].
  destruct (origin_app template); [reflexivity|].
  destruct (STATIC_ROOT host) as [root|]; [|reflexivity].
  destruct root; try contradiction; simpl.
  - reflexivity.
  - destruct (String.eqb s ""); reflexivity.
  - reflexivity.
Qed.

(** ** The file system *)

Lemma ensure_parent_cases (p : Path) (s : State) r s3 :
  ensure_parent p s = (r, s3) ->
  (r = inr tt /\ s3 = with_parent_of p s) \/ (exists e, r = inl e /\ s3 = s).
Proof.
  unfold ensure_parent, makedirs, with_parent_of.
  unfold bind, get_state, raise, modify, ret.
  destruct (path_exists s (PathLib.parent p)) eqn:Hex; [intros [= <- <-]; left; auto|].
  destruct (existsb (is_file s) _); rewrite ?Hex; cbv beta iota; intros [= <- <-];
    [right; eauto | left; auto].
Qed.

Lemma ensure_parent_ok (p : Path) (s : State) :
  writable s p = true -> ensure_parent p s = (inr tt, with_parent_of p s).
Proof.
  unfold writable. intros Hw. apply andb_prop in Hw as [_ Hparent].
  unfold ensure_parent, makedirs, with_parent_of.
  unfold bind, get_state, raise, modify, ret.
  destruct (path_exists s (PathLib.parent p)) eqn:Hex; [reflexivity|].
  apply negb_true_iff in Hparent. rewrite Hparent, Hex. reflexivity.
Qed.

Lemma open_w_cases (p : Path) (s : State) r s' :
  open_w p s = (r, s') ->
  (r = inr tt /\ s' = with_file p "" s) \/ (exists e, r = inl e /\ s' = s).
Proof.
  unfold open_w, bind, get_state, raise, modify.
  destruct (is_dir s p); [intros [= <- <-]; right; eauto|].
  destruct (is_dir s (PathLib.parent p)); [intros [= <- <-]; left; auto|].
  destruct (path_exists s (PathLib.parent p)); intros [= <- <-]; right; eauto.
Qed.

Lemma open_w_ok (p : Path) (s : State) :
  is_dir s p = false -> is_dir s (PathLib.parent p) = true ->
  open_w p s = (inr tt, with_file p "" s).
Proof.
  intros Hp Hparent. unfold open_w, bind, get_state. rewrite Hp, Hparent. reflexivity.
Qed.

Lemma is_dir_dirs (s s' : State) (p : Path) : dirs s' = dirs s -> is_dir s' p = is_dir s p.
Proof. intros H. unfold is_dir. rewrite H. reflexivity. Qed.

Lemma ancestors_shorter (p q : Path) :
  In q (PathLib.ancestors_and_self p) -> length (segs q) <= length (segs p).
Proof.
  unfold PathLib.ancestors_and_self. intros H.
  apply in_map_iff in H as (n & <- & _). cbn [segs]. rewrite length_take. lia.
Qed.

Lemma self_among_ancestors (p : Path) :
  segs p <> [] -> In p (PathLib.ancestors_and_self p).
Proof.
  intros Hne. unfold PathLib.ancestors_and_self. apply in_map_iff.
  exists (length (segs p)). split.
  - rewrite firstn_all. destruct p; reflexivity.
  - apply in_seq. destruct (segs p); [congruence | cbn [length]; lia].
Qed.

Lemma parent_shorter (p : Path) :
  segs p <> [] -> length (segs (PathLib.parent p)) < length (segs p).
Proof.
  intros Hne. unfold PathLib.parent. cbn [segs].
  destruct (segs p) as [|x l] using rev_ind; [congruence|].
  rewrite removelast_last, length_app. cbn [length]. lia.
Qed.

(** Once the directory step has gone through, the file can be opened. *)
Lemma with_parent_of_ready (p : Path) (s : State) :
  writable s p = true ->
  is_dir (with_parent_of p s) p = false
  /\ is_dir (with_parent_of p s) (PathLib.parent p) = true.
Proof.
  unfold writable. intros Hw. apply andb_prop in Hw as [Hw Hparent].
  apply andb_prop in Hw as [_ Hp].
  apply negb_true_iff in Hp. unfold with_parent_of.
  destruct (path_exists s (PathLib.parent p)) eqn:Hex; [split; assumption|].
  assert (Hsegs : segs p <> []).
  { intros Hnil. unfold is_dir in Hp. rewrite Hnil in Hp. discriminate. }
  assert (Hupper : segs (PathLib.parent p) <> []).
  { intros Hnil. unfold path_exists in Hex. rewrite Hnil in Hex. discriminate. }
  split.
  - pose proof (parent_shorter p Hsegs) as Hshort.
    unfold is_dir in *. destruct (segs p) as [|seg rest] eqn:Hp'; [congruence|].
    apply bool_decide_eq_false. apply bool_decide_eq_false in Hp.
    cbn [dirs with_dirs]. intros Hin. apply elem_of_app in Hin as [Hin|Hin]; [tauto|].
    apply list_elem_of_In, filter_In in Hin as [Hin _].
    apply ancestors_shorter in Hin. rewrite Hp' in Hin. lia.
  - unfold is_dir. destruct (segs (PathLib.parent p)) eqn:Hq; [reflexivity|].
    apply bool_decide_eq_true. cbn [dirs with_dirs]. apply elem_of_app. right.
    apply list_elem_of_In, filter_In. split.
    + apply self_among_ancestors. congruence.
    + rewrite Hex. reflexivity.
Qed.

Lemma with_parent_of_beside (p : Path) (s : State) :
  store (with_parent_of p s) = store s
  /\ files (with_parent_of p s) = files s
  /\ renders (with_parent_of p s) = renders s
  /\ cached_config (with_parent_of p s) = cached_config s
  /\ cached_context (with_parent_of p s) = cached_context s.
Proof. unfold with_parent_of. destruct (path_exists s (PathLib.parent p)); auto 10. Qed.

Lemma update_ctx_frame (ctx : loc) (context_arg : value) (s : State) r s' :
  update_ctx ctx context_arg s = (r, s') ->
  dirs s' = dirs s /\ files s' = files s /\ renders s' = renders s
  /\ cached_config s' = cached_config s /\ cached_context s' = cached_context s.
Proof. destruct context_arg; intros [= _ <-]; auto 10. Qed.

(** ** One rendering, step by step *)

Section RenderFacts.
Variable host : Host.

Lemma render_to_disk_steps (template_name : string) (context_arg dest : value) (s : State) :
  render_to_disk host template_name context_arg dest s
  = match locate host template_name s with
    | (inl e, s2) => (inl e, s2)
    | (inr (config, template), s2) =>
        match resolve_dest host (store s2) template_name config template dest with
        | inl e => (inl e, s2)
        | inr p =>
            if normalised p then
              match ensure_parent p s2 with
              | (inl e, s3) => (inl e, s3)
              | (inr _, s3) =>
                  match update_ctx (TemplateConfigClass.context config) context_arg s3 with
                  | (inl e, s4) => (inl e, s4)
                  | (inr _, s4) =>
                      match open_w p s4 with
                      | (inl e, s5) => (inl e, s5)
                      | (inr _, s5) =>
                          match context host s5 with
                          | (inl e, s6) => (inl e, s6)
                          | (inr g, s6) =>
                              let final :=
                                Dict.update (deref (store s6) g)
                                  (deref (store s6) (TemplateConfigClass.context config)) in
                              let s7 := with_renders ((template, final) :: renders s6) s6 in
                              match render template final with
                              | inl e => (inl e, s7)
                              | inr text => (inr p, with_file p text s7)
                              end
                          end
                      end
                  end
              end
            else (inl (Unmodelled "destination that is not an absolute path free of '..'"), s2)
        end
    end.
Proof.
  unfold render_to_disk. unfold bind at 1.
  destruct (locate host template_name s) as [[e|[config template]] s2]; [reflexivity|].
  cbn [fst snd]. unfold bind at 1. cbn [get_state]. unfold bind at 1.
  destruct (resolve_dest host (store s2) template_name config template dest) as [e|p];
    [reflexivity|].
  cbn [lift ret]. unfold bind at 1.
  destruct (normalised p); [|reflexivity].
  cbn [ret]. unfold bind at 1.
  destruct (ensure_parent p s2) as [[e|[]] s3]; [reflexivity|].
  unfold bind at 1.
  destruct (update_ctx (TemplateConfigClass.context config) context_arg s3)
    as [[e|[]] s4]; [reflexivity|].
  unfold bind at 1.
  destruct (open_w p s4) as [[e|[]] s5]; [reflexivity|].
  unfold bind at 1.
  destruct (context host s5) as [[e|g] s6]; [reflexivity|].
  unfold bind at 1. cbn [get_state]. unfold bind at 1. cbn [modify].
  unfold bind at 1.
  destruct (render template _) as [e|text]; reflexivity.
Qed.

(** A call that gets as far as rendering the template. *)
Lemma render_to_disk_run (s s2 s4 s6 : State) (template_name : string)
    (context_arg dest : value) (config : TemplateConfig) (template : Template)
    (p : Path) (g : loc) :
  locate host template_name s = (inr (config, template), s2) ->
  resolve_dest host (store s2) template_name config template dest = inr p ->
  writable s2 p = true ->
  update_ctx (TemplateConfigClass.context config) context_arg (with_parent_of p s2)
  = (inr tt, s4) ->
  context host (with_file p "" s4) = (inr g, s6) ->
  let final := Dict.update (deref (store s6) g)
                           (deref (store s6) (TemplateConfigClass.context config)) in
  let s7 := with_renders ((template, final) :: renders s6) s6 in
  render_to_disk host template_name context_arg dest s
  = match render template final with
    | inl e => (inl e, s7)
    | inr text => (inr p, with_file p text s7)
    end.
Proof.
  intros Hloc Hdest Hw Hupd Hctx final s7.
  rewrite render_to_disk_steps, Hloc, Hdest.
  assert (Hnorm : normalised p = true).
  { unfold writable in Hw. apply andb_prop in Hw as [Hw' _].
    apply andb_prop in Hw' as [Hn _]. exact Hn. }
  rewrite Hnorm, (ensure_parent_ok p s2 Hw), Hupd.
  destruct (with_parent_of_ready p s2 Hw) as (Hp & Hparent).
  destruct (update_ctx_frame _ _ _ _ _ Hupd) as (Hd4 & _).
  rewrite (open_w_ok p s4)
    by (rewrite (is_dir_dirs _ _ _ Hd4); assumption).
  rewrite Hctx. reflexivity.
Qed.

End RenderFacts.

Section DestinationFacts.
Variable host : Host.

Lemma context_succeeds (s : State) (cfg : loc) :
  cached_config s = Some cfg ->
  cached_context s <> None \/ declared_global (store s) cfg <> None ->
  exists g s', context host s = (inr g, s').
Proof.
  intros Hcfg Hok.
  destruct (cached_context s) as [g|] eqn:Hc.
  - exists g, s. unfold context. apply cached_property_hit, Hc.
  - destruct Hok as [Hok|Hok]; [congruence|].
    rewrite (context_run host s cfg s Hc (config_cached host s cfg Hcfg)).
    destruct (declared_global (store s) cfg); [|congruence].
    eexists _, _. reflexivity.
Qed.

Lemma declared_global_is_Some_insert (h : heap) (cfg pc : loc) (d : dict) :
  pc <> cfg ->
  declared_global h cfg <> None -> declared_global (<[pc := d]> h) cfg <> None.
Proof.
  intros Hne. unfold declared_global. rewrite deref_insert_ne by exact Hne.
  destruct (Dict.get "context" (deref h cfg)) as [[]|]; congruence.
Qed.

End DestinationFacts.

Example destination_tiers :
  fst (render_to_disk SampleDest.with_root "app.html" VNone VNone SampleDest.engine)
  = inr (mkPath true ["srv"; "app"; "static"; "app.html"])
  /\ fst (render_to_disk SampleDest.with_root "plain.html" VNone VNone SampleDest.engine)
     = inr (mkPath true ["var"; "static"; "plain.html"])
  /\ fst (render_to_disk SampleDest.without_root "app.html" VNone VNone SampleDest.engine)
     = inr (mkPath true ["srv"; "app"; "static"; "app.html"]).
Proof. repeat split. Qed.

(** ** What finding the template changes *)

Lemma deref_grown (h : heap) (n : nat) (r : loc) :
  deref (h ++ replicate n []) r = deref h r.
Proof.
  unfold deref. destruct (decide (r < length h)) as [Hlt|Hge].
  - rewrite lookup_app_l by exact Hlt. reflexivity.
  - rewrite lookup_app_r by lia.
    rewrite (lookup_ge_None_2 h r) by lia.
    destruct (replicate n [] !! (r - length h)) as [d|] eqn:Hd; [|reflexivity].
    apply lookup_replicate in Hd as [-> _]. reflexivity.
Qed.

Lemma settled_refl (cfg : loc) (s : State) : settled cfg s s.
Proof. constructor; auto. Qed.

Lemma settled_trans (cfg : loc) (s1 s2 s3 : State) :
  settled cfg s1 s2 -> settled cfg s2 s3 -> settled cfg s1 s3.
Proof.
  intros [L1 C1 R1 X1 N1 G1] [L2 C2 R2 X2 N2 G2]. constructor.
  - lia.
  - intros r Hr. rewrite C2, C1 by exact Hr. reflexivity.
  - intros k Hk. rewrite R2, R1 by exact Hk. reflexivity.
  - congruence.
  - congruence.
  - auto.
Qed.

Lemma grows_settled (cfg : loc) (s s' : State) : grows s s' -> settled cfg s s'.
Proof.
  intros [n ->]. constructor; cbn [store with_store cached_context renders cached_config];
    auto.
  - rewrite length_app. lia.
  - intros r _. apply deref_grown.
  - intros k _. rewrite deref_grown. reflexivity.
Qed.

Lemma config_shape (host : Host) (s : State) r s' :
  config host s = (r, s') ->
  (exists n, store s' = store s ++ replicate n [])
  /\ beside_config s' = beside_config s
  /\ (forall c, cached_config s = Some c -> cached_config s' = Some c).
Proof.
  unfold config, cached_property, bind, get_state, ret, raise, modify, alloc.
  destruct (cached_config s) as [c|] eqn:Hc.
  { intros [= <- <-]. split; [exists 0; cbn; rewrite app_nil_r; reflexivity|].
    split; [reflexivity | intros c0 [= <-]; exact Hc]. }
  assert (Hnone : forall c : loc, @None loc = Some c -> cached_config s' = Some c)
    by discriminate.
  destruct (negb (truthy (store s) (self_config_ s))).
  - destruct (STATIC_TEMPLATES host) as [v|].
    + destruct v; cbn;
        try (intros [= <- <-]; split;
             [exists 0; cbn; rewrite app_nil_r; reflexivity | split; [reflexivity|discriminate]]).
      * destruct (unrecognized_keys_of _); intros [= <- <-];
          (split; [exists 1; reflexivity | split; [reflexivity|discriminate]]).
      * destruct (unrecognized_keys_of _); intros [= <- <-];
          (split; [exists 0; cbn; rewrite app_nil_r; reflexivity
                  | split; [reflexivity|discriminate]]).
    + intros [= <- <-]. split; [exists 0; cbn; rewrite app_nil_r; reflexivity|].
      split; [reflexivity|discriminate].
  - destruct (self_config_ s); cbn;
      try (intros [= <- <-]; split;
           [exists 0; cbn; rewrite app_nil_r; reflexivity | split; [reflexivity|discriminate]]).
    destruct (unrecognized_keys_of _); intros [= <- <-];
      (split; [exists 0; cbn; rewrite app_nil_r; reflexivity
              | split; [reflexivity|discriminate]]).
Qed.

Lemma config_settled (host : Host) (cfg : loc) (s : State) r s' :
  config host s = (r, s') -> settled cfg s s'.
Proof.
  intros Hrun. destruct (config_shape host s r s' Hrun) as ([n Hn] & Hrest & Hc).
  unfold beside_config in Hrest. injection Hrest as Hx _ _ _ _ Hr.
  constructor; auto.
  - rewrite Hn, length_app. lia.
  - intros r0 _. rewrite Hn. apply deref_grown.
  - intros k _. rewrite Hn, deref_grown. reflexivity.
Qed.

Lemma deref_insert (h : heap) (d : dict) (r r' : loc) :
  deref (<[r := d]> h) r'
  = if decide (r = r') then (if decide (r < length h) then d else deref h r')
    else deref h r'.
Proof.
  destruct (decide (r = r')) as [<-|Hne].
  - destruct (decide (r < length h)) as [Hlt|Hge].
    + apply deref_insert_eq, Hlt.
    + rewrite list_insert_ge by lia. reflexivity.
  - apply deref_insert_ne, Hne.
Qed.

Lemma ensure_engines_settled (host : Host) (cfg : loc) (s : State) r s' :
  cached_config s = Some cfg ->
  ensure_engines host s = (r, s') -> settled cfg s s'.
Proof.
  intros Hc. unfold ensure_engines.
  unfold bind at 1. rewrite (config_cached host s cfg Hc).
  unfold bind at 1. cbn [get_state].
  assert (Hset : forall r0 s0,
            (cfg' <- config host ;; s1 <- get_state ;;
             store_set cfg' (Dict.set "ENGINES" DEFAULT_ENGINE_CONFIG (deref (store s1) cfg'))) s
            = (r0, s0) -> settled cfg s s0).
  { intros r0 s0. unfold bind at 1. rewrite (config_cached host s cfg Hc).
    unfold bind at 1. cbn [get_state store_set modify].
    intros [= _ <-]. constructor; cbn [store with_store cached_context renders cached_config]; auto.
    - rewrite length_insert. lia.
    - intros r1 Hr1. apply deref_insert_ne. congruence.
    - intros k Hk. rewrite deref_insert. rewrite decide_True by reflexivity.
      destruct (decide (cfg < length (store s))); [|reflexivity].
      apply DictFacts.get_set_ne, Hk. }
  destruct (Dict.get "ENGINES" (deref (store s) cfg)) as [v|]; [|apply Hset].
  destruct v; try apply Hset;
    cbn [has_iter ret raise]; intros [= _ <-]; apply settled_refl.
Qed.

Lemma with_cached_engines_settled (cfg : loc) (e : list (string * Backend)) (s : State) :
  settled cfg s (with_cached_engines e s).
Proof. constructor; auto. Qed.

Lemma with_cached_templates_settled (cfg : loc) (t : list (string * TemplateConfig)) (s : State) :
  settled cfg s (with_cached_templates t s).
Proof. constructor; auto. Qed.

Lemma engines_settled (host : Host) (cfg : loc) (s : State) r s' :
  cached_config s = Some cfg ->
  engines host s = (r, s') -> settled cfg s s'.
Proof.
  intros Hc. unfold engines, cached_property.
  destruct (cached_engines s); [intros [= _ <-]; apply settled_refl|].
  unfold bind at 1.
  destruct (ensure_engines host s) as [[e|[]] s1] eqn:Hens.
  - intros [= _ <-]. eapply ensure_engines_settled; eassumption.
  - pose proof (ensure_engines_settled host cfg s _ _ Hc Hens) as H1.
    pose proof (st_config _ _ _ H1 cfg Hc) as Hc1.
    destruct (build_engines host s1) as [[e|engs] s2] eqn:Hbuild;
      pose proof (grows_settled cfg _ _ (build_engines_grows host s1 cfg _ _ Hc1 Hbuild)) as H2;
      intros [= _ <-].
    + eapply settled_trans; eassumption.
    + eapply settled_trans; [eapply settled_trans; eassumption|].
      apply with_cached_engines_settled.
Qed.

Lemma for_each_settled {A B} (body : A -> M B) (cfg : loc) :
  (forall x s r s', cached_config s = Some cfg -> body x s = (r, s') -> settled cfg s s') ->
  forall items s r s',
    cached_config s = Some cfg -> for_each body items s = (r, s') -> settled cfg s s'.
Proof.
  intros Hbody. induction items as [|x items IH]; intros s r s' Hc Hrun.
  - injection Hrun as _ <-. apply settled_refl.
  - cbn [for_each] in Hrun. unfold bind at 1 in Hrun.
    destruct (body x s) as [[e|y] s1] eqn:Hx.
    + injection Hrun as _ <-. eapply Hbody; eassumption.
    + pose proof (Hbody _ _ _ _ Hc Hx) as H1.
      pose proof (st_config _ _ _ H1 cfg Hc) as Hc1.
      unfold bind at 1 in Hrun.
      destruct (for_each body items s1) as [[e|ys] s2] eqn:Hrest;
        injection Hrun as _ <-;
        (eapply settled_trans; [exact H1 | eapply IH; eassumption]).
Qed.

Lemma getitem_settled (host : Host) (cfg : loc) (alias : string) (s : State) r s' :
  cached_config s = Some cfg ->
  getitem host alias s = (r, s') -> settled cfg s s'.
Proof.
  intros Hc. rewrite getitem_run.
  destruct (engines host s) as [[e|engs] s1] eqn:He.
  - intros [= _ <-]. eapply engines_settled; eassumption.
  - destruct (Dict.get alias engs); intros [= _ <-]; eapply engines_settled; eassumption.
Qed.

Lemma all_settled (host : Host) (cfg : loc) (s : State) r s' :
  cached_config s = Some cfg ->
  all host s = (r, s') -> settled cfg s s'.
Proof.
  intros Hc. unfold all, iter. unfold bind at 1. unfold bind at 1.
  destruct (engines host s) as [[e|engs] s1] eqn:He.
  - intros [= _ <-]. eapply engines_settled; eassumption.
  - cbn [ret]. intros Hloop.
    pose proof (engines_settled host cfg s _ _ Hc He) as H1.
    eapply settled_trans; [exact H1|].
    eapply (for_each_settled (getitem host) cfg); [| |exact Hloop].
    + intros x s0 r0 s0' Hc0. apply getitem_settled, Hc0.
    + apply (st_config _ _ _ H1), Hc.
Qed.

Lemma template_context_loc_ext (h h' : heap) (cfg : loc) (template_name : string) :
  (forall r, deref h' r = deref h r) ->
  template_context_loc h' cfg template_name = template_context_loc h cfg template_name.
Proof.
  intros H. unfold template_context_loc. rewrite (H cfg).
  destruct (Dict.get "templates" (deref h cfg)) as [[]|]; try reflexivity.
  rewrite (H r).
  destruct (Dict.get template_name (deref h r)) as [[]|]; try reflexivity.
  rewrite (H r0). reflexivity.
Qed.

Lemma call_context (template_name : string) (kwargs : dict) (tc : TemplateConfig) :
  TemplateConfigClass.call template_name kwargs = inr tc ->
  context_ tc = match Dict.get "context" kwargs with
                | Some (VDict pc) => pc
                | _ => cls_context_
                end.
Proof.
  unfold TemplateConfigClass.call, TemplateConfigClass.init.
  destruct (forallb _ _); [|discriminate].
  match goal with
  | |- context [match ?checked with inl _ => _ | inr _ => _ end] =>
      destruct checked as [e|dest_]
  end; [discriminate|].
  destruct (Dict.get "context" kwargs) as [v|]; cbn [default from_option id].
  - destruct v; intros [= <-] || discriminate; reflexivity.
  - intros [= <-]. reflexivity.
Qed.

Lemma template_item_pure (item : string * value) (s : State) r s' :
  template_item item s = (r, s') -> s' = s.
Proof.
  unfold template_item, bind, get_state, lift, ret, raise.
  destruct (snd item); try (intros [= _ <-]; reflexivity).
  destruct (TemplateConfigClass.call _ _); intros [= _ <-]; reflexivity.
Qed.

(** The comprehension of [templates], entry by entry. *)
Lemma template_items_get (items : dict) (s s' : State) (tmpls : list (string * TemplateConfig)) :
  for_each template_item items s = (inr tmpls, s') ->
  forall template_name,
    match Dict.get template_name items with
    | None => Dict.get template_name tmpls = None
    | Some v =>
        exists c tc, v = VDict c
                     /\ Dict.get template_name tmpls = Some tc
                     /\ TemplateConfigClass.call template_name (deref (store s) c) = inr tc
    end.
Proof.
  revert tmpls s'. induction items as [|[k v] items IH]; intros tmpls s' Hrun template_name.
  - injection Hrun as <- _. reflexivity.
  - cbn [for_each] in Hrun. unfold bind at 1 in Hrun.
    destruct (template_item (k, v) s) as [[e|[k' tc]] s1] eqn:Hitem; [discriminate|].
    pose proof (template_item_pure _ _ _ _ Hitem) as ->.
    unfold bind at 1 in Hrun.
    destruct (for_each template_item items s) as [[e|rest] s2] eqn:Hrest; [discriminate|].
    injection Hrun as <- <-.
    unfold template_item, bind, get_state, lift, ret, raise in Hitem. cbn [fst snd] in Hitem.
    destruct v; try discriminate.
    destruct (TemplateConfigClass.call k (deref (store s) r)) as [e|tc'] eqn:Hcall;
      [discriminate|].
    injection Hitem as <- <-.
    cbn [Dict.get]. destruct (String.eqb_spec template_name k) as [->|Hne].
    + exists r, tc'. auto.
    + apply (IH rest s2 eq_refl).
Qed.

Section LocateFacts.
Variable host : Host.

Lemma templates_fresh (s s1 : State) (tmpls : list (string * TemplateConfig)) :
  cached_templates s = None ->
  templates host s = (inr tmpls, s1) ->
  exists cfg sc,
    config host s = (inr cfg, sc)
    /\ s1 = with_cached_templates tmpls sc
    /\ forall template_name,
         context_ (default (mkTemplateConfig template_name None cls_context_)
                           (Dict.get template_name tmpls))
         = template_context_loc (store sc) cfg template_name.
Proof.
  intros Hc. unfold templates. rewrite cached_property_miss by exact Hc.
  unfold catch. unfold bind at 1.
  destruct (config host s) as [[e|cfg] sc] eqn:Hcfg.
  { destruct (is_ImproperlyConfigured e); discriminate. }
  unfold bind at 1. cbn [get_state].
  intros Hrun. exists cfg, sc. split; [reflexivity|].
  unfold template_context_loc.
  destruct (Dict.get "templates" (deref (store sc) cfg)) as [tv|] eqn:Ht.
  - destruct tv; try (cbn [raise is_ImproperlyConfigured] in Hrun; discriminate).
    destruct (for_each template_item (deref (store sc) r) sc) as [[e|tm] s2] eqn:Hloop.
    { destruct (is_ImproperlyConfigured e); discriminate. }
    pose proof (for_each_pure template_item template_item_pure _ _ _ _ Hloop) as ->.
    injection Hrun as <- <-. split; [reflexivity|].
    intros template_name.
    pose proof (template_items_get _ _ _ _ Hloop template_name) as Hget.
    destruct (Dict.get template_name (deref (store sc) r)) as [v|].
    + destruct Hget as (c & tc & -> & -> & Hcall).
      cbn [default from_option id]. exact (call_context _ _ _ Hcall).
    + rewrite Hget. reflexivity.
  - cbn [ret] in Hrun. injection Hrun as <- <-. split; reflexivity.
Qed.

(** Finding the template on a new engine: the configuration is now cached,
    the entry's context is the dictionary the configuration names, and
    nothing else of interest has changed. *)
Lemma locate_fresh (s s2 : State) (template_name : string)
    (config : TemplateConfig) (template : Template) :
  cached_templates s = None ->
  locate host template_name s = (inr (config, template), s2) ->
  exists cfg,
    cached_config s2 = Some cfg
    /\ settled cfg s s2
    /\ TemplateConfigClass.context config = template_context_loc (store s) cfg template_name.
Proof.
  intros Hc. unfold locate. unfold bind at 1.
  destruct (templates host s) as [[e|tmpls] s1] eqn:Ht; [discriminate|].
  destruct (templates_fresh s s1 tmpls Hc Ht) as (cfg & sc & Hcfg & -> & Hctx).
  pose proof (config_settled host cfg s _ _ Hcfg) as H1.
  pose proof (config_result host s sc cfg Hcfg) as Hcc.
  unfold bind at 1.
  destruct (all host (with_cached_templates tmpls sc)) as [[e|backends] s3] eqn:Hall;
    [discriminate|].
  pose proof (all_settled host cfg (with_cached_templates tmpls sc) _ _ Hcc Hall) as H3.
  unfold bind at 1.
  destruct (lookup_loop template_name backends None []) as [e|found]; [discriminate|].
  cbn [lift ret]. destruct (fst found); [|discriminate].
  intros [= <- <- <-].
  exists cfg. split; [|split].
  - apply (st_config _ _ _ H3), Hcc.
  - eapply settled_trans; [exact H1|].
    eapply settled_trans; [apply with_cached_templates_settled | exact H3].
  - unfold TemplateConfigClass.context. rewrite Hctx.
    apply template_context_loc_ext.
    destruct (config_shape host s _ _ Hcfg) as ([n ->] & _). intros r. apply deref_grown.
Qed.

End LocateFacts.

(** ** The context handed to the template *)

Section ContextLayers.
Variable host : Host.

Lemma update_ctx_run (pc : loc) (context_arg : value) (s : State) :
  context_typed context_arg ->
  update_ctx pc context_arg s
  = (inr tt,
     match context_arg with
     | VDict other =>
         with_store (<[pc := Dict.update (deref (store s) pc) (deref (store s) other)]>
                       (store s)) s
     | _ => s
     end).
Proof. destruct context_arg; try contradiction; reflexivity. Qed.

Lemma render_context_after_locate (s s2 : State) (cfg : loc) (template_name : string)
    (context_arg dest : value) (config : TemplateConfig) (template : Template)
    (p : Path) (G : dict) :
  locate host template_name s = (inr (config, template), s2) ->
  resolve_dest host (store s2) template_name config template dest = inr p ->
  writable s2 p = true ->
  cached_config s2 = Some cfg ->
  cached_context s2 = None ->
  context_typed context_arg ->
  declared_global (store s2) cfg = Some G ->
  let pc := TemplateConfigClass.context config in
  let P := deref (store s2) pc in
  let O := override_layer (store s2) context_arg in
  pc < length (store s2) -> pc <> cfg ->
  List.NoDup (Dict.keys G) -> List.NoDup (Dict.keys P) -> List.NoDup (Dict.keys O) ->
  exists s' final,
    render_to_disk host template_name context_arg dest s
    = (match render template final with
       | inl e => inl e
       | inr _ => inr p
       end, s')
    /\ renders s' = (template, final) :: renders s2
    /\ forall k, Dict.get k final = layered_get G P O k.
Proof.
  intros Hloc Hdest Hw Hcfg Hctx Htyped HG pc P O Hin Hne HndG HndP HndO.
  (* the directory, then [ctx.update(context)] *)
  set (s3 := with_parent_of p s2).
  assert (Hs3 : store s3 = store s2 /\ cached_config s3 = Some cfg
                /\ cached_context s3 = None /\ renders s3 = renders s2).
  { unfold s3, with_parent_of. destruct (path_exists s2 (PathLib.parent p)); auto. }
  destruct Hs3 as (Hh3 & Hc3 & Hx3 & Hr3).
  pose proof (update_ctx_run pc context_arg s3 Htyped) as Hupd.
  set (s4 := match context_arg with
             | VDict other =>
                 with_store (<[pc := Dict.update (deref (store s3) pc) (deref (store s3) other)]>
                               (store s3)) s3
             | _ => s3
             end) in Hupd.
  set (P' := deref (store s4) pc).
  assert (Hs4 : cached_config s4 = Some cfg /\ cached_context s4 = None
                /\ renders s4 = renders s2 /\ length (store s4) = length (store s2)
                /\ (forall r, r <> pc -> deref (store s4) r = deref (store s2) r)
                /\ List.NoDup (Dict.keys P')
                /\ (forall k, Dict.get k P'
                              = match Dict.get k O with
                                | Some v => Some v
                                | None => Dict.get k P
                                end)).
  { unfold P', s4, O, override_layer. destruct context_arg; try contradiction.
    - rewrite Hh3. repeat split; auto.
    - cbn [store with_store cached_config cached_context renders].
      rewrite Hh3, length_insert, deref_insert_eq by exact Hin.
      repeat split; auto.
      + intros r0 Hr0. apply deref_insert_ne. congruence.
      + apply DictFacts.NoDup_keys_update, HndP.
      + intros k. apply DictFacts.get_update, HndO. }
  destruct Hs4 as (Hc4 & Hx4 & Hr4 & Hl4 & Hcells4 & HndP' & HgetP').
  (* [open(dest, 'w')], then the global context, computed now *)
  set (s5 := with_file p "" s4).
  assert (Hcontext : exists G',
             context host s5
             = (inr (length (store s4)),
                with_cached_context (length (store s4))
                  (with_store (store s4 ++ [Dict.update [("settings", VSettings)] G']) s5))
             /\ List.NoDup (Dict.keys G')
             /\ (forall k, Dict.get k G' = Dict.get k G
                           \/ (Dict.get k G' = Dict.get k P' /\ Dict.get k G = Dict.get k P))).
  { assert (Hglobal : exists G',
               declared_global (store s4) cfg = Some G'
               /\ List.NoDup (Dict.keys G')
               /\ (forall k, Dict.get k G' = Dict.get k G
                             \/ (Dict.get k G' = Dict.get k P'
                                 /\ Dict.get k G = Dict.get k P))).
    { unfold declared_global in *. rewrite (Hcells4 cfg) by congruence.
      destruct (Dict.get "context" (deref (store s2) cfg)) as [v|]; [|eauto].
      destruct v; try discriminate. injection HG as <-.
      destruct (decide (r = pc)) as [->|Hr].
      - exists P'. split; [reflexivity|]. split; [exact HndP'|]. intros k. right. auto.
      - exists (deref (store s2) r). rewrite (Hcells4 r Hr). auto. }
    destruct Hglobal as (G' & HG' & HndG' & Hrel).
    exists G'. split; [|auto].
    rewrite (context_run host s5 cfg s5 Hx4 (config_cached host s5 cfg Hc4)).
    cbn [s5 with_file store with_files]. rewrite HG'. reflexivity. }
  destruct Hcontext as (G' & Hcontext & HndG' & Hrel).
  pose proof (render_to_disk_run host s s2 s4 _ template_name context_arg dest config template
                p _ Hloc Hdest Hw Hupd Hcontext) as Hrun.
  cbv zeta in Hrun.
  match type of Hrun with
  | _ = match render template ?final with _ => _ end =>
      exists (match render template final with
              | inl _ => with_renders ((template, final) :: renders
                           (with_cached_context (length (store s4))
                              (with_store (store s4 ++ [Dict.update [("settings", VSettings)] G'])
                                          s5)))
                           (with_cached_context (length (store s4))
                              (with_store (store s4 ++ [Dict.update [("settings", VSettings)] G'])
                                          s5))
              | inr text => with_file p text
                              (with_renders ((template, final) :: renders
                                 (with_cached_context (length (store s4))
                                    (with_store (store s4 ++ [Dict.update [("settings", VSettings)] G'])
                                                s5)))
                                 (with_cached_context (length (store s4))
                                    (with_store (store s4 ++ [Dict.update [("settings", VSettings)] G'])
                                                s5)))
              end), final
  end.
  split; [|split].
  - rewrite Hrun. destruct (render template _); reflexivity.
  - destruct (render template _);
      cbn [with_file with_files with_renders renders with_cached_context with_store s5];
      rewrite Hr4; reflexivity.
  - intros k.
    cbn [with_file with_files with_renders store with_cached_context with_store s5].
    rewrite deref_alloc.
    rewrite deref_alloc_old by (rewrite Hl4; exact Hin).
    fold pc. fold P'.
    rewrite DictFacts.get_update by exact HndP'.
    rewrite DictFacts.get_update by exact HndG'.
    rewrite HgetP'. unfold layered_get.
    destruct (Dict.get k O) eqn:HO; [reflexivity|].
    destruct (Dict.get k P) eqn:HP; [reflexivity|].
    destruct (Hrel k) as [-> | [-> HGP]].
    + destruct (Dict.get k G); [reflexivity|]. cbn [Dict.get].
      destruct (String.eqb k "settings"); reflexivity.
    + rewrite HgetP', HGP, HO, HP.
      cbn [Dict.get]. destruct (String.eqb k "settings"); reflexivity.
Qed.

End ContextLayers.

Lemma declared_global_settled (cfg : loc) (s s2 : State) (G : dict) :
  settled cfg s s2 ->
  Dict.get "context" (deref (store s) cfg) <> Some (VDict cfg) ->
  declared_global (store s) cfg = Some G ->
  declared_global (store s2) cfg = Some G.
Proof.
  intros Hst Hroot. unfold declared_global.
  rewrite (st_root _ _ _ Hst "context") by discriminate.
  destruct (Dict.get "context" (deref (store s) cfg)) as [v|]; [|auto].
  destruct v; auto.
  rewrite (st_cells _ _ _ Hst r); [auto|]. congruence.
Qed.

(** C3 does not hold of the code. The per-template layer of a template
    without a configured context is the class attribute
    [TemplateConfig.context_], one dictionary for every engine of the
    process, and [ctx.update(context)] writes into it (the defect of C2).
    An engine constructed after another engine has rendered such a
    template with the override [{'c': 5, 'd': 6}] hands 'c' and 'd' to the
    template of 'y.html', which no layer of its own configuration
    holds. *)
Theorem render_context_holds_leaked_keys :
  (* the global context configured for the new engine *)
  declared_global (store SampleLeak.engine) 4 = Some [("a", VInt 1); ("b", VInt 2)]
  (* 'y.html' has no configuration of its own, so no context either *)
  /\ Dict.get "y.html" (configured_templates (store SampleLeak.engine) 4) = None
  (* the call has no override and succeeds *)
  /\ fst (render_to_disk SampleRender.host "y.html" VNone VNone SampleLeak.engine)
     = inr (mkPath true ["var"; "static"; "y.html"])
  (* the context its template was rendered with *)
  /\ option_map snd
       (head (renders (snd (render_to_disk SampleRender.host "y.html" VNone VNone
                              SampleLeak.engine))))
     = Some [("settings", VSettings); ("a", VInt 1); ("b", VInt 2);
             ("c", VInt 5); ("d", VInt 6)].
Proof. repeat split. Qed.

Example render_context_example :
  List.map snd
    (renders (snd (render_to_disk SampleRender.host "x.html" SampleRender.override VNone
                     SampleRender.engine)))
  = [ [("settings", VSettings); ("a", VInt 1); ("b", VInt 3); ("c", VInt 5); ("d", VInt 6)] ].
Proof. reflexivity. Qed.

(** ** Engines reached from a new one *)

Section Coherence.
Variable host : Host.

Lemma coherent_init (config_value : value) (world : State) :
  coherent (init config_value world).
Proof. repeat split; try (intros H; cbn in H; congruence); discriminate. Qed.

(** Steps that touch no cache but, maybe, the one of the configuration. *)
Lemma coherent_keeps (s s' : State) :
  coherent s ->
  cached_templates s' = cached_templates s ->
  cached_context s' = cached_context s ->
  cached_engines s' = cached_engines s ->
  (cached_config s <> None -> cached_config s' <> None) ->
  coherent s'.
Proof.
  intros (Ht & Hx & He) Et Ex Ee Hc. unfold coherent. rewrite Et, Ex, Ee.
  split; [|split].
  - intros H. apply Hc, Ht, H.
  - intros H. apply Hc, Hx, H.
  - intros e H. destruct (He e H) as [H1 H2]. split; [apply Hc, H1 | exact H2].
Qed.

(** Steps after which the configuration is cached and the backends are as
    before. *)
Lemma coherent_cached (s s' : State) :
  coherent s ->
  cached_config s <> None ->
  cached_config s' = cached_config s ->
  cached_engines s' = cached_engines s ->
  coherent s'.
Proof.
  intros (_ & _ & He) Hc Ec Ee. unfold coherent. rewrite Ec, Ee.
  split; [intros _; exact Hc | split; [intros _; exact Hc | exact He]].
Qed.

Lemma config_coherent (s : State) r s' :
  coherent s -> config host s = (r, s') -> coherent s'.
Proof.
  intros Hco Hrun. destruct (config_shape host s r s' Hrun) as (_ & Hrest & Hc).
  unfold beside_config in Hrest. injection Hrest as Ex Et Ee _ _ _.
  apply (coherent_keeps s s' Hco Et Ex Ee).
  intros Hsome. destruct (cached_config s) as [c|]; [|congruence].
  rewrite (Hc c eq_refl). discriminate.
Qed.

Lemma with_store_coherent (h : heap) (s : State) : coherent s -> coherent (with_store h s).
Proof. intros H. exact H. Qed.

Lemma grows_coherent (s s' : State) : coherent s -> grows s s' -> coherent s'.
Proof. intros H [n ->]. exact H. Qed.

Lemma context_coherent (s : State) r s' :
  coherent s -> context host s = (r, s') -> coherent s'.
Proof.
  intros Hco. unfold context, cached_property.
  destruct (cached_context s) eqn:Hx; [intros [= _ <-]; exact Hco|].
  unfold bind at 1.
  destruct (config host s) as [[e|cfg] sc] eqn:Hcfg.
  - intros [= _ <-]. eapply config_coherent; eassumption.
  - pose proof (config_coherent s _ _ Hco Hcfg) as Hsc.
    pose proof (config_result host s sc cfg Hcfg) as Hcc.
    unfold bind at 1. cbn [get_state].
    destruct (Dict.get "context" (deref (store sc) cfg)) as [[]|];
      cbn [bind ret raise alloc]; intros [= _ <-]; try exact Hsc;
      (apply (coherent_cached sc); [exact Hsc | congruence | reflexivity | reflexivity]).
Qed.

Lemma templates_coherent (s : State) r s' :
  coherent s -> templates host s = (r, s') -> coherent s'.
Proof.
  intros Hco. unfold templates, cached_property.
  destruct (cached_templates s) eqn:Ht; [intros [= _ <-]; exact Hco|].
  unfold catch. unfold bind at 1.
  destruct (config host s) as [[e|cfg] sc] eqn:Hcfg.
  - pose proof (config_coherent s _ _ Hco Hcfg) as Hsc.
    destruct (is_ImproperlyConfigured e); intros [= _ <-]; exact Hsc.
  - pose proof (config_coherent s _ _ Hco Hcfg) as Hsc.
    pose proof (config_result host s sc cfg Hcfg) as Hcc.
    unfold bind at 1. cbn [get_state].
    assert (Hwrite : forall t, coherent (with_cached_templates t sc)).
    { intros t. apply (coherent_cached sc);
        [exact Hsc | congruence | reflexivity | reflexivity]. }
    destruct (Dict.get "templates" (deref (store sc) cfg)) as [tv|].
    + destruct tv;
        try (cbn [raise is_ImproperlyConfigured]; intros [= _ <-]; exact Hsc).
      destruct (for_each template_item (deref (store sc) r0) sc) as [[e|tm] s2] eqn:Hloop;
        pose proof (for_each_pure template_item template_item_pure _ _ _ _ Hloop) as ->.
      * destruct (is_ImproperlyConfigured e); intros [= _ <-]; exact Hsc.
      * intros [= _ <-]. apply Hwrite.
    + cbn [ret]. intros [= _ <-]. apply Hwrite.
Qed.

Lemma ensure_engines_coherent (s : State) r s' :
  coherent s -> ensure_engines host s = (r, s') ->
  coherent s' /\ (r = inr tt -> cached_config s' <> None).
Proof.
  intros Hco. unfold ensure_engines. unfold bind at 1.
  destruct (config host s) as [[e|cfg] sc] eqn:Hcfg.
  - intros [= <- <-]. split; [eapply config_coherent; eassumption | discriminate].
  - pose proof (config_coherent s _ _ Hco Hcfg) as Hsc.
    pose proof (config_result host s sc cfg Hcfg) as Hcc.
    unfold bind at 1. cbn [get_state].
    assert (Hset : forall r0 s0,
              (cfg' <- config host ;; s1 <- get_state ;;
               store_set cfg' (Dict.set "ENGINES" DEFAULT_ENGINE_CONFIG
                                        (deref (store s1) cfg'))) sc = (r0, s0) ->
              coherent s0 /\ (r0 = inr tt -> cached_config s0 <> None)).
    { intros r0 s0. unfold bind at 1. rewrite (config_cached host sc cfg Hcc).
      unfold bind at 1. cbn [get_state store_set modify].
      intros [= _ <-]. split; [exact Hsc | intros _; cbn; congruence]. }
    destruct (Dict.get "ENGINES" (deref (store sc) cfg)) as [v|]; [|apply Hset].
    destruct v; try apply Hset; cbn [has_iter ret raise]; intros [= <- <-];
      (split; [exact Hsc | first [discriminate | intros _; congruence]]).
Qed.

Lemma engines_coherent (s : State) r s' :
  coherent s -> engines host s = (r, s') -> coherent s'.
Proof.
  intros Hco Hrun.
  destruct (cached_engines s) as [e0|] eqn:Hc.
  { rewrite (engines_cached host s e0 Hc) in Hrun. injection Hrun as _ <-. exact Hco. }
  pose proof Hrun as Hrun'.
  unfold engines in Hrun. rewrite cached_property_miss in Hrun by exact Hc.
  unfold bind at 1 in Hrun.
  destruct (ensure_engines host s) as [[e|[]] s1] eqn:Hens.
  - injection Hrun as _ <-. apply (ensure_engines_coherent s _ _ Hco Hens).
  - destruct (ensure_engines_coherent s _ _ Hco Hens) as [Hs1 Hsome].
    specialize (Hsome eq_refl).
    destruct (cached_config s1) as [cfg|] eqn:Hc1; [|congruence].
    destruct (build_engines host s1) as [[e|engs] s2] eqn:Hbuild;
      pose proof (grows_coherent _ _ Hs1 (build_engines_grows host s1 cfg _ _ Hc1 Hbuild)) as Hs2;
      injection Hrun as Hr <-.
    + exact Hs2.
    + subst r.
      pose proof (engines_keys_distinct host s _ engs Hc Hrun') as Hnd.
      destruct (build_engines_grows host s1 cfg _ _ Hc1 Hbuild) as [n ->].
      destruct Hs2 as (Ht & Hx & _).
      split; [exact Ht | split; [exact Hx|]].
      intros e He. cbn in He. injection He as <-.
      split; [cbn; congruence | exact Hnd].
Qed.

Lemma for_each_coherent {A B} (body : A -> M B) :
  (forall x s r s', coherent s -> body x s = (r, s') -> coherent s') ->
  forall items s r s', coherent s -> for_each body items s = (r, s') -> coherent s'.
Proof.
  intros Hbody. induction items as [|x items IH]; intros s r s' Hco Hrun.
  - injection Hrun as _ <-. exact Hco.
  - cbn [for_each] in Hrun. unfold bind at 1 in Hrun.
    destruct (body x s) as [[e|y] s1] eqn:Hx.
    + injection Hrun as _ <-. eapply Hbody; eassumption.
    + pose proof (Hbody _ _ _ _ Hco Hx) as H1.
      unfold bind at 1 in Hrun.
      destruct (for_each body items s1) as [[e|ys] s2] eqn:Hrest;
        injection Hrun as _ <-; eapply IH; eassumption.
Qed.

Lemma all_coherent (s : State) r s' :
  coherent s -> all host s = (r, s') -> coherent s'.
Proof.
  intros Hco. unfold all, iter. unfold bind at 1. unfold bind at 1.
  destruct (engines host s) as [[e|engs] s1] eqn:He.
  - intros [= _ <-]. eapply engines_coherent; eassumption.
  - cbn [ret]. apply (for_each_coherent (getitem host)).
    + intros alias s0 r0 s0' Hco0. rewrite getitem_run.
      destruct (engines host s0) as [[e|engs0] s2] eqn:He0.
      * intros [= _ <-]. eapply engines_coherent; eassumption.
      * destruct (Dict.get alias engs0); intros [= _ <-];
          eapply engines_coherent; eassumption.
    + eapply engines_coherent; eassumption.
Qed.

Lemma locate_coherent (template_name : string) (s : State) r s' :
  coherent s -> locate host template_name s = (r, s') -> coherent s'.
Proof.
  intros Hco. unfold locate. unfold bind at 1.
  destruct (templates host s) as [[e|tmpls] s1] eqn:Ht.
  - intros [= _ <-]. eapply templates_coherent; eassumption.
  - pose proof (templates_coherent s _ _ Hco Ht) as H1.
    unfold bind at 1.
    destruct (all host s1) as [[e|backends] s2] eqn:Hall.
    + intros [= _ <-]. eapply all_coherent; eassumption.
    + pose proof (all_coherent s1 _ _ H1 Hall) as H2.
      unfold bind at 1.
      destruct (lookup_loop template_name backends None []) as [e|found];
        cbn [lift ret raise]; [intros [= _ <-]; exact H2|].
      destruct (fst found); intros [= _ <-]; exact H2.
Qed.

(** After a template has been found the configuration is cached. *)
Lemma locate_caches_config (template_name : string) (s s2 : State)
    (found : TemplateConfig * Template) :
  coherent s ->
  locate host template_name s = (inr found, s2) ->
  exists cfg, cached_config s2 = Some cfg.
Proof.
  intros Hco Hloc. destruct found as [config template].
  destruct (cached_templates s) as [tm|] eqn:Ht.
  - destruct Hco as (Hc & _). destruct (cached_config s) as [cfg|] eqn:Hcfg.
    + exists cfg. revert Hloc. unfold locate. unfold bind at 1.
      unfold templates. rewrite (cached_property_hit _ _ _ s tm Ht).
      unfold bind at 1.
      destruct (all host s) as [[e|backends] s3] eqn:Hall; [discriminate|].
      unfold bind at 1.
      destruct (lookup_loop template_name backends None []) as [e|hit]; [discriminate|].
      cbn [lift ret]. destruct (fst hit); [|discriminate].
      intros [= _ _ <-].
      apply (st_config _ _ _ (all_settled host cfg s _ _ Hcfg Hall)), Hcfg.
    + exfalso. apply Hc; [rewrite Ht; discriminate | reflexivity].
  - destruct (locate_fresh host s s2 template_name config template Ht Hloc)
      as (cfg & Hcfg & _).
    exists cfg. exact Hcfg.
Qed.

(** A call of [render_to_disk] leaves the engine coherent. *)
Lemma render_to_disk_coherent (template_name : string) (context_arg dest : value)
    (s : State) r s' :
  coherent s ->
  render_to_disk host template_name context_arg dest s = (r, s') ->
  coherent s'.
Proof.
  intros Hco. rewrite render_to_disk_steps.
  destruct (locate host template_name s) as [[e|[config template]] s2] eqn:Hloc.
  { intros [= _ <-]. eapply locate_coherent; eassumption. }
  pose proof (locate_coherent template_name s _ _ Hco Hloc) as H2.
  destruct (resolve_dest host (store s2) template_name config template dest) as [e|p];
    [intros [= _ <-]; exact H2|].
  destruct (normalised p); [|intros [= _ <-]; exact H2].
  destruct (ensure_parent p s2) as [r3 s3] eqn:Hdirs.
  assert (H3 : coherent s3).
  { destruct (ensure_parent_cases p s2 r3 s3 Hdirs) as [[_ ->] | (e & _ & ->)]; [|exact H2].
    unfold with_parent_of. destruct (path_exists s2 (PathLib.parent p)); exact H2. }
  destruct r3 as [e|[]]; [intros [= _ <-]; exact H3|].
  destruct (update_ctx (TemplateConfigClass.context config) context_arg s3)
    as [r4 s4] eqn:Hupd.
  assert (H4 : coherent s4).
  { revert Hupd. unfold update_ctx, bind, get_state, store_set, modify, ret, raise.
    destruct context_arg; intros [= _ <-]; exact H3. }
  destruct r4 as [e|[]]; [intros [= _ <-]; exact H4|].
  destruct (open_w p s4) as [r5 s5] eqn:Hopen.
  assert (H5 : coherent s5).
  { destruct (open_w_cases p s4 r5 s5 Hopen) as [[_ ->] | (e & _ & ->)]; exact H4. }
  destruct r5 as [e|[]]; [intros [= _ <-]; exact H5|].
  destruct (context host s5) as [[e|g] s6] eqn:Hctx;
    pose proof (context_coherent s5 _ _ H5 Hctx) as H6.
  - intros [= _ <-]. exact H6.
  - cbv zeta. destruct (render template _); intros [= _ <-]; exact H6.
Qed.

End Coherence.

(** ** A template that no backend holds *)

(** C7. On an engine reached from a new one, with the templates
    configuration valid and the backends configured as the mapping [engs],
    a template name that every backend reports as not found makes
    [render_to_disk] raise [TemplateDoesNotExist] for that name; its chain
    holds the backends' own exceptions, one per backend and in the backends'
    order. *)
Theorem missing_template_chain
    (host : Host) (s s1 s2 : State) (template_name : string) (context_arg dest : value)
    (tmpls : list (string * TemplateConfig)) (engs : list (string * Backend)) :
  coherent s ->
  templates host s = (inr tmpls, s1) ->
  engines host s1 = (inr engs, s2) ->
  (forall engine, In engine (Dict.values engs) -> misses template_name engine) ->
  exists chain,
    fst (render_to_disk host template_name context_arg dest s)
    = inl (TemplateDoesNotExist template_name chain)
    /\ length chain = length engs
    /\ Forall2 (fun engine tdne => get_template engine template_name = inl tdne
                                   /\ is_TemplateDoesNotExist tdne = true)
               (Dict.values engs) chain.
Proof.
  intros Hco Ht He Hmiss.
  assert (Hnd : List.NoDup (Dict.keys engs)).
  { pose proof (templates_coherent host s _ _ Hco Ht) as H1.
    pose proof (engines_coherent host s1 _ _ H1 He) as (_ & _ & H2).
    apply (H2 engs), (engines_result host s1 s2 engs He). }
  destruct (lookup_loop_all_miss template_name (Dict.values engs)) with (template := @None Template)
    (chain := @nil exn) as (chain & Hloop & Hall).
  { apply Forall_forall. intros b Hb. apply Hmiss, list_elem_of_In, Hb. }
  exists chain. split; [|split].
  - unfold render_to_disk, locate.
    unfold bind at 1. unfold bind at 1. rewrite Ht.
    unfold bind at 1. rewrite (all_run host s1 s2 engs He Hnd).
    unfold bind at 1. rewrite Hloop. reflexivity.
  - apply Forall2_length in Hall. rewrite <- Hall. unfold Dict.values. apply length_map.
  - exact Hall.
Qed.

Lemma missing_template_chain_witness :
  exists chain,
    fst (render_to_disk SampleLookup.host "y.html" VNone VNone SampleLookup.engine)
    = inl (TemplateDoesNotExist "y.html" chain)
    /\ length chain = 2.
Proof.
  destruct (missing_template_chain SampleLookup.host SampleLookup.engine
              (snd (templates SampleLookup.host SampleLookup.engine))
              (snd (engines SampleLookup.host
                      (snd (templates SampleLookup.host SampleLookup.engine))))
              "y.html" VNone VNone [] SampleLookup.engs)
    as (chain & Hrun & Hlen & _).
  - split; [|split].
    + intros H. exfalso. apply H. reflexivity.
    + intros H. exfalso. apply H. reflexivity.
    + intros cached H. discriminate H.
  - reflexivity.
  - reflexivity.
  - intros engine [<-|[<-|[]]]; eexists; split; reflexivity.
  - exists chain. split; [exact Hrun | exact Hlen].
Defined.

Example missing_template_chain_example :
  fst (render_to_disk SampleLookup.host "y.html" VNone VNone SampleLookup.engine)
  = inl (TemplateDoesNotExist "y.html"
           [TemplateDoesNotExist "first: y.html" [];
            TemplateDoesNotExist "second: y.html" []]).
Proof. reflexivity. Qed.

(** * Further properties of the engine *)

(** ** Backends by alias *)

(** X1. Once [engines] has returned the mapping [engs], iterating over the
    engine gives its aliases, [all] gives the instances in the same order,
    indexing by an alias of the mapping gives that alias's instance, and
    indexing by any other name raises [InvalidTemplateEngineError] naming
    it; none of this changes the state. *)
Theorem backends_by_alias
    (host : Host) (s s' : State) (engs : list (string * Backend)) :
  coherent s ->
  engines host s = (inr engs, s') ->
  iter host s' = (inr (Dict.keys engs), s')
  /\ all host s' = (inr (Dict.values engs), s')
  /\ (forall alias instance,
        In (alias, instance) engs -> getitem host alias s' = (inr instance, s'))
  /\ (forall alias,
        ~ In alias (Dict.keys engs) ->
        getitem host alias s'
        = (inl (InvalidTemplateEngineError
                  [Lit "Could not find config for '"; Fmt (VStr alias);
                   Lit "' in settings.STATIC_TEMPLATES"]), s')).
Proof.
  intros Hco He.
  pose proof (engines_result host s s' engs He) as Hc.
  pose proof (engines_coherent host s _ _ Hco He) as (_ & _ & Hnd).
  destruct (Hnd engs Hc) as [_ Hdistinct].
  pose proof (engines_cached host s' engs Hc) as Hagain.
  split; [|split; [|split]].
  - unfold iter, bind. rewrite Hagain. reflexivity.
  - apply all_run; assumption.
  - intros alias instance Hin. apply (getitem_cached host s' engs alias instance Hc).
    apply DictFacts.In_get; assumption.
  - intros alias Hout. rewrite getitem_run, Hagain.
    apply DictFacts.get_None_keys in Hout. rewrite Hout. reflexivity.
Qed.

Lemma backends_by_alias_witness :
  getitem SampleLookup.host "Second"
    (snd (engines SampleLookup.host SampleLookup.engine))
  = (inr SampleLookup.second, snd (engines SampleLookup.host SampleLookup.engine))
  /\ fst (getitem SampleLookup.host "Third"
            (snd (engines SampleLookup.host SampleLookup.engine)))
     = inl (InvalidTemplateEngineError
              [Lit "Could not find config for '"; Fmt (VStr "Third");
               Lit "' in settings.STATIC_TEMPLATES"]).
Proof.
  destruct (backends_by_alias SampleLookup.host SampleLookup.engine
              (snd (engines SampleLookup.host SampleLookup.engine)) SampleLookup.engs)
    as (_ & _ & Hin & Hout).
  - split; [|split].
    + intros H. exfalso. apply H. reflexivity.
    + intros H. exfalso. apply H. reflexivity.
    + intros cached H. discriminate H.
  - reflexivity.
  - split.
    + apply Hin. right. left. reflexivity.
    + rewrite Hout; [reflexivity|].
      simpl. intros [H|[H|[]]]; discriminate H.
Defined.

(** ** Where the configuration comes from *)

(** X2. An engine constructed with no configuration, or with an empty one,
    takes it from the settings: without a [STATIC_TEMPLATES] setting
    [config] raises [ImproperlyConfigured] and caches nothing; with the
    setting [None] the configuration is a new, empty dictionary; with a
    dictionary whose root keys are all recognized it is that very
    dictionary of the settings, not a copy, and the store is as before. *)
Theorem config_from_the_settings (host : Host) (world : State) (config_value : value) :
  truthy (store world) config_value = false ->
  deref (store world) cls_config_ = [] ->
  let s := init config_value world in
  (STATIC_TEMPLATES host = None ->
   fst (config host s)
   = inl (ImproperlyConfigured
            [Lit "No STATIC_TEMPLATES configuration directive in settings!"])
   /\ cached_config (snd (config host s)) = None)
  /\ (STATIC_TEMPLATES host = Some VNone ->
      fst (config host s) = inr (length (store world))
      /\ store (snd (config host s)) = store world ++ [[]])
  /\ (forall r, STATIC_TEMPLATES host = Some (VDict r) ->
                unrecognized_keys_of (deref (store world) r) = [] ->
                fst (config host s) = inr r
                /\ store (snd (config host s)) = store world).
Proof.
  intros Hfalse Hcls s.
  assert (Hs : s = init VNone world).
  { unfold s, init. rewrite Hfalse. reflexivity. }
  rewrite Hs. clear Hs s.
  unfold config, cached_property, bind, get_state, ret, raise, modify, alloc, self_config_.
  cbn [init cached_config config_ default from_option id store truthy].
  rewrite Hcls. cbn [negb].
  split; [|split].
  - intros ->. split; reflexivity.
  - intros ->. cbn. rewrite deref_alloc. cbn. split; reflexivity.
  - intros r -> Hok. cbn. rewrite Hok. split; reflexivity.
Qed.

Lemma config_from_the_settings_witness :
  fst (config Sample.bare_host (init VNone Sample.good_root))
  = inl (ImproperlyConfigured
           [Lit "No STATIC_TEMPLATES configuration directive in settings!"])
  /\ fst (config (mkHost (Some VNone) None (fun _ _ => inl (BackendError "ImportError")))
            (init VNone Sample.good_root))
     = inr 6
  /\ fst (config (mkHost (Some (VDict 4)) None (fun _ _ => inl (BackendError "ImportError")))
            (init (VDict 5) Sample.good_root))
     = inr 4.
Proof.
  split; [|split].
  - destruct (config_from_the_settings Sample.bare_host Sample.good_root VNone
                eq_refl eq_refl) as (Hmissing & _ & _).
    apply Hmissing. reflexivity.
  - destruct (config_from_the_settings
                (mkHost (Some VNone) None (fun _ _ => inl (BackendError "ImportError")))
                Sample.good_root VNone eq_refl eq_refl) as (_ & Hnone & _).
    apply Hnone. reflexivity.
  - destruct (config_from_the_settings
                (mkHost (Some (VDict 4)) None (fun _ _ => inl (BackendError "ImportError")))
                Sample.good_root (VDict 5) eq_refl eq_refl) as (_ & _ & Hdict).
    apply (Hdict 4); reflexivity.
Defined.

(** ** The cached properties *)

Lemma context_result (host : Host) (s s1 : State) (g : loc) :
  context host s = (inr g, s1) -> cached_context s1 = Some g.
Proof.
  unfold context, cached_property.
  destruct (cached_context s) eqn:Hc.
  - intros [= -> <-]. exact Hc.
  - match goal with |- context [match ?b s with _ => _ end] => destruct (b s) as [[e|a] s'] end.
    + discriminate.
    + intros [= -> <-]. reflexivity.
Qed.

Lemma templates_result (host : Host) (s s1 : State) (t : list (string * TemplateConfig)) :
  templates host s = (inr t, s1) -> cached_templates s1 = Some t.
Proof.
  unfold templates, cached_property.
  destruct (cached_templates s) eqn:Hc.
  - intros [= -> <-]. exact Hc.
  - match goal with |- context [match ?b s with _ => _ end] => destruct (b s) as [[e|a] s'] end.
    + discriminate.
    + intros [= -> <-]. reflexivity.
Qed.

(** X3. Each of [config], [context], [templates] and [engines] is computed
    once: after an access that returned, every later access returns the same
    object and changes nothing, whatever has happened to the dictionaries of
    the store in between. In particular a configuration is validated at its
    first access only. *)
Theorem properties_are_computed_once (host : Host) (s s1 : State) (later : heap) :
  (forall cfg, config host s = (inr cfg, s1) ->
               config host (with_store later s1) = (inr cfg, with_store later s1))
  /\ (forall g, context host s = (inr g, s1) ->
                context host (with_store later s1) = (inr g, with_store later s1))
  /\ (forall tmpls, templates host s = (inr tmpls, s1) ->
                    templates host (with_store later s1) = (inr tmpls, with_store later s1))
  /\ (forall engs, engines host s = (inr engs, s1) ->
                   engines host (with_store later s1) = (inr engs, with_store later s1)).
Proof.
  split; [|split; [|split]].
  - intros cfg H. apply config_cached. exact (config_result host s s1 cfg H).
  - intros g H. unfold context. apply cached_property_hit.
    exact (context_result host s s1 g H).
  - intros tmpls H. unfold templates. apply cached_property_hit.
    exact (templates_result host s s1 tmpls H).
  - intros engs H. apply engines_cached. exact (engines_result host s s1 engs H).
Qed.

(** A configuration that was valid when first read is still returned after
    an unrecognized key has been put into the mapping. *)
Lemma properties_are_computed_once_witness :
  config Sample.bare_host
    (with_store (<[4 := [("bogus", VInt 1)]]> (store Sample.good_root))
       (snd (config Sample.bare_host (init (VDict 4) Sample.good_root))))
  = (inr 4,
     with_store (<[4 := [("bogus", VInt 1)]]> (store Sample.good_root))
       (snd (config Sample.bare_host (init (VDict 4) Sample.good_root))))
  /\ fst (config Sample.bare_host
            (init (VDict 4)
               (with_store (<[4 := [("bogus", VInt 1)]]> (store Sample.good_root))
                  Sample.good_root)))
     = inl (ImproperlyConfigured
              [Lit "Unrecognized STATIC_TEMPLATES configuration directives: ";
               Fmt (VList [VStr "bogus"])]).
Proof.
  split.
  - apply (properties_are_computed_once Sample.bare_host
             (init (VDict 4) Sample.good_root)
             (snd (config Sample.bare_host (init (VDict 4) Sample.good_root)))
             (<[4 := [("bogus", VInt 1)]]> (store Sample.good_root))).
    reflexivity.
  - reflexivity.
Defined.

Lemma config_failure (host : Host) (s s' : State) (e : exn) :
  config host s = (inl e, s') -> cached_config s' = None.
Proof.
  unfold config, cached_property, bind, get_state, ret, raise, modify, alloc.
  destruct (cached_config s) as [c|] eqn:Hc; [discriminate|].
  destruct (negb (truthy (store s) (self_config_ s))).
  - destruct (STATIC_TEMPLATES host) as [v|].
    + destruct v; cbn; try (intros [= _ <-]; exact Hc);
        destruct (unrecognized_keys_of _); intros [= _ <-] || discriminate; exact Hc.
    + intros [= _ <-]. exact Hc.
  - destruct (self_config_ s); cbn; try (intros [= _ <-]; exact Hc).
    destruct (unrecognized_keys_of _); intros [= _ <-] || discriminate; exact Hc.
Qed.

Lemma ensure_engines_beside (host : Host) (s s' : State) r :
  ensure_engines host s = (r, s') -> beside_config s' = beside_config s.
Proof.
  unfold ensure_engines. unfold bind at 1.
  destruct (config host s) as [[e|cfg] sc] eqn:Hcfg;
    destruct (config_shape host s _ _ Hcfg) as (_ & Hrest & _).
  - intros [= _ <-]. exact Hrest.
  - pose proof (config_result host s sc cfg Hcfg) as Hcc.
    unfold bind at 1. cbn [get_state].
    assert (Hset : forall r0 s0,
              (cfg' <- config host ;; s1 <- get_state ;;
               store_set cfg' (Dict.set "ENGINES" DEFAULT_ENGINE_CONFIG
                                        (deref (store s1) cfg'))) sc = (r0, s0) ->
              beside_config s0 = beside_config s).
    { intros r0 s0. unfold bind at 1. rewrite (config_cached host sc cfg Hcc).
      unfold bind at 1. cbn [get_state store_set modify].
      intros [= _ <-]. exact Hrest. }
    destruct (Dict.get "ENGINES" (deref (store sc) cfg)) as [v|]; [|apply Hset].
    destruct v; try apply Hset; cbn [has_iter ret raise]; intros [= _ <-]; exact Hrest.
Qed.

Lemma ensure_engines_caches_config (host : Host) (s s' : State) :
  ensure_engines host s = (inr tt, s') -> exists cfg, cached_config s' = Some cfg.
Proof.
  unfold ensure_engines. unfold bind at 1.
  destruct (config host s) as [[e|cfg] sc] eqn:Hcfg; [discriminate|].
  pose proof (config_result host s sc cfg Hcfg) as Hcc.
  unfold bind at 1. cbn [get_state].
  assert (Hset : forall s0,
            (cfg' <- config host ;; s1 <- get_state ;;
             store_set cfg' (Dict.set "ENGINES" DEFAULT_ENGINE_CONFIG
                                      (deref (store s1) cfg'))) sc = (inr tt, s0) ->
            exists c, cached_config s0 = Some c).
  { intros s0. unfold bind at 1. rewrite (config_cached host sc cfg Hcc).
    unfold bind at 1. cbn [get_state store_set modify].
    intros [= <-]. exists cfg. exact Hcc. }
  destruct (Dict.get "ENGINES" (deref (store sc) cfg)) as [v|]; [|apply Hset].
  destruct v; try apply Hset; cbn [has_iter ret raise];
    intros [= <-] || discriminate; exists cfg; exact Hcc.
Qed.

(** X4. An access of [config], [context], [templates] or [engines] that
    raises caches nothing for that property: the next access computes it
    again. *)
Theorem failures_are_not_cached (host : Host) (s s1 : State) (e : exn) :
  (config host s = (inl e, s1) -> cached_config s1 = None)
  /\ (context host s = (inl e, s1) -> cached_context s1 = None)
  /\ (templates host s = (inl e, s1) -> cached_templates s1 = None)
  /\ (engines host s = (inl e, s1) -> cached_engines s1 = None).
Proof.
  split; [apply config_failure|]. split; [|split].
  - unfold context, cached_property.
    destruct (cached_context s) eqn:Hc; [discriminate|].
    unfold bind at 1.
    destruct (config host s) as [[x|cfg] sc] eqn:Hcfg;
      destruct (config_shape host s _ _ Hcfg) as (_ & Hrest & _);
      unfold beside_config in Hrest; injection Hrest as Hx _ _ _ _ _.
    + intros [= _ <-]. congruence.
    + unfold bind at 1. cbn [get_state].
      destruct (Dict.get "context" (deref (store sc) cfg)) as [[]|];
        cbn [bind ret raise alloc]; intros [= _ <-] || discriminate; congruence.
  - unfold templates, cached_property.
    destruct (cached_templates s) eqn:Hc; [discriminate|].
    unfold catch. unfold bind at 1.
    destruct (config host s) as [[x|cfg] sc] eqn:Hcfg;
      destruct (config_shape host s _ _ Hcfg) as (_ & Hrest & _);
      unfold beside_config in Hrest; injection Hrest as _ Ht _ _ _ _.
    + destruct (is_ImproperlyConfigured x); intros [= _ <-]; congruence.
    + unfold bind at 1. cbn [get_state].
      destruct (Dict.get "templates" (deref (store sc) cfg)) as [tv|].
      * destruct tv;
          try (cbn [raise is_ImproperlyConfigured]; intros [= _ <-]; congruence).
        destruct (for_each template_item (deref (store sc) r) sc) as [[x|tm] s2] eqn:Hloop;
          pose proof (for_each_pure template_item template_item_pure _ _ _ _ Hloop) as ->.
        -- destruct (is_ImproperlyConfigured x); intros [= _ <-]; congruence.
        -- discriminate.
      * cbn [ret]. discriminate.
  - unfold engines, cached_property.
    destruct (cached_engines s) eqn:Hc; [discriminate|].
    unfold bind at 1.
    destruct (ensure_engines host s) as [[x|[]] s2] eqn:Hens;
      pose proof (ensure_engines_beside host s s2 _ Hens) as Hrest;
      unfold beside_config in Hrest; injection Hrest as _ _ He _ _ _.
    + intros [= _ <-]. congruence.
    + destruct (build_engines host s2) as [[x|engs] s3] eqn:Hbuild; [|discriminate].
      intros [= _ <-].
      destruct (ensure_engines_caches_config host s s2 Hens) as [cfg Hc2].
      destruct (build_engines_grows host s2 cfg _ _ Hc2 Hbuild) as [n ->]. cbn. congruence.
Qed.

(** The refused configuration of [Sample.bad_root] is read again, and
    accepted, once the two unknown keys are gone from the mapping. *)
Lemma failures_are_not_cached_witness :
  cached_config (snd (config Sample.bare_host (init (VDict 4) Sample.bad_root))) = None
  /\ fst (config Sample.bare_host
            (with_store (<[4 := [("ENGINES", VList [])]]> (store Sample.bad_root))
               (snd (config Sample.bare_host (init (VDict 4) Sample.bad_root)))))
     = inr 4.
Proof.
  split.
  - destruct (failures_are_not_cached Sample.bare_host (init (VDict 4) Sample.bad_root)
                (snd (config Sample.bare_host (init (VDict 4) Sample.bad_root)))
                (ImproperlyConfigured
                   [Lit "Unrecognized STATIC_TEMPLATES configuration directives: ";
                    Fmt (VList [VStr "bogus"; VStr "extra"])]))
      as (Hconfig & _).
    apply Hconfig. reflexivity.
  - reflexivity.
Defined.

(** ** The global context is a new dictionary *)

(** X5. Computing the global context changes no dictionary that exists: the
    result is a dictionary at a location that was not in the store before,
    so it is neither the configured 'context' mapping nor any other
    configured object. *)
Theorem global_context_is_new (host : Host) (s s' : State) (g : loc) :
  cached_context s = None ->
  context host s = (inr g, s') ->
  length (store s) <= g
  /\ g < length (store s')
  /\ (forall r, r < length (store s) -> store s' !! r = store s !! r).
Proof.
  intros Hc. unfold context. rewrite cached_property_miss by exact Hc.
  unfold bind at 1.
  destruct (config host s) as [[e|cfg] sc] eqn:Hcfg; [discriminate|].
  destruct (config_shape host s _ _ Hcfg) as ([n Hn] & _ & _).
  unfold bind at 1. cbn [get_state].
  assert (Halloc : forall G,
            (alloc (Dict.update [("settings", VSettings)] G)) sc
            = (inr (length (store sc)),
               with_store (store sc ++ [Dict.update [("settings", VSettings)] G]) sc))
    by reflexivity.
  assert (Hgoal : forall G,
            length (store s) <= length (store sc)
            /\ length (store sc)
               < length (store sc ++ [Dict.update [("settings", VSettings)] G])
            /\ (forall r, r < length (store s) ->
                          (store sc ++ [Dict.update [("settings", VSettings)] G]) !! r
                          = store s !! r)).
  { intros G. rewrite Hn, !length_app. cbn [length]. split; [lia|]. split; [lia|].
    intros r Hr. rewrite <- app_assoc. apply lookup_app_l, Hr. }
  destruct (Dict.get "context" (deref (store sc) cfg)) as [[]|];
    cbn [bind ret raise]; try discriminate;
    rewrite Halloc; intros [= <- <-];
    cbn [store with_cached_context with_store].
  - apply (Hgoal (deref (store sc) r)).
  - apply (Hgoal []).
Qed.

Lemma global_context_is_new_witness :
  fst (context Sample.bare_host SampleContext.engine) = inr 6
  /\ store (snd (context Sample.bare_host SampleContext.engine)) !! 5
     = Some [("settings", VStr "mine"); ("a", VInt 1)].
Proof.
  destruct (global_context_is_new Sample.bare_host SampleContext.engine
              (snd (context Sample.bare_host SampleContext.engine)) 6)
    as (_ & _ & Hsame).
  - reflexivity.
  - reflexivity.
  - split; [reflexivity|]. rewrite Hsame; [reflexivity | vm_compute; lia].
Defined.

(** X6. A 'context' entry of the configuration that is not a dictionary,
    [None] included, makes [context] raise [ImproperlyConfigured]; the
    configuration itself stays cached and the store is as [config] left
    it. *)
Theorem global_context_must_be_a_dictionary
    (host : Host) (s s1 : State) (cfg : loc) (v : value) :
  cached_context s = None ->
  config host s = (inr cfg, s1) ->
  Dict.get "context" (deref (store s1) cfg) = Some v ->
  (forall g, v <> VDict g) ->
  context host s
  = (inl (ImproperlyConfigured
            [Lit "STATIC_TEMPLATES 'context' configuration directive must be a dictionary!"]),
     s1).
Proof.
  intros Hc Hcfg Hv Hnot.
  rewrite (context_run host s cfg s1 Hc Hcfg). unfold declared_global. rewrite Hv.
  destruct v; try reflexivity. exfalso. apply (Hnot r). reflexivity.
Qed.

Lemma global_context_must_be_a_dictionary_witness :
  context Sample.bare_host (init (VDict 4) SampleGlobal.context_none)
  = (inl (ImproperlyConfigured
            [Lit "STATIC_TEMPLATES 'context' configuration directive must be a dictionary!"]),
     with_cached_config 4 (init (VDict 4) SampleGlobal.context_none)).
Proof.
  apply (global_context_must_be_a_dictionary Sample.bare_host
           (init (VDict 4) SampleGlobal.context_none)
           (with_cached_config 4 (init (VDict 4) SampleGlobal.context_none)) 4 VNone).
  - reflexivity.
  - reflexivity.
  - reflexivity.
  - intros g. discriminate.
Defined.

(** ** The per-template entries *)

Lemma template_item_run (item : string * value) (s : State) :
  template_item item s
  = (match entry_result (store s) item with
     | inr tc => inr (fst item, tc)
     | inl e => inl e
     end, s).
Proof.
  unfold template_item, entry_result, bind, get_state, lift, ret, raise.
  destruct (snd item); try reflexivity.
  destruct (TemplateConfigClass.call (fst item) (deref (store s) r)); reflexivity.
Qed.

Lemma templates_run (host : Host) (s sc : State) (cfg : loc) :
  cached_templates s = None ->
  config host s = (inr cfg, sc) ->
  templates host s
  = match Dict.get "templates" (deref (store sc) cfg) with
    | None => (inr [], with_cached_templates [] sc)
    | Some (VDict t) =>
        match for_each template_item (deref (store sc) t) sc with
        | (inr tmpls, s2) => (inr tmpls, with_cached_templates tmpls s2)
        | (inl exp, s2) => (inl (templates_error exp), s2)
        end
    | Some _ => (inl (templates_error (PyError "AttributeError")), sc)
    end.
Proof.
  intros Hc Hcfg. unfold templates. rewrite cached_property_miss by exact Hc.
  unfold catch. unfold bind at 1. rewrite Hcfg.
  unfold bind at 1. cbn [get_state]. unfold templates_error.
  destruct (Dict.get "templates" (deref (store sc) cfg)) as [tv|]; [|reflexivity].
  destruct tv; try reflexivity.
  destruct (for_each template_item (deref (store sc) r) sc) as [[e|tm] s2]; [|reflexivity].
  unfold raise. destruct (is_ImproperlyConfigured e); reflexivity.
Qed.

(** X7. Whatever goes wrong while [templates] reads the configuration and
    builds the entries, what it raises is an [ImproperlyConfigured]. *)
Theorem templates_raises_only_ImproperlyConfigured
    (host : Host) (s s' : State) (e : exn) :
  templates host s = (inl e, s') -> is_ImproperlyConfigured e = true.
Proof.
  unfold templates, cached_property.
  destruct (cached_templates s); [discriminate|].
  unfold catch.
  match goal with
  | |- context [match ?body s with _ => _ end] => destruct (body s) as [[x|t] s1]
  end; [|discriminate].
  destruct (is_ImproperlyConfigured x) eqn:Hx; unfold raise; intros [= <- _];
    [exact Hx | reflexivity].
Qed.

Lemma templates_raises_only_ImproperlyConfigured_witness :
  is_ImproperlyConfigured
    (ImproperlyConfigured
       [Lit "Invalid 'templates' in STATIC_TEMPLATE: "; FmtExc (PyError "TypeError"); Lit "!"])
  = true.
Proof.
  apply (templates_raises_only_ImproperlyConfigured Sample.bare_host
           (init (VDict 4) SampleTemplates.unknown_parameter)
           (with_cached_config 4 (init (VDict 4) SampleTemplates.unknown_parameter))).
  reflexivity.
Defined.

Lemma for_each_template_item_stops (h : heap) (before after : dict)
    (item : string * value) (e : exn) :
  Forall (fun i => exists tc, entry_result h i = inr tc) before ->
  entry_result h item = inl e ->
  forall s, store s = h ->
  for_each template_item (before ++ item :: after) s = (inl e, s).
Proof.
  intros Hbefore Hitem s Hs. subst h.
  induction Hbefore as [|i before [tc Hi] _ IH]; cbn [for_each app].
  - unfold bind at 1. rewrite template_item_run, Hitem. reflexivity.
  - unfold bind at 1. rewrite template_item_run, Hi.
    unfold bind at 1. rewrite IH. reflexivity.
Qed.

(** X8. The entries of 'templates' are built in the order of the mapping and
    the first one that cannot be built decides what [templates] raises: an
    [ImproperlyConfigured] of [TemplateConfig] as it is, anything else (an
    unknown parameter, an entry that is no mapping) wrapped into "Invalid
    'templates' in STATIC_TEMPLATE: ...!". What follows that entry is not
    looked at, and nothing is cached but the configuration. *)
Theorem first_invalid_template_decides
    (host : Host) (s sc : State) (cfg t : loc) (before after : dict)
    (item : string * value) (e : exn) :
  cached_templates s = None ->
  config host s = (inr cfg, sc) ->
  Dict.get "templates" (deref (store sc) cfg) = Some (VDict t) ->
  deref (store sc) t = before ++ item :: after ->
  Forall (fun i => exists tc, entry_result (store sc) i = inr tc) before ->
  entry_result (store sc) item = inl e ->
  templates host s
  = (inl (if is_ImproperlyConfigured e then e
          else ImproperlyConfigured
                 [Lit "Invalid 'templates' in STATIC_TEMPLATE: "; FmtExc e; Lit "!"]),
     sc)
  /\ cached_templates sc = None.
Proof.
  intros Hc Hcfg Ht Hitems Hbefore Hitem. split.
  - rewrite (templates_run host s sc cfg Hc Hcfg), Ht, Hitems.
    rewrite (for_each_template_item_stops (store sc) before after item e Hbefore Hitem sc eq_refl).
    reflexivity.
  - destruct (config_shape host s _ sc Hcfg) as (_ & Hb & _).
    unfold beside_config in Hb. congruence.
Qed.

Lemma first_invalid_template_decides_witness :
  templates Sample.bare_host (init (VDict 4) SampleTemplates.unknown_parameter)
  = (inl (ImproperlyConfigured
            [Lit "Invalid 'templates' in STATIC_TEMPLATE: "; FmtExc (PyError "TypeError");
             Lit "!"]),
     with_cached_config 4 (init (VDict 4) SampleTemplates.unknown_parameter))
  /\ cached_templates (with_cached_config 4 (init (VDict 4) SampleTemplates.unknown_parameter))
     = None.
Proof.
  apply (first_invalid_template_decides Sample.bare_host
           (init (VDict 4) SampleTemplates.unknown_parameter)
           (with_cached_config 4 (init (VDict 4) SampleTemplates.unknown_parameter))
           4 5 [("a.html", VDict 6)] [("c.html", VDict 8)] ("b.html", VDict 7)
           (PyError "TypeError")).
  - reflexivity.
  - reflexivity.
  - reflexivity.
  - reflexivity.
  - constructor; [|constructor].
    exists (mkTemplateConfig "a.html" (Some (mkPath true ["out"; "a.html"])) cls_context_).
    reflexivity.
  - reflexivity.
Defined.

Lemma call_name (template_name : string) (kwargs : dict) (tc : TemplateConfig) :
  TemplateConfigClass.call template_name kwargs = inr tc -> name tc = template_name.
Proof.
  unfold TemplateConfigClass.call, TemplateConfigClass.init, TemplateConfigClass.check_absolute.
  destruct (forallb _ _); [|discriminate].
  destruct (default VNone (Dict.get "dest" kwargs)) as [| | |d|p| | |];
    try discriminate;
    repeat match goal with
           | |- context [if ?b then _ else _] => destruct b
           end;
    try discriminate;
    destruct (default VNone (Dict.get "context" kwargs)); try discriminate;
    intros [= <-]; reflexivity.
Qed.

Lemma for_each_template_item_entries (items : dict) :
  forall s s' tmpls,
    for_each template_item items s = (inr tmpls, s') ->
    s' = s
    /\ Forall2 (fun item kt => fst kt = fst item
                               /\ name (snd kt) = fst item
                               /\ entry_result (store s) item = inr (snd kt))
               items tmpls.
Proof.
  induction items as [|item items IH]; intros s s' tmpls; cbn [for_each].
  - unfold ret. intros [= <- <-]. split; [reflexivity | constructor].
  - unfold bind at 1. rewrite template_item_run.
    destruct (entry_result (store s) item) as [e|tc] eqn:Hitem; [discriminate|].
    unfold bind at 1.
    destruct (for_each template_item items s) as [[e|rest] s1] eqn:Hrest; [discriminate|].
    unfold ret. intros [= <- <-].
    destruct (IH s s1 rest Hrest) as [-> Hall].
    split; [reflexivity|]. constructor; [|exact Hall].
    cbn [fst snd]. repeat split; try assumption.
    unfold entry_result in Hitem. destruct (snd item); try discriminate.
    exact (call_name _ _ _ Hitem).
Qed.

(** X9. When [templates] returns, it holds one [TemplateConfig] per item of
    the configured 'templates' mapping (none when the key is absent), in the
    order of the mapping, each under the template's name, carrying that
    name, and built from the item's own dictionary; computing them changes
    nothing but the two caches. *)
Theorem templates_mirror_the_configuration
    (host : Host) (s s' : State) (tmpls : list (string * TemplateConfig)) :
  cached_templates s = None ->
  templates host s = (inr tmpls, s') ->
  exists cfg sc,
    config host s = (inr cfg, sc)
    /\ s' = with_cached_templates tmpls sc
    /\ Dict.keys tmpls = Dict.keys (configured_templates (store sc) cfg)
    /\ Forall2 (fun item kt => fst kt = fst item
                               /\ name (snd kt) = fst item
                               /\ entry_result (store sc) item = inr (snd kt))
               (configured_templates (store sc) cfg) tmpls.
Proof.
  intros Hc Hrun.
  destruct (config host s) as [[e|cfg] sc] eqn:Hcfg.
  - exfalso. unfold templates in Hrun. rewrite cached_property_miss in Hrun by exact Hc.
    unfold catch in Hrun. unfold bind at 1 in Hrun. rewrite Hcfg in Hrun.
    destruct (is_ImproperlyConfigured e); discriminate.
  - exists cfg, sc. split; [reflexivity|].
    rewrite (templates_run host s sc cfg Hc Hcfg) in Hrun.
    assert (Hkeys : forall items tm,
               Forall2 (fun (item : string * value) (kt : string * TemplateConfig) =>
                          fst kt = fst item
                          /\ name (snd kt) = fst item
                          /\ entry_result (store sc) item = inr (snd kt)) items tm ->
               Dict.keys tm = Dict.keys items).
    { intros items tm H. induction H as [|i kt items tm (Hk & _) _ IH]; [reflexivity|].
      unfold Dict.keys in *. cbn [List.map]. rewrite Hk, IH. reflexivity. }
    unfold configured_templates.
    destruct (Dict.get "templates" (deref (store sc) cfg)) as [tv|].
    + destruct tv; try discriminate.
      destruct (for_each template_item (deref (store sc) r) sc) as [[e|tm] s2] eqn:Hloop;
        [discriminate|].
      injection Hrun as <- <-.
      destruct (for_each_template_item_entries _ _ _ _ Hloop) as [-> Hall].
      repeat split; [exact (Hkeys _ _ Hall) | exact Hall].
    + injection Hrun as <- <-. repeat split. constructor.
Qed.

Lemma templates_mirror_the_configuration_witness :
  exists cfg sc,
    config Sample.bare_host (init (VDict 4) SampleTemplates.three) = (inr cfg, sc)
    /\ with_cached_templates SampleTemplates.three_entries
         (with_cached_config 4 (init (VDict 4) SampleTemplates.three))
       = with_cached_templates SampleTemplates.three_entries sc
    /\ Dict.keys SampleTemplates.three_entries
       = Dict.keys (configured_templates (store sc) cfg)
    /\ Forall2 (fun item kt => fst kt = fst item
                               /\ name (snd kt) = fst item
                               /\ entry_result (store sc) item = inr (snd kt))
               (configured_templates (store sc) cfg) SampleTemplates.three_entries.
Proof.
  apply (templates_mirror_the_configuration Sample.bare_host
           (init (VDict 4) SampleTemplates.three)).
  - reflexivity.
  - reflexivity.
Defined.

(** ** The backends *)

Lemma iterate_has_iter (h : heap) (v : value) (items : list value) :
  iterate h v = Some items -> has_iter v = true /\ v <> VNone.
Proof. destruct v; try discriminate; intros _; split; (reflexivity || discriminate). Qed.

Lemma engines_run (host : Host) (s s1 : State) (cfg : loc) (engine_defs : value)
    (defs : list value) :
  cached_engines s = None ->
  config host s = (inr cfg, s1) ->
  Dict.get "ENGINES" (deref (store s1) cfg) = Some engine_defs ->
  iterate (store s1) engine_defs = Some defs ->
  engines host s
  = match for_each backend_entry defs s1 with
    | (inl e, s2) => (inl e, s2)
    | (inr entries, s2) =>
        match duplicates_of (List.map fst entries) with
        | [] =>
            match for_each (instantiate host) (collect entries) s2 with
            | (inr engs, s3) => (inr engs, with_cached_engines engs s3)
            | (inl e, s3) => (inl e, s3)
            end
        | duplicates => (inl (duplicates_error duplicates), s2)
        end
    end.
Proof.
  intros Hc Hcfg Hdefs Hiter.
  destruct (iterate_has_iter _ _ _ Hiter) as [Hhas Hnone].
  unfold engines. rewrite cached_property_miss by exact Hc.
  unfold bind at 1. unfold ensure_engines.
  unfold bind at 1. rewrite Hcfg.
  unfold bind at 1. cbn [get_state]. rewrite Hdefs.
  assert (Hens : (match engine_defs with
                  | VNone =>
                      cfg' <- config host ;;
                      s' <- get_state ;;
                      store_set cfg' (Dict.set "ENGINES" DEFAULT_ENGINE_CONFIG
                                                (deref (store s') cfg'))
                  | _ =>
                      if has_iter engine_defs then ret tt
                      else raise (ImproperlyConfigured
                                    [Lit "ENGINES in STATIC_TEMPLATES setting must be an iterable containing engine configurations! Encountered: ";
                                     FmtType engine_defs])
                  end) s1 = (inr tt, s1)).
  { destruct engine_defs; try discriminate; try congruence; reflexivity. }
  rewrite Hens.
  unfold build_engines. unfold bind at 1. rewrite (config_again host s s1 cfg Hcfg).
  unfold bind at 1. cbn [get_state]. rewrite Hdefs.
  change (default (VList []) (Some engine_defs)) with engine_defs. rewrite Hiter.
  unfold bind at 1.
  destruct (for_each backend_entry defs s1) as [[e|entries] s2]; [reflexivity|].
  destruct (duplicates_of (List.map fst entries)); reflexivity.
Qed.

Lemma for_each_backend_entry_stops (before after : list value) (bad : value) (e : exn) :
  forall (aliases : list string) (s : State),
    Forall2 (resolves_to (store s)) before aliases ->
    (forall s2, grows s s2 -> backend_entry bad s2 = (inl e, s2)) ->
    exists s', for_each backend_entry (before ++ bad :: after) s = (inl e, s')
               /\ grows s s'.
Proof.
  induction before as [|def before IH]; intros aliases s Hall Hbad.
  - exists s. split; [|apply grows_refl].
    cbn [app for_each]. unfold bind at 1. rewrite (Hbad s (grows_refl s)). reflexivity.
  - apply Forall2_cons_inv_l in Hall as (alias & aliases' & Hdef & Hrest & ->).
    destruct (backend_entry_run s def alias Hdef) as (merged & Hrun & _).
    assert (Hstep : grows s (with_store (store s ++ [[]]) s)) by (exists 1; reflexivity).
    destruct (IH aliases' (with_store (store s ++ [[]]) s)) as (s' & Hloop & Hgrows).
    + cbn [store with_store]. eapply Forall2_impl; [exact Hrest|].
      intros x y. apply resolves_to_grows.
    + intros s2 Hs2. apply Hbad. exact (grows_trans _ _ _ Hstep Hs2).
    + exists s'. split; [|exact (grows_trans _ _ _ Hstep Hgrows)].
      cbn [app for_each]. unfold bind at 1. rewrite Hrun.
      unfold bind at 1. cbn [app] in Hloop. rewrite Hloop. reflexivity.
Qed.

(** X10. The definitions under 'ENGINES' are read in order, and the first
    one whose BACKEND is missing or is not a string makes [engines] raise
    [ImproperlyConfigured] with [backend.get('BACKEND', '<not defined>')] in
    its message, whatever follows it; nothing is cached for [engines] and no
    existing dictionary changes. *)
Theorem malformed_backend_is_reported
    (host : Host) (s s1 : State) (cfg b : loc) (engine_defs : value)
    (before after : list value) (aliases : list string) :
  cached_engines s = None ->
  config host s = (inr cfg, s1) ->
  Dict.get "ENGINES" (deref (store s1) cfg) = Some engine_defs ->
  iterate (store s1) engine_defs = Some (before ++ VDict b :: after) ->
  Forall2 (resolves_to (store s1)) before aliases ->
  (forall path, Dict.get "BACKEND" (deref (store s1) b) <> Some (VStr path)) ->
  exists s',
    engines host s
    = (inl (ImproperlyConfigured
              [Lit "Invalid BACKEND for a static template engine: ";
               Fmt (default (VStr "<not defined>")
                            (Dict.get "BACKEND" (deref (store s1) b)));
               Lit ". Check your STATIC_TEMPLATES setting."]),
       s')
    /\ cached_engines s' = None
    /\ grows s1 s'.
Proof.
  intros Hc Hcfg Hdefs Hiter Hbefore Hbad.
  destruct (for_each_backend_entry_stops before after (VDict b)
              (ImproperlyConfigured
                 [Lit "Invalid BACKEND for a static template engine: ";
                  Fmt (default (VStr "<not defined>")
                               (Dict.get "BACKEND" (deref (store s1) b)));
                  Lit ". Check your STATIC_TEMPLATES setting."])
              aliases s1 Hbefore) as (s' & Hloop & Hgrows).
  { intros s2 [n ->]. unfold backend_entry, bind, get_state.
    cbn [store with_store]. rewrite deref_grown.
    destruct (Dict.get "BACKEND" (deref (store s1) b)) as [v|]; [|reflexivity].
    destruct v; try reflexivity. exfalso. exact (Hbad _ eq_refl). }
  exists s'. split; [|split; [|exact Hgrows]].
  - rewrite (engines_run host s s1 cfg engine_defs _ Hc Hcfg Hdefs Hiter), Hloop. reflexivity.
  - destruct Hgrows as [n ->]. cbn [cached_engines with_store].
    destruct (config_shape host s _ s1 Hcfg) as (_ & Hb & _).
    unfold beside_config in Hb. congruence.
Qed.

Lemma malformed_backend_is_reported_witness :
  exists s',
    engines Sample.bare_host (init (VDict 4) SampleEngines.no_backend)
    = (inl (ImproperlyConfigured
              [Lit "Invalid BACKEND for a static template engine: ";
               Fmt (VStr "<not defined>");
               Lit ". Check your STATIC_TEMPLATES setting."]),
       s')
    /\ cached_engines s' = None
    /\ grows (with_cached_config 4 (init (VDict 4) SampleEngines.no_backend)) s'.
Proof.
  apply (malformed_backend_is_reported Sample.bare_host
           (init (VDict 4) SampleEngines.no_backend)
           (with_cached_config 4 (init (VDict 4) SampleEngines.no_backend))
           4 6 (VList [VDict 5; VDict 6; VDict 7]) [VDict 5] [VDict 7] ["First"]).
  - reflexivity.
  - reflexivity.
  - reflexivity.
  - reflexivity.
  - repeat constructor.
    eexists _, _; split; [reflexivity|]; split;
      [ repeat constructor; simpl; intuition discriminate
      | split; [reflexivity | right; split; reflexivity] ].
  - intros path. discriminate.
Defined.

(** X11. An element of 'ENGINES' that is not a mapping (so also any element
    of an 'ENGINES' given as a non-empty string or mapping, which the
    [__iter__] test lets through) makes [engines] raise the
    [AttributeError] of [backend.get] in the handler, not an
    [ImproperlyConfigured]. *)
Theorem engine_definitions_must_be_mappings
    (host : Host) (s s1 : State) (cfg : loc) (engine_defs bad : value)
    (before after : list value) (aliases : list string) :
  cached_engines s = None ->
  config host s = (inr cfg, s1) ->
  Dict.get "ENGINES" (deref (store s1) cfg) = Some engine_defs ->
  iterate (store s1) engine_defs = Some (before ++ bad :: after) ->
  Forall2 (resolves_to (store s1)) before aliases ->
  (forall b, bad <> VDict b) ->
  fst (engines host s) = inl (PyError "AttributeError").
Proof.
  intros Hc Hcfg Hdefs Hiter Hbefore Hbad.
  destruct (for_each_backend_entry_stops before after bad (PyError "AttributeError")
              aliases s1 Hbefore) as (s' & Hloop & _).
  { intros s2 _. unfold backend_entry, bind, get_state.
    destruct bad; try reflexivity. exfalso. exact (Hbad _ eq_refl). }
  rewrite (engines_run host s s1 cfg engine_defs _ Hc Hcfg Hdefs Hiter), Hloop. reflexivity.
Qed.

Lemma engine_definitions_must_be_mappings_witness :
  fst (engines Sample.bare_host (init (VDict 4) SampleEngines.engines_as_string))
  = inl (PyError "AttributeError").
Proof.
  apply (engine_definitions_must_be_mappings Sample.bare_host
           (init (VDict 4) SampleEngines.engines_as_string)
           (with_cached_config 4 (init (VDict 4) SampleEngines.engines_as_string))
           4 (VStr "pkg.First") (VStr "p") [] [VStr "k"; VStr "g"; VStr "."; VStr "F";
                                               VStr "i"; VStr "r"; VStr "s"; VStr "t"] []).
  - reflexivity.
  - reflexivity.
  - reflexivity.
  - reflexivity.
  - constructor.
  - intros b. discriminate.
Defined.

(** X12. An 'ENGINES' that is neither [None] nor iterable makes [engines]
    raise [ImproperlyConfigured] with the type of the value; the state is
    as [config] left it. *)
Theorem engines_must_be_iterable
    (host : Host) (s s1 : State) (cfg : loc) (engine_defs : value) :
  cached_engines s = None ->
  config host s = (inr cfg, s1) ->
  Dict.get "ENGINES" (deref (store s1) cfg) = Some engine_defs ->
  engine_defs <> VNone ->
  has_iter engine_defs = false ->
  engines host s
  = (inl (ImproperlyConfigured
            [Lit "ENGINES in STATIC_TEMPLATES setting must be an iterable containing engine configurations! Encountered: ";
             FmtType engine_defs]),
     s1).
Proof.
  intros Hc Hcfg Hdefs Hnone Hiter.
  unfold engines. rewrite cached_property_miss by exact Hc.
  unfold bind at 1. unfold ensure_engines.
  unfold bind at 1. rewrite Hcfg.
  unfold bind at 1. cbn [get_state]. rewrite Hdefs.
  destruct engine_defs; try congruence; try discriminate; reflexivity.
Qed.

Lemma engines_must_be_iterable_witness :
  engines Sample.bare_host (init (VDict 4) SampleEngines.engines_as_number)
  = (inl (ImproperlyConfigured
            [Lit "ENGINES in STATIC_TEMPLATES setting must be an iterable containing engine configurations! Encountered: ";
             FmtType (VInt 5)]),
     with_cached_config 4 (init (VDict 4) SampleEngines.engines_as_number)).
Proof.
  apply (engines_must_be_iterable Sample.bare_host
           (init (VDict 4) SampleEngines.engines_as_number)
           (with_cached_config 4 (init (VDict 4) SampleEngines.engines_as_number))
           4 (VInt 5)).
  - reflexivity.
  - reflexivity.
  - reflexivity.
  - discriminate.
  - reflexivity.
Defined.

Lemma set_fresh {V : Type} (k : string) (v : V) (d : list (string * V)) :
  ~ In k (Dict.keys d) -> Dict.set k v d = d ++ [(k, v)].
Proof.
  induction d as [|[k' v'] d IH]; intros Hk; cbn [Dict.set app]; [reflexivity|].
  destruct (String.eqb_spec k k') as [->|Hne].
  - exfalso. apply Hk. left. reflexivity.
  - rewrite IH; [reflexivity|]. intros Hin. apply Hk. right. exact Hin.
Qed.

Lemma collect_distinct (entries : list (string * dict)) :
  List.NoDup (List.map fst entries) -> collect entries = entries.
Proof.
  unfold collect.
  assert (H : forall acc : list (string * dict),
             List.NoDup (List.map fst (acc ++ entries)) ->
             fold_left (fun engines e => Dict.set (fst e) (snd e) engines) entries acc
             = acc ++ entries).
  { induction entries as [|e entries IH]; intros acc Hnd; cbn [fold_left].
    - rewrite app_nil_r. reflexivity.
    - destruct e as [k v]. cbn [fst snd] in *. rewrite set_fresh.
      + rewrite IH; rewrite <- app_assoc; [reflexivity | exact Hnd].
      + rewrite List.map_app in Hnd. cbn [List.map] in Hnd.
        apply List.NoDup_remove_2 in Hnd. intros Hin. apply Hnd.
        apply in_or_app. left. exact Hin. }
  intros Hnd. apply (H []). exact Hnd.
Qed.

Lemma duplicates_of_distinct (names : list string) :
  List.NoDup names -> duplicates_of names = [].
Proof.
  intros Hnd. destruct (duplicates_of names) as [|a l] eqn:Hd; [reflexivity|].
  assert (Hin : In a (duplicates_of names)) by (rewrite Hd; left; reflexivity).
  apply duplicates_of_spec in Hin. unfold occurrences in Hin.
  pose proof (proj1 (List.NoDup_count_occ string_dec names) Hnd a). lia.
Qed.

Lemma get_remove {V : Type} (k k' : string) (d : list (string * V)) :
  Dict.get k (Dict.remove k' d) = if String.eqb k k' then None else Dict.get k d.
Proof.
  induction d as [|[k0 v0] d IH]; cbn [Dict.remove List.filter Dict.get fst].
  - destruct (String.eqb k k'); reflexivity.
  - destruct (String.eqb_spec k' k0) as [->|Hne]; cbn [negb].
    + fold (Dict.remove k0 d). rewrite IH. destruct (String.eqb_spec k k0); reflexivity.
    + cbn [Dict.get]. fold (Dict.remove k' d). rewrite IH.
      destruct (String.eqb_spec k k0) as [->|]; [|reflexivity].
      destruct (String.eqb_spec k0 k'); [congruence | reflexivity].
Qed.

Lemma backend_entry_built (s : State) (def : value) (alias : string) :
  resolves_to (store s) def alias ->
  exists merged,
    backend_entry def s = (inr (alias, merged), with_store (store s ++ [[]]) s)
    /\ built_entry (store s) def (alias, merged).
Proof.
  intros (b & path & -> & Hnd & Hb & Hn).
  exists (filled_in path (length (store s)) (deref (store s) b)).
  assert (Hname : Dict.get "NAME" (filled_in path (length (store s)) (deref (store s) b))
                  = Some (VStr alias)).
  { unfold filled_in. rewrite DictFacts.get_update by exact Hnd.
    destruct Hn as [Hn | [Hn ->]]; rewrite Hn; [reflexivity|].
    rewrite rsplit_last. reflexivity. }
  split.
  - unfold backend_entry. unfold bind at 1. cbn [get_state]. rewrite Hb.
    unfold bind at 1. cbn [alloc]. fold (filled_in path (length (store s)) (deref (store s) b)).
    rewrite Hname. reflexivity.
  - exists b, path, (length (store s)). cbn [fst snd]. repeat split; auto.
Qed.

Lemma built_entry_grown (h : heap) (def : value) (entry : string * dict) :
  built_entry (h ++ [[]]) def entry -> built_entry h def entry.
Proof.
  intros (b & path & o & -> & Hnd & Hb & Ho & Hsnd & Hname).
  change [[]] with (replicate 1 ([] : dict)) in *.
  rewrite deref_grown in *. rewrite length_app in Ho.
  exists b, path, o. repeat split; auto. lia.
Qed.

Lemma for_each_backend_entry_built (defs : list value) :
  forall (aliases : list string) (s : State),
    Forall2 (resolves_to (store s)) defs aliases ->
    exists entries n,
      for_each backend_entry defs s
      = (inr entries, with_store (store s ++ replicate n []) s)
      /\ List.map fst entries = aliases
      /\ Forall2 (built_entry (store s)) defs entries.
Proof.
  induction defs as [|def defs IH]; intros aliases s Hall.
  - apply Forall2_nil_inv_l in Hall as ->.
    exists [], 0. cbn [replicate]. rewrite app_nil_r. destruct s.
    repeat split. constructor.
  - apply Forall2_cons_inv_l in Hall as (alias & aliases' & Hdef & Hrest & ->).
    destruct (backend_entry_built s def alias Hdef) as (merged & Hrun & Hbuilt).
    destruct (IH aliases' (with_store (store s ++ [[]]) s))
      as (entries & n & Hloop & Hmap & Hentries).
    { cbn [store with_store]. eapply Forall2_impl; [exact Hrest|].
      intros x y. apply resolves_to_grows. }
    exists ((alias, merged) :: entries), (S n). split; [|split].
    + cbn [for_each]. unfold bind at 1. rewrite Hrun.
      unfold bind at 1. rewrite Hloop. unfold ret.
      cbn [store with_store replicate]. rewrite with_store_twice, <- app_assoc. reflexivity.
    + cbn [List.map fst]. rewrite Hmap. reflexivity.
    + constructor; [exact Hbuilt|].
      cbn [store with_store] in Hentries.
      eapply Forall2_impl; [exact Hentries|]. intros x y. apply built_entry_grown.
Qed.

Lemma built_entry_backend (h : heap) (def : value) (entry : string * dict) :
  built_entry h def entry ->
  exists b path, def = VDict b
                 /\ Dict.get "BACKEND" (deref h b) = Some (VStr path)
                 /\ Dict.get "BACKEND" (snd entry) = Some (VStr path).
Proof.
  intros (b & path & o & -> & Hnd & Hb & _ & Hsnd & _).
  exists b, path. repeat split; auto.
  rewrite Hsnd. unfold filled_in. rewrite DictFacts.get_update by exact Hnd.
  rewrite Hb. reflexivity.
Qed.

Lemma instantiate_run (host : Host) (entry : string * dict) (path : string) (s : State) :
  Dict.get "BACKEND" (snd entry) = Some (VStr path) ->
  instantiate host entry s
  = (match import_string host path (Dict.remove "BACKEND" (snd entry)) with
     | inr instance => inr (fst entry, instance)
     | inl e => inl e
     end, s).
Proof.
  intros Hb. unfold instantiate. rewrite Hb. unfold bind, lift.
  destruct (import_string host path (Dict.remove "BACKEND" (snd entry))); reflexivity.
Qed.

Lemma parameters_of_built (h h' : heap) (def : value) (entry : string * dict) :
  built_entry h def entry ->
  (forall o, length h <= o -> deref h' o = []) ->
  exists b, def = VDict b
            /\ parameters_of h h' (deref h b) (fst entry) (Dict.remove "BACKEND" (snd entry)).
Proof.
  intros (b & path & o & -> & Hnd & Hb & Ho & Hsnd & Hname) Hnew.
  exists b. split; [reflexivity|].
  unfold parameters_of. rewrite !get_remove. cbn [String.eqb Ascii.eqb Bool.eqb].
  rewrite Hname. rewrite Hsnd. unfold filled_in.
  rewrite !DictFacts.get_update by exact Hnd.
  repeat split.
  - destruct (Dict.get "DIRS" (deref h b)); reflexivity.
  - destruct (Dict.get "APP_DIRS" (deref h b)); reflexivity.
  - destruct (Dict.get "OPTIONS" (deref h b)); [reflexivity|].
    exists o. repeat split; auto.
  - intros k H1 H2 H3 H4 H5. rewrite get_remove.
    destruct (String.eqb_spec k "BACKEND") as [|_]; [contradiction|].
    rewrite DictFacts.get_update by exact Hnd.
    destruct (Dict.get k (deref h b)); [reflexivity|].
    cbn [Dict.get].
    destruct (String.eqb_spec k "NAME"); [contradiction|].
    destruct (String.eqb_spec k "DIRS"); [contradiction|].
    destruct (String.eqb_spec k "APP_DIRS"); [contradiction|].
    destruct (String.eqb_spec k "OPTIONS"); [contradiction|].
    reflexivity.
Qed.

Lemma for_each_instantiate_all (host : Host) (h h' : heap)
    (defs : list value) (entries : list (string * dict)) :
  (forall backend params, exists instance, import_string host backend params = inr instance) ->
  (forall o, length h <= o -> deref h' o = []) ->
  Forall2 (built_entry h) defs entries ->
  forall s,
  exists engs,
    for_each (instantiate host) entries s = (inr engs, s)
    /\ Dict.keys engs = List.map fst entries
    /\ Forall2 (fun def kb =>
                  exists b path params,
                    def = VDict b
                    /\ Dict.get "BACKEND" (deref h b) = Some (VStr path)
                    /\ import_string host path params = inr (snd kb)
                    /\ parameters_of h h' (deref h b) (fst kb) params)
               defs engs.
Proof.
  intros Himport Hnew Hall s.
  induction Hall as [|def entry defs entries Hentry _ (engs & Hloop & Hkeys & Hengs)].
  - exists []. repeat split. constructor.
  - destruct (built_entry_backend h def entry Hentry) as (b & path & -> & Hb & Hmerged).
    destruct (Himport path (Dict.remove "BACKEND" (snd entry))) as [instance Hinstance].
    exists ((fst entry, instance) :: engs). split; [|split].
    + cbn [for_each]. unfold bind at 1.
      rewrite (instantiate_run host entry path s Hmerged), Hinstance.
      unfold bind at 1. rewrite Hloop. reflexivity.
    + unfold Dict.keys in *. cbn [List.map fst]. rewrite Hkeys. reflexivity.
    + constructor; [|exact Hengs].
      destruct (parameters_of_built h h' (VDict b) entry Hentry Hnew) as (b' & [= <-] & Hparams).
      exists b, path, (Dict.remove "BACKEND" (snd entry)). cbn [fst snd].
      split; [reflexivity|]. split; [exact Hb|]. split; [exact Hinstance | exact Hparams].
Qed.

Lemma for_each_instantiate_broken (host : Host) (h : heap) (broken : string) (e : exn)
    (defs : list value) (entries : list (string * dict)) :
  (forall backend params, backend <> broken ->
                          exists instance, import_string host backend params = inr instance) ->
  (forall params, import_string host broken params = inl e) ->
  Forall2 (built_entry h) defs entries ->
  Exists (fun def => exists b, def = VDict b
                               /\ Dict.get "BACKEND" (deref h b) = Some (VStr broken)) defs ->
  forall s, for_each (instantiate host) entries s = (inl e, s).
Proof.
  intros Hothers Hbroken Hall Hsome s.
  induction Hall as [|def entry defs entries Hentry _ IH]; [inversion Hsome|].
  destruct (built_entry_backend h def entry Hentry) as (b & path & -> & Hb & Hmerged).
  cbn [for_each]. unfold bind at 1. rewrite (instantiate_run host entry path s Hmerged).
  destruct (string_dec path broken) as [->|Hne].
  - rewrite Hbroken. reflexivity.
  - destruct (Hothers path (Dict.remove "BACKEND" (snd entry)) Hne) as [instance ->].
    unfold bind at 1. rewrite IH; [reflexivity|].
    apply List.Exists_cons in Hsome as [(b' & [= <-] & Hb') | Hrest]; [|exact Hrest].
    congruence.
Qed.

Lemma deref_beyond (h : heap) (n : nat) (o : loc) :
  length h <= o -> deref (h ++ replicate n []) o = [].
Proof.
  intros Ho. rewrite deref_grown. unfold deref.
  rewrite (lookup_ge_None_2 h o) by lia. reflexivity.
Qed.

(** X13. When every definition under 'ENGINES' resolves to an alias, the
    aliases are distinct and the host can import every backend, [engines]
    returns one instance per definition, under its alias and in the order
    of the definitions; each instance is [import_string(BACKEND)(params)],
    where [params] is the definition without BACKEND, with the alias as
    NAME and with DIRS, APP_DIRS and OPTIONS defaulting to [[]], [False]
    and a new empty dictionary. Nothing else happens to the state but that
    the mapping is cached. *)
Theorem backends_are_built_from_their_definitions
    (host : Host) (s s1 : State) (cfg : loc) (engine_defs : value)
    (defs : list value) (aliases : list string) :
  cached_engines s = None ->
  config host s = (inr cfg, s1) ->
  Dict.get "ENGINES" (deref (store s1) cfg) = Some engine_defs ->
  iterate (store s1) engine_defs = Some defs ->
  Forall2 (resolves_to (store s1)) defs aliases ->
  List.NoDup aliases ->
  (forall backend params, exists instance, import_string host backend params = inr instance) ->
  exists engs s2,
    engines host s = (inr engs, with_cached_engines engs s2)
    /\ grows s1 s2
    /\ Dict.keys engs = aliases
    /\ Forall2 (fun def kb =>
                  exists b path params,
                    def = VDict b
                    /\ Dict.get "BACKEND" (deref (store s1) b) = Some (VStr path)
                    /\ import_string host path params = inr (snd kb)
                    /\ parameters_of (store s1) (store s2) (deref (store s1) b) (fst kb) params)
               defs engs.
Proof.
  intros Hc Hcfg Hdefs Hiter Hres Hnd Himport.
  destruct (for_each_backend_entry_built defs aliases s1 Hres)
    as (entries & n & Hloop & Hmap & Hentries).
  set (s2 := with_store (store s1 ++ replicate n []) s1) in *.
  destruct (for_each_instantiate_all host (store s1) (store s2) defs entries Himport
              (deref_beyond (store s1) n) Hentries s2) as (engs & Hinst & Hkeys & Hengs).
  exists engs, s2. split; [|split; [|split]].
  - rewrite (engines_run host s s1 cfg engine_defs defs Hc Hcfg Hdefs Hiter), Hloop.
    rewrite Hmap, (duplicates_of_distinct aliases Hnd).
    rewrite collect_distinct by (rewrite Hmap; exact Hnd).
    rewrite Hinst. reflexivity.
  - exists n. reflexivity.
  - rewrite Hkeys. exact Hmap.
  - exact Hengs.
Qed.

Lemma backends_are_built_from_their_definitions_witness :
  exists engs s2,
    engines SampleEngines.showing (init (VDict 4) SampleEngines.three)
    = (inr engs, with_cached_engines engs s2)
    /\ grows (with_cached_config 4 (init (VDict 4) SampleEngines.three)) s2
    /\ Dict.keys engs = ["First"; "second"; "Third"]
    /\ Forall2 (fun def kb =>
                  exists b path params,
                    def = VDict b
                    /\ Dict.get "BACKEND" (deref (store SampleEngines.three) b)
                       = Some (VStr path)
                    /\ import_string SampleEngines.showing path params = inr (snd kb)
                    /\ parameters_of (store SampleEngines.three) (store s2)
                                     (deref (store SampleEngines.three) b) (fst kb) params)
               [VDict 5; VDict 6; VDict 7] engs.
Proof.
  apply (backends_are_built_from_their_definitions SampleEngines.showing
           (init (VDict 4) SampleEngines.three)
           (with_cached_config 4 (init (VDict 4) SampleEngines.three))
           4 (VList [VDict 5; VDict 6; VDict 7]) [VDict 5; VDict 6; VDict 7]
           ["First"; "second"; "Third"]).
  - reflexivity.
  - reflexivity.
  - reflexivity.
  - reflexivity.
  - repeat constructor;
      (eexists _, _; split; [reflexivity|]; split;
       [ repeat constructor; simpl; intuition discriminate
       | split; [reflexivity | first [left; reflexivity | right; split; reflexivity]] ]).
  - repeat constructor; simpl; intuition discriminate.
  - intros backend params. eexists. reflexivity.
Defined.

(** X14. All definitions are read and the aliases checked before the first
    backend is imported; from then on an exception of [import_string] or of
    the backend's constructor leaves [engines] as it is, not turned into an
    [ImproperlyConfigured], and no mapping is cached. *)
Theorem import_errors_pass_through
    (host : Host) (s s1 : State) (cfg : loc) (engine_defs : value)
    (defs : list value) (aliases : list string) (broken : string) (e : exn) :
  cached_engines s = None ->
  config host s = (inr cfg, s1) ->
  Dict.get "ENGINES" (deref (store s1) cfg) = Some engine_defs ->
  iterate (store s1) engine_defs = Some defs ->
  Forall2 (resolves_to (store s1)) defs aliases ->
  List.NoDup aliases ->
  (forall backend params, backend <> broken ->
                          exists instance, import_string host backend params = inr instance) ->
  (forall params, import_string host broken params = inl e) ->
  Exists (fun def => exists b, def = VDict b
                               /\ Dict.get "BACKEND" (deref (store s1) b) = Some (VStr broken))
         defs ->
  exists s',
    engines host s = (inl e, s') /\ cached_engines s' = None /\ grows s1 s'.
Proof.
  intros Hc Hcfg Hdefs Hiter Hres Hnd Hothers Hbroken Hsome.
  destruct (for_each_backend_entry_built defs aliases s1 Hres)
    as (entries & n & Hloop & Hmap & Hentries).
  exists (with_store (store s1 ++ replicate n []) s1). split; [|split].
  - rewrite (engines_run host s s1 cfg engine_defs defs Hc Hcfg Hdefs Hiter), Hloop.
    rewrite Hmap, (duplicates_of_distinct aliases Hnd).
    rewrite collect_distinct by (rewrite Hmap; exact Hnd).
    rewrite (for_each_instantiate_broken host (store s1) broken e defs entries
               Hothers Hbroken Hentries Hsome).
    reflexivity.
  - cbn [cached_engines with_store].
    destruct (config_shape host s _ s1 Hcfg) as (_ & Hb & _).
    unfold beside_config in Hb. congruence.
  - exists n. reflexivity.
Qed.

Lemma import_errors_pass_through_witness :
  exists s',
    engines SampleEngines.one_broken (init (VDict 4) SampleEngines.three)
    = (inl (BackendError "ImportError"), s')
    /\ cached_engines s' = None
    /\ grows (with_cached_config 4 (init (VDict 4) SampleEngines.three)) s'.
Proof.
  apply (import_errors_pass_through SampleEngines.one_broken
           (init (VDict 4) SampleEngines.three)
           (with_cached_config 4 (init (VDict 4) SampleEngines.three))
           4 (VList [VDict 5; VDict 6; VDict 7]) [VDict 5; VDict 6; VDict 7]
           ["First"; "second"; "Third"] "pkg.Broken").
  - reflexivity.
  - reflexivity.
  - reflexivity.
  - reflexivity.
  - repeat constructor;
      (eexists _, _; split; [reflexivity|]; split;
       [ repeat constructor; simpl; intuition discriminate
       | split; [reflexivity | first [left; reflexivity | right; split; reflexivity]] ]).
  - repeat constructor; simpl; intuition discriminate.
  - intros backend params Hne. cbn [import_string SampleEngines.one_broken].
    destruct (String.eqb_spec backend "pkg.Broken") as [Heq|_]; [contradiction|].
    eexists. reflexivity.
  - intros params. reflexivity.
  - apply List.Exists_cons_tl, List.Exists_cons_hd. exists 6. split; reflexivity.
Defined.

(** ** Rendering to disk *)

Lemma beside_disk (s s' : State) : beside_config s' = beside_config s -> disk s' = disk s.
Proof. unfold beside_config, disk. intros [= _ _ _ -> -> ->]. reflexivity. Qed.

Lemma grows_disk (s s' : State) : grows s s' -> disk s' = disk s.
Proof. intros [n ->]. reflexivity. Qed.

Lemma config_disk (host : Host) (s : State) r s' :
  config host s = (r, s') -> disk s' = disk s.
Proof.
  intros H. destruct (config_shape host s r s' H) as (_ & Hb & _). apply beside_disk, Hb.
Qed.

Lemma for_each_keeps {A B X : Type} (f : State -> X) (body : A -> M B) :
  (forall x s r s', body x s = (r, s') -> f s' = f s) ->
  forall items s r s', for_each body items s = (r, s') -> f s' = f s.
Proof.
  intros Hbody. induction items as [|x items IH]; intros s r s' Hrun.
  - injection Hrun as _ <-. reflexivity.
  - cbn [for_each] in Hrun. unfold bind at 1 in Hrun.
    destruct (body x s) as [[e|y] s1] eqn:Hx.
    + injection Hrun as _ <-. eapply Hbody, Hx.
    + apply Hbody in Hx. unfold bind at 1 in Hrun.
      destruct (for_each body items s1) as [[e|ys] s2] eqn:Hrest;
        injection Hrun as _ <-; apply IH in Hrest; congruence.
Qed.

Lemma templates_disk (host : Host) (s : State) r s' :
  templates host s = (r, s') -> disk s' = disk s.
Proof.
  unfold templates, cached_property.
  destruct (cached_templates s); [intros [= _ <-]; reflexivity|].
  unfold catch. unfold bind at 1.
  destruct (config host s) as [[e|cfg] sc] eqn:Hcfg;
    pose proof (config_disk host s _ sc Hcfg) as Hd.
  - destruct (is_ImproperlyConfigured e); intros [= _ <-]; exact Hd.
  - unfold bind at 1. cbn [get_state].
    destruct (Dict.get "templates" (deref (store sc) cfg)) as [tv|].
    + destruct tv;
        try (cbn [raise is_ImproperlyConfigured]; intros [= _ <-]; exact Hd).
      destruct (for_each template_item (deref (store sc) r0) sc) as [[e|tm] s2] eqn:Hloop;
        pose proof (for_each_pure template_item template_item_pure _ _ _ _ Hloop) as ->.
      * destruct (is_ImproperlyConfigured e); intros [= _ <-]; exact Hd.
      * intros [= _ <-]. exact Hd.
    + cbn [ret]. intros [= _ <-]. exact Hd.
Qed.

Lemma engines_disk (host : Host) (s : State) r s' :
  engines host s = (r, s') -> disk s' = disk s.
Proof.
  unfold engines, cached_property.
  destruct (cached_engines s); [intros [= _ <-]; reflexivity|].
  unfold bind at 1.
  destruct (ensure_engines host s) as [[e|[]] s1] eqn:Hens;
    pose proof (beside_disk _ _ (ensure_engines_beside host s s1 _ Hens)) as H1.
  - intros [= _ <-]. exact H1.
  - destruct (ensure_engines_caches_config host s s1 Hens) as [cfg Hc1].
    destruct (build_engines host s1) as [[e|engs] s2] eqn:Hbuild;
      pose proof (grows_disk _ _ (build_engines_grows host s1 cfg _ _ Hc1 Hbuild)) as H2;
      intros [= _ <-]; [congruence|].
    change (disk s2 = disk s). congruence.
Qed.

Lemma getitem_disk (host : Host) (alias : string) (s : State) r s' :
  getitem host alias s = (r, s') -> disk s' = disk s.
Proof.
  rewrite getitem_run.
  destruct (engines host s) as [[e|engs] s1] eqn:He;
    pose proof (engines_disk host s _ s1 He) as Hd.
  - intros [= _ <-]. exact Hd.
  - destruct (Dict.get alias engs); intros [= _ <-]; exact Hd.
Qed.

Lemma all_disk (host : Host) (s : State) r s' :
  all host s = (r, s') -> disk s' = disk s.
Proof.
  unfold all, iter. unfold bind at 1. unfold bind at 1.
  destruct (engines host s) as [[e|engs] s1] eqn:He;
    pose proof (engines_disk host s _ s1 He) as Hd.
  - intros [= _ <-]. exact Hd.
  - cbn [ret]. intros Hloop.
    apply (for_each_keeps disk (getitem host) (getitem_disk host)) in Hloop. congruence.
Qed.

Lemma locate_disk (host : Host) (template_name : string) (s : State) r s' :
  locate host template_name s = (r, s') -> disk s' = disk s.
Proof.
  unfold locate. unfold bind at 1.
  destruct (templates host s) as [[e|tmpls] s1] eqn:Ht;
    pose proof (templates_disk host s _ s1 Ht) as H1.
  - intros [= _ <-]. exact H1.
  - unfold bind at 1.
    destruct (all host s1) as [[e|backends] s2] eqn:Hall;
      pose proof (all_disk host s1 _ s2 Hall) as H2.
    + intros [= _ <-]. congruence.
    + unfold bind at 1.
      destruct (lookup_loop template_name backends None []) as [e|found];
        cbn [lift ret raise]; [intros [= _ <-]; congruence|].
      destruct (fst found); intros [= _ <-]; congruence.
Qed.

Lemma context_disk (host : Host) (s : State) r s' :
  context host s = (r, s') -> disk s' = disk s.
Proof.
  destruct (cached_context s) as [g|] eqn:Hc.
  - unfold context. rewrite (cached_property_hit _ _ _ s g Hc). intros [= _ <-]. reflexivity.
  - destruct (config host s) as [[e|cfg] s1] eqn:Hcfg;
      pose proof (config_disk host s _ s1 Hcfg) as Hd.
    + unfold context. rewrite cached_property_miss by exact Hc.
      unfold bind at 1. rewrite Hcfg. intros [= _ <-]. exact Hd.
    + rewrite (context_run host s cfg s1 Hc Hcfg).
      destruct (declared_global (store s1) cfg); intros [= _ <-]; exact Hd.
Qed.

Lemma update_ctx_disk (ctx : loc) (context_arg : value) (s : State) r s' :
  update_ctx ctx context_arg s = (r, s') -> disk s' = disk s.
Proof. destruct context_arg; intros [= _ <-]; reflexivity. Qed.

Lemma files_beside_idem (p : Path) (text : string) (s : State) :
  files_beside p (with_file p text s) = files_beside p s.
Proof.
  unfold files_beside, with_file. cbn [files with_files List.filter fst].
  rewrite bool_decide_true by reflexivity. cbn [negb].
  induction (files s) as [|f l IH]; [reflexivity|].
  cbn [List.filter]. destruct (negb (bool_decide (fst f = p))) eqn:Hf.
  - cbn [List.filter]. rewrite Hf, IH. reflexivity.
  - exact IH.
Qed.

Lemma ensure_parent_run (p : Path) (s : State) :
  ensure_parent p s
  = if parent_available s p then (inr tt, with_parent_of p s)
    else (inl (PyError "NotADirectoryError"), s).
Proof.
  unfold ensure_parent, makedirs, with_parent_of, parent_available.
  unfold bind, get_state, raise, modify, ret.
  destruct (path_exists s (PathLib.parent p)) eqn:Hex; [reflexivity|].
  cbn [orb]. destruct (existsb (is_file s) _); cbn [negb]; rewrite ?Hex; reflexivity.
Qed.

Lemma open_w_inv (p : Path) (s s' : State) :
  open_w p s = (inr tt, s') ->
  is_dir s p = false /\ is_dir s (PathLib.parent p) = true /\ s' = with_file p "" s.
Proof.
  unfold open_w, bind, get_state, raise, modify.
  destruct (is_dir s p); [discriminate|].
  destruct (is_dir s (PathLib.parent p)); [intros [= <-]; auto|].
  destruct (path_exists s (PathLib.parent p)); discriminate.
Qed.

Lemma writable_disk (s s' : State) (p : Path) :
  disk s' = disk s -> writable s' p = writable s p.
Proof.
  unfold disk. intros [= Hd Hf _].
  unfold writable, is_dir, path_exists, is_file. rewrite Hd, Hf. reflexivity.
Qed.

Lemma parent_available_disk (s s' : State) (p : Path) :
  disk s' = disk s -> parent_available s' p = parent_available s p.
Proof.
  unfold disk. intros [= Hd Hf _].
  unfold parent_available, path_exists, is_file. rewrite Hd, Hf. reflexivity.
Qed.

(** ** Where the template goes *)

Lemma configured_dest_ext (h h' : heap) (cfg : loc) (template_name : string) :
  (forall r, deref h' r = deref h r) ->
  configured_dest h' cfg template_name = configured_dest h cfg template_name.
Proof.
  intros H. unfold configured_dest. rewrite (H cfg).
  destruct (Dict.get "templates" (deref h cfg)) as [[]|]; try reflexivity.
  rewrite (H r).
  destruct (Dict.get template_name (deref h r)) as [[]|]; try reflexivity.
  rewrite (H r0). reflexivity.
Qed.

Lemma call_dest (template_name : string) (kwargs : dict) (tc : TemplateConfig) :
  TemplateConfigClass.call template_name kwargs = inr tc ->
  dest_ tc = match Dict.get "dest" kwargs with
             | Some (VStr d) => Some (PathLib.of_str d)
             | Some (VPath d) => Some d
             | _ => None
             end.
Proof.
  unfold TemplateConfigClass.call, TemplateConfigClass.init,
    TemplateConfigClass.check_absolute.
  destruct (forallb _ _); [|discriminate].
  destruct (Dict.get "dest" kwargs) as [[]|]; cbn [default from_option id];
    try discriminate;
    try (destruct (PathLib.is_absolute _); [|discriminate]);
    destruct (default VNone (Dict.get "context" kwargs)); try discriminate;
    intros [= <-]; reflexivity.
Qed.

(** The entries that a first access of [templates] builds carry the
    configured destinations. *)
Lemma templates_fresh_dest (host : Host) (s s1 : State)
    (tmpls : list (string * TemplateConfig)) :
  cached_templates s = None ->
  templates host s = (inr tmpls, s1) ->
  exists cfg sc,
    config host s = (inr cfg, sc)
    /\ s1 = with_cached_templates tmpls sc
    /\ forall template_name,
         dest_ (default (mkTemplateConfig template_name None cls_context_)
                        (Dict.get template_name tmpls))
         = configured_dest (store sc) cfg template_name.
Proof.
  intros Hc. unfold templates. rewrite cached_property_miss by exact Hc.
  unfold catch. unfold bind at 1.
  destruct (config host s) as [[e|cfg] sc] eqn:Hcfg.
  { destruct (is_ImproperlyConfigured e); discriminate. }
  unfold bind at 1. cbn [get_state].
  intros Hrun. exists cfg, sc. split; [reflexivity|].
  unfold configured_dest.
  destruct (Dict.get "templates" (deref (store sc) cfg)) as [tv|] eqn:Ht.
  - destruct tv; try (cbn [raise is_ImproperlyConfigured] in Hrun; discriminate).
    destruct (for_each template_item (deref (store sc) r) sc) as [[e|tm] s2] eqn:Hloop.
    { destruct (is_ImproperlyConfigured e); discriminate. }
    pose proof (for_each_pure template_item template_item_pure _ _ _ _ Hloop) as ->.
    injection Hrun as <- <-. split; [reflexivity|].
    intros template_name.
    pose proof (template_items_get _ _ _ _ Hloop template_name) as Hget.
    destruct (Dict.get template_name (deref (store sc) r)) as [v|].
    + destruct Hget as (c & tc & -> & -> & Hcall).
      cbn [default from_option id]. exact (call_dest _ _ _ Hcall).
    + rewrite Hget. reflexivity.
  - cbn [ret] in Hrun. injection Hrun as <- <-. split; reflexivity.
Qed.

Lemma templates_entries_as_configured (host : Host) (s s1 : State) (cfg : loc)
    (tmpls : list (string * TemplateConfig)) :
  cached_templates s = None ->
  templates host s = (inr tmpls, s1) ->
  cached_config s1 = Some cfg ->
  entries_as_configured s1 cfg.
Proof.
  intros Hc Ht Hcfg.
  destruct (templates_fresh_dest host s s1 tmpls Hc Ht) as (c & sc & Hconf & -> & Hd).
  pose proof (config_result host s sc c Hconf) as Hcc.
  cbn [cached_config with_cached_templates] in Hcfg.
  assert (c = cfg) as -> by congruence.
  intros t [= <-] template_name. exact (Hd template_name).
Qed.

(** The entry that [render_to_disk] works with has the destination
    configured for the template. *)
Lemma locate_dest (host : Host) (s s2 : State) (cfg : loc) (template_name : string)
    (entry : TemplateConfig) (template : Template) :
  entries_as_configured s cfg ->
  locate host template_name s = (inr (entry, template), s2) ->
  cached_config s2 = Some cfg ->
  TemplateConfigClass.dest entry = configured_dest (store s) cfg template_name.
Proof.
  intros Hent Hloc Hcfg.
  unfold locate in Hloc. unfold bind at 1 in Hloc.
  destruct (templates host s) as [[e|tmpls] s1] eqn:Ht; [discriminate|].
  destruct (cached_templates s) as [cached|] eqn:Hc.
  - assert (Hhit : templates host s = (inr cached, s))
      by (unfold templates; apply cached_property_hit, Hc).
    rewrite Hhit in Ht. injection Ht as <- <-.
    unfold bind at 1 in Hloc.
    destruct (all host s) as [[e|backends] s3]; [discriminate|].
    unfold bind at 1 in Hloc.
    destruct (lookup_loop template_name backends None []) as [e|found]; [discriminate|].
    cbn [lift ret] in Hloc. destruct (fst found); [|discriminate].
    injection Hloc as <- _ _. exact (Hent cached Hc template_name).
  - destruct (templates_fresh_dest host s s1 tmpls Hc Ht) as (c & sc & Hconf & -> & Hd).
    pose proof (config_result host s sc c Hconf) as Hcc.
    unfold bind at 1 in Hloc.
    destruct (all host (with_cached_templates tmpls sc)) as [[e|backends] s3] eqn:Hall;
      [discriminate|].
    pose proof (all_settled host c (with_cached_templates tmpls sc) _ _ Hcc Hall) as H3.
    unfold bind at 1 in Hloc.
    destruct (lookup_loop template_name backends None []) as [e|found]; [discriminate|].
    cbn [lift ret] in Hloc. destruct (fst found); [|discriminate].
    injection Hloc as <- _ <-.
    pose proof (st_config _ _ _ H3 c Hcc) as Hc3.
    assert (c = cfg) as -> by congruence.
    unfold TemplateConfigClass.dest. rewrite Hd.
    apply configured_dest_ext.
    destruct (config_shape host s _ _ Hconf) as ([n ->] & _). intros r. apply deref_grown.
Qed.

(** C4. Once the template has been found, the destination is the first
    defined of (1) the call's [dest], (2) the [dest] that the configuration
    gives the template, (3) [<app.path>/static/<template_name>] when the
    template's origin has an app, (4) [STATIC_ROOT / template_name] when
    [STATIC_ROOT] is a non-empty string or a path. With none of them
    defined [render_to_disk] raises [ImproperlyConfigured], naming the
    template. Otherwise it returns that path, the rest of the call going
    through: the file at the path can be written, the context argument is
    [None] or a dictionary, the global context is valid and the template
    renders. *)
Theorem destination_precedence
    (host : Host) (s s2 : State) (cfg : loc) (template_name : string)
    (context_arg dest : value) (entry : TemplateConfig) (template : Template) :
  entries_as_configured s cfg ->
  locate host template_name s = (inr (entry, template), s2) ->
  cached_config s2 = Some cfg ->
  dest_typed dest ->
  dest_typed (default VNone (STATIC_ROOT host)) ->
  (first_defined_destination host template_name dest
     (configured_dest (store s) cfg template_name) template = None ->
   fst (render_to_disk host template_name context_arg dest s)
   = inl (ImproperlyConfigured
            [Lit "Template "; Fmt (VStr template_name);
             Lit " must either be configured with a 'dest' or STATIC_ROOT must be defined in settings, because it was not loaded from an app!"]))
  /\
  (forall p,
     first_defined_destination host template_name dest
       (configured_dest (store s) cfg template_name) template = Some p ->
     writable s p = true ->
     context_arg = VNone
     \/ (exists other, context_arg = VDict other
                       /\ TemplateConfigClass.context entry <> cfg) ->
     cached_context s2 <> None \/ declared_global (store s2) cfg <> None ->
     (forall context, exists text, render template context = inr text) ->
     fst (render_to_disk host template_name context_arg dest s) = inr p).
Proof.
  intros Hent Hloc Hcfg Hdest Hroot.
  pose proof (resolve_dest_spec host (store s2) template_name entry template dest
                Hdest Hroot) as Hres.
  rewrite (locate_dest host s s2 cfg template_name entry template Hent Hloc Hcfg) in Hres.
  split.
  - intros Hnone. rewrite Hnone in Hres.
    rewrite render_to_disk_steps, Hloc, Hres. reflexivity.
  - intros p Hp Hw Harg Hglobal Hrender. rewrite Hp in Hres.
    rewrite <- (writable_disk s s2 p (locate_disk host template_name s _ s2 Hloc)) in Hw.
    destruct (with_parent_of_beside p s2) as (Hh3 & _ & _ & Hc3 & Hx3).
    assert (Hupd : exists s4,
               update_ctx (TemplateConfigClass.context entry) context_arg
                          (with_parent_of p s2) = (inr tt, s4)
               /\ cached_config s4 = Some cfg
               /\ (cached_context s4 <> None \/ declared_global (store s4) cfg <> None)).
    { rewrite Hcfg in Hc3.
      destruct Harg as [-> | (other & -> & Hne)].
      - eexists. split; [reflexivity|]. split; [exact Hc3|].
        rewrite Hx3, Hh3. exact Hglobal.
      - eexists. split; [reflexivity|].
        cbn [store with_store cached_config cached_context]. split; [exact Hc3|].
        rewrite Hx3, Hh3. destruct Hglobal as [Hg|Hg]; [left; exact Hg | right].
        apply declared_global_is_Some_insert; assumption. }
    destruct Hupd as (s4 & Hupd & Hc4 & Hg4).
    destruct (context_succeeds host (with_file p "" s4) cfg) as (g & s6 & Hctx).
    { exact Hc4. }
    { exact Hg4. }
    rewrite (render_to_disk_run host s s2 s4 s6 template_name context_arg dest entry
               template p g Hloc Hres Hw Hupd Hctx).
    destruct (Hrender (Dict.update (deref (store s6) g)
                         (deref (store s6) (TemplateConfigClass.context entry))))
      as [text ->].
    reflexivity.
Qed.

Lemma destination_precedence_witness :
  fst (render_to_disk SampleDest.with_root "fixed.html" VNone (VStr "/tmp/o.html")
         SampleDest.engine)
  = inr (mkPath true ["tmp"; "o.html"])
  /\ fst (render_to_disk SampleDest.with_root "fixed.html" VNone VNone SampleDest.engine)
     = inr (mkPath true ["srv"; "out"; "fixed.html"])
  /\ fst (render_to_disk SampleDest.without_root "plain.html" VNone VNone SampleDest.engine)
     = inl (missing_destination_error "plain.html").
Proof.
  split; [|split].
  - apply (destination_precedence SampleDest.with_root SampleDest.engine
             (snd (locate SampleDest.with_root "fixed.html" SampleDest.engine)) 4
             "fixed.html" VNone (VStr "/tmp/o.html")
             SampleDest.fixed_config SampleDest.plain).
    + intros tmpls H. discriminate H.
    + vm_compute. reflexivity.
    + reflexivity.
    + exact I.
    + exact I.
    + reflexivity.
    + vm_compute. reflexivity.
    + left; reflexivity.
    + right. discriminate.
    + intros context. exists "plain"%string. reflexivity.
  - apply (destination_precedence SampleDest.with_root SampleDest.engine
             (snd (locate SampleDest.with_root "fixed.html" SampleDest.engine)) 4
             "fixed.html" VNone VNone
             SampleDest.fixed_config SampleDest.plain).
    + intros tmpls H. discriminate H.
    + vm_compute. reflexivity.
    + reflexivity.
    + exact I.
    + exact I.
    + reflexivity.
    + vm_compute. reflexivity.
    + left; reflexivity.
    + right. discriminate.
    + intros context. exists "plain"%string. reflexivity.
  - apply (destination_precedence SampleDest.without_root SampleDest.engine
             (snd (locate SampleDest.without_root "plain.html" SampleDest.engine)) 4
             "plain.html" VNone VNone
             SampleDest.plain_config SampleDest.plain).
    + intros tmpls H. discriminate H.
    + vm_compute. reflexivity.
    + reflexivity.
    + exact I.
    + exact I.
    + reflexivity.
Defined.

(** X24. On a newly constructed engine, when the template is found, has a
    destination and the file there can be written, [render_to_disk] calls
    the template's [render] with a context in which every key has the value
    of the latest layer that defines it, the layers being, from first to
    last: the 'settings' entry, the configured global context [G], the
    dictionary [P] that holds the template's context when the engine is
    constructed (the configured one, else the class-level default as it is
    then, with whatever earlier calls have written into it), and the
    [context] argument [O] of the call. The call returns the destination
    unless [render] raises. The layers are dictionaries (distinct keys),
    the one of the template exists, and none of them is the root
    configuration mapping itself. *)
Theorem rendering_context_is_layered
    (host : Host) (world : State) (config_value : value) (cfg : loc)
    (template_name : string) (context_arg dest : value)
    (entry : TemplateConfig) (template : Template) (s2 : State) (p : Path) (G : dict) :
  let s := init config_value world in
  let h := store world in
  let pc := template_context_loc h cfg template_name in
  let P := deref h pc in
  let O := override_layer h context_arg in
  locate host template_name s = (inr (entry, template), s2) ->
  cached_config s2 = Some cfg ->
  first_defined_destination host template_name dest
    (configured_dest h cfg template_name) template = Some p ->
  writable world p = true ->
  dest_typed dest ->
  dest_typed (default VNone (STATIC_ROOT host)) ->
  context_typed context_arg ->
  declared_global h cfg = Some G ->
  Dict.get "context" (deref h cfg) <> Some (VDict cfg) ->
  context_arg <> VDict cfg ->
  pc < length h -> pc <> cfg ->
  List.NoDup (Dict.keys G) -> List.NoDup (Dict.keys P) -> List.NoDup (Dict.keys O) ->
  exists s' final,
    render_to_disk host template_name context_arg dest s
    = (match render template final with
       | inl e => inl e
       | inr _ => inr p
       end, s')
    /\ renders s' = (template, final) :: renders world
    /\ forall k, Dict.get k final = layered_get G P O k.
Proof.
  intros s h pc P O Hloc Hcfg Hfirst Hw Hdest Hroot Htyped HG Hgne Hone Hin Hne
    HndG HndP HndO.
  destruct (locate_fresh host s s2 template_name entry template eq_refl Hloc)
    as (cfg' & Hcfg' & Hst & Hpc).
  assert (cfg' = cfg) as -> by congruence.
  change (store s) with h in Hpc. fold pc in Hpc.
  assert (HP2 : deref (store s2) pc = P) by (apply (st_cells _ _ _ Hst), Hne).
  assert (HO2 : override_layer (store s2) context_arg = O).
  { unfold O, override_layer. destruct context_arg; try reflexivity.
    apply (st_cells _ _ _ Hst). congruence. }
  assert (Hent : entries_as_configured s cfg).
  { intros t H. change (None = Some t) in H. discriminate H. }
  pose proof (resolve_dest_spec host (store s2) template_name entry template dest
                Hdest Hroot) as Hres.
  rewrite (locate_dest host s s2 cfg template_name entry template Hent Hloc Hcfg) in Hres.
  change (store s) with h in Hres. rewrite Hfirst in Hres.
  assert (Hw2 : writable s2 p = true).
  { rewrite (writable_disk s s2 p (locate_disk host template_name s _ s2 Hloc)).
    exact Hw. }
  destruct (render_context_after_locate host s s2 cfg template_name context_arg dest
              entry template p G Hloc Hres Hw2 Hcfg)
    as (s' & final & Hrun & Hrenders & Hget).
  - rewrite (st_context _ _ _ Hst). reflexivity.
  - exact Htyped.
  - apply (declared_global_settled cfg s s2 G Hst Hgne HG).
  - rewrite Hpc. pose proof (st_length _ _ _ Hst) as Hlen.
    change (store s) with h in Hlen. lia.
  - rewrite Hpc. exact Hne.
  - exact HndG.
  - rewrite Hpc, HP2. exact HndP.
  - rewrite HO2. exact HndO.
  - exists s', final. split; [exact Hrun|]. split.
    + rewrite Hrenders, (st_renders _ _ _ Hst). reflexivity.
    + intros k. rewrite Hget, Hpc, HP2, HO2. reflexivity.
Qed.

Lemma rendering_context_is_layered_witness :
  exists s' final,
    render_to_disk SampleRender.host "x.html" SampleRender.override VNone SampleRender.engine
    = (inr (mkPath true ["var"; "static"; "x.html"]), s')
    /\ renders s' = [(SampleRender.page, final)]
    /\ Dict.get "settings" final = Some VSettings
    /\ Dict.get "a" final = Some (VInt 1)
    /\ Dict.get "b" final = Some (VInt 3)
    /\ Dict.get "c" final = Some (VInt 5)
    /\ Dict.get "d" final = Some (VInt 6)
    /\ Dict.get "e" final = None.
Proof.
  destruct (rendering_context_is_layered SampleRender.host SampleRender.world (VDict 4) 4
              "x.html" SampleRender.override VNone
              (mkTemplateConfig "x.html" None 9) SampleRender.page
              (snd (locate SampleRender.host "x.html" SampleRender.engine))
              (mkPath true ["var"; "static"; "x.html"])
              [("a", VInt 1); ("b", VInt 2)])
    as (s' & final & Hrun & Hrenders & Hget);
    try reflexivity; try exact I; try discriminate.
  - vm_compute. lia.
  - repeat constructor; simpl; intuition discriminate.
  - repeat constructor; simpl; intuition discriminate.
  - repeat constructor; simpl; intuition discriminate.
  - exists s', final. split; [exact Hrun|]. split; [exact Hrenders|].
    rewrite !Hget. repeat split.
Defined.

(** What a call of [render_to_disk] that returns has done. *)
Lemma render_to_disk_returns (host : Host) (template_name : string)
    (context_arg dest : value) (s s' : State) (p : Path) :
  render_to_disk host template_name context_arg dest s = (inr p, s') ->
  exists config template s2 final text,
    locate host template_name s = (inr (config, template), s2)
    /\ resolve_dest host (store s2) template_name config template dest = inr p
    /\ normalised p = true
    /\ render template final = inr text
    /\ renders s' = (template, final) :: renders s
    /\ files s' = (p, text) :: files_beside p s
    /\ dirs s' = dirs (with_parent_of p s2)
    /\ disk s2 = disk s
    /\ is_dir s' p = false
    /\ is_dir s' (PathLib.parent p) = true.
Proof.
  rewrite render_to_disk_steps.
  destruct (locate host template_name s) as [[e|[config template]] s2] eqn:Hloc;
    [discriminate|].
  destruct (resolve_dest host (store s2) template_name config template dest) as [e|q] eqn:Hdest;
    [discriminate|].
  destruct (normalised q) eqn:Hnorm; [|discriminate].
  destruct (ensure_parent q s2) as [[e|[]] s3] eqn:Hdirs; [discriminate|].
  destruct (update_ctx (TemplateConfigClass.context config) context_arg s3)
    as [[e|[]] s4] eqn:Hupd; [discriminate|].
  destruct (open_w q s4) as [[e|[]] s5] eqn:Hopen; [discriminate|].
  destruct (context host s5) as [[e|g] s6] eqn:Hctx; [discriminate|].
  cbv zeta. destruct (render template _) as [e|text] eqn:Htext; [discriminate|].
  intros [= <- <-].
  destruct (ensure_parent_cases q s2 _ s3 Hdirs) as [[_ ->] | (e & He & _)]; [|discriminate].
  destruct (open_w_inv q s4 s5 Hopen) as (Hq & Hparent & ->).
  pose proof (locate_disk host template_name s _ s2 Hloc) as H2.
  destruct (update_ctx_frame _ _ _ _ _ Hupd) as (Hd4 & Hf4 & Hr4 & _).
  pose proof (context_disk host _ _ _ Hctx) as H6.
  destruct (with_parent_of_beside q s2) as (_ & Hf & Hr & _).
  assert (Hf2 : files s2 = files s) by (unfold disk in H2; congruence).
  assert (Hr2 : renders s2 = renders s) by (unfold disk in H2; congruence).
  assert (Hd6 : dirs s6 = dirs s4) by (unfold disk in H6; injection H6; auto).
  assert (Hf6 : files s6 = files (with_file q "" s4)) by (unfold disk in H6; congruence).
  assert (Hr6 : renders s6 = renders s4) by (unfold disk in H6; injection H6; auto).
  eexists config, template, s2, _, text.
  split; [reflexivity|]. split; [exact Hdest|]. split; [exact Hnorm|].
  split; [exact Htext|].
  split; [|split; [|split; [|split; [|split]]]].
  - cbn [renders with_file with_files with_renders]. congruence.
  - unfold with_file at 1. cbn [files with_files with_renders]. f_equal.
    fold (files_beside q s6).
    assert (Hb6 : files_beside q s6 = files_beside q (with_file q "" s4))
      by (unfold files_beside; rewrite Hf6; reflexivity).
    rewrite Hb6, files_beside_idem. unfold files_beside. congruence.
  - cbn [dirs with_file with_files with_renders]. congruence.
  - exact H2.
  - rewrite <- Hq. apply is_dir_dirs. cbn [dirs with_file with_files with_renders]. exact Hd6.
  - rewrite <- Hparent. apply is_dir_dirs.
    cbn [dirs with_file with_files with_renders]. exact Hd6.
Qed.

Lemma lookup_loop_last_hit (template_name : string) (before after : list Backend)
    (engine : Backend) (found : Template) :
  Forall (answers template_name) before ->
  get_template engine template_name = inr found ->
  Forall (misses template_name) after ->
  forall template chain,
  exists chain',
    lookup_loop template_name (before ++ engine :: after) template chain
    = inr (Some found, chain').
Proof.
  intros Hb Hf Ha. induction Hb as [|b before Hans _ IH]; intros template chain.
  - cbn [app lookup_loop]. rewrite Hf.
    destruct (lookup_loop_all_miss template_name after Ha (Some found) chain)
      as (chain' & H & _).
    eexists. exact H.
  - cbn [app lookup_loop]. unfold answers in Hans.
    destruct (get_template b template_name) as [e|t]; [rewrite Hans|]; apply IH.
Qed.

Lemma lookup_loop_aborts (template_name : string) (before after : list Backend)
    (engine : Backend) (e : exn) :
  Forall (answers template_name) before ->
  get_template engine template_name = inl e ->
  is_TemplateDoesNotExist e = false ->
  forall template chain,
    lookup_loop template_name (before ++ engine :: after) template chain = inl e.
Proof.
  intros Hb Hf He. induction Hb as [|b before Hans _ IH]; intros template chain.
  - cbn [app lookup_loop]. rewrite Hf, He. reflexivity.
  - cbn [app lookup_loop]. unfold answers in Hans.
    destruct (get_template b template_name) as [e'|t]; [rewrite Hans|]; apply IH.
Qed.

Lemma locate_run (host : Host) (s s1 s2 : State) (template_name : string)
    (tmpls : list (string * TemplateConfig)) (engs : list (string * Backend)) :
  coherent s ->
  templates host s = (inr tmpls, s1) ->
  engines host s1 = (inr engs, s2) ->
  locate host template_name s
  = match lookup_loop template_name (Dict.values engs) None [] with
    | inl e => (inl e, s2)
    | inr (None, chain) => (inl (TemplateDoesNotExist template_name chain), s2)
    | inr (Some template, _) =>
        (inr (default (mkTemplateConfig template_name None cls_context_)
                      (Dict.get template_name tmpls), template), s2)
    end.
Proof.
  intros Hco Ht He.
  assert (Hnd : List.NoDup (Dict.keys engs)).
  { pose proof (templates_coherent host s _ _ Hco Ht) as H1.
    pose proof (engines_coherent host s1 _ _ H1 He) as (_ & _ & H2).
    apply (H2 engs), (engines_result host s1 s2 engs He). }
  unfold locate. unfold bind at 1. rewrite Ht.
  unfold bind at 1. rewrite (all_run host s1 s2 engs He Hnd).
  unfold bind at 1.
  destruct (lookup_loop template_name (Dict.values engs) None []) as [e|[[t|] chain]];
    reflexivity.
Qed.

(** X15. The loop over the backends has no [break]: when several backends
    hold the template, the one that comes last in the order of 'ENGINES' is
    the one whose template is rendered, provided no backend raises anything
    but [TemplateDoesNotExist]. *)
Theorem lookup_takes_the_last_hit
    (host : Host) (s s1 s2 : State) (template_name : string)
    (tmpls : list (string * TemplateConfig)) (engs : list (string * Backend))
    (before after : list Backend) (engine : Backend) (found : Template) :
  coherent s ->
  templates host s = (inr tmpls, s1) ->
  engines host s1 = (inr engs, s2) ->
  Dict.values engs = before ++ engine :: after ->
  Forall (answers template_name) before ->
  get_template engine template_name = inr found ->
  Forall (misses template_name) after ->
  locate host template_name s
  = (inr (default (mkTemplateConfig template_name None cls_context_)
                  (Dict.get template_name tmpls), found), s2)
  /\ forall context_arg dest p s',
       render_to_disk host template_name context_arg dest s = (inr p, s') ->
       exists final text,
         render found final = inr text
         /\ renders s' = (found, final) :: renders s
         /\ files s' = (p, text) :: files_beside p s.
Proof.
  intros Hco Ht He Hvalues Hbefore Hfound Hafter.
  assert (Hloc : locate host template_name s
                 = (inr (default (mkTemplateConfig template_name None cls_context_)
                                 (Dict.get template_name tmpls), found), s2)).
  { rewrite (locate_run host s s1 s2 template_name tmpls engs Hco Ht He), Hvalues.
    destruct (lookup_loop_last_hit template_name before after engine found
                Hbefore Hfound Hafter None []) as (chain' & ->).
    reflexivity. }
  split; [exact Hloc|].
  intros context_arg dest p s' Hrun.
  destruct (render_to_disk_returns host template_name context_arg dest s s' p Hrun)
    as (config & template & s2' & final & text & Hloc' & _ & _ & Htext & Hrenders & Hfiles & _).
  rewrite Hloc in Hloc'. injection Hloc' as _ <- _.
  exists final, text. split; [exact Htext|]. split; assumption.
Qed.

Lemma lookup_takes_the_last_hit_witness :
  locate SampleLookup.host "x.html" SampleLookup.engine
  = (inr (mkTemplateConfig "x.html" None cls_context_, SampleLookup.second_template),
     snd (engines SampleLookup.host (snd (templates SampleLookup.host SampleLookup.engine))))
  /\ forall context_arg dest p s',
       render_to_disk SampleLookup.host "x.html" context_arg dest SampleLookup.engine
       = (inr p, s') ->
       exists final text,
         render SampleLookup.second_template final = inr text
         /\ renders s' = (SampleLookup.second_template, final) :: renders SampleLookup.engine
         /\ files s' = (p, text) :: files_beside p SampleLookup.engine.
Proof.
  apply (lookup_takes_the_last_hit SampleLookup.host SampleLookup.engine
           (snd (templates SampleLookup.host SampleLookup.engine))
           (snd (engines SampleLookup.host
                   (snd (templates SampleLookup.host SampleLookup.engine))))
           "x.html" [] SampleLookup.engs [SampleLookup.first] [] SampleLookup.second
           SampleLookup.second_template).
  - split; [|split].
    + intros H. exfalso. apply H. reflexivity.
    + intros H. exfalso. apply H. reflexivity.
    + intros cached H. discriminate H.
  - reflexivity.
  - reflexivity.
  - reflexivity.
  - repeat constructor.
  - reflexivity.
  - constructor.
Defined.

(** X16. A backend that raises anything but [TemplateDoesNotExist] ends the
    lookup: [render_to_disk] raises that exception, even when an earlier
    backend holds the template, the later backends are not asked, and
    nothing is created, written or rendered. *)
Theorem other_exceptions_end_the_lookup
    (host : Host) (s s1 s2 : State) (template_name : string) (context_arg dest : value)
    (tmpls : list (string * TemplateConfig)) (engs : list (string * Backend))
    (before after : list Backend) (engine : Backend) (e : exn) :
  coherent s ->
  templates host s = (inr tmpls, s1) ->
  engines host s1 = (inr engs, s2) ->
  Dict.values engs = before ++ engine :: after ->
  Forall (answers template_name) before ->
  get_template engine template_name = inl e ->
  is_TemplateDoesNotExist e = false ->
  render_to_disk host template_name context_arg dest s = (inl e, s2)
  /\ disk s2 = disk s.
Proof.
  intros Hco Ht He Hvalues Hbefore Hraise Hother.
  assert (Hloc : locate host template_name s = (inl e, s2)).
  { rewrite (locate_run host s s1 s2 template_name tmpls engs Hco Ht He), Hvalues.
    rewrite (lookup_loop_aborts template_name before after engine e Hbefore Hraise Hother).
    reflexivity. }
  split.
  - rewrite render_to_disk_steps, Hloc. reflexivity.
  - exact (locate_disk host template_name s _ s2 Hloc).
Qed.

Lemma other_exceptions_end_the_lookup_witness :
  render_to_disk SampleCrash.host "x.html" VNone VNone SampleCrash.engine
  = (inl (BackendError "TemplateSyntaxError"),
     snd (engines SampleCrash.host (snd (templates SampleCrash.host SampleCrash.engine))))
  /\ disk (snd (engines SampleCrash.host (snd (templates SampleCrash.host SampleCrash.engine))))
     = disk SampleCrash.engine.
Proof.
  apply (other_exceptions_end_the_lookup SampleCrash.host SampleCrash.engine
           (snd (templates SampleCrash.host SampleCrash.engine))
           (snd (engines SampleCrash.host (snd (templates SampleCrash.host SampleCrash.engine))))
           "x.html" VNone VNone [] SampleCrash.engs
           [SampleLookup.first] [SampleLookup.second] SampleCrash.crashing
           (BackendError "TemplateSyntaxError")).
  - split; [|split].
    + intros H. exfalso. apply H. reflexivity.
    + intros H. exfalso. apply H. reflexivity.
    + intros cached H. discriminate H.
  - reflexivity.
  - reflexivity.
  - reflexivity.
  - repeat constructor.
  - reflexivity.
  - reflexivity.
Defined.

(** X17. Until the destination is known nothing is created, written or
    rendered: a call of [render_to_disk] that fails while it looks the
    template up, or that finds no destination for it, raises that error
    and leaves the disk as it was. *)
Theorem failed_lookup_writes_nothing
    (host : Host) (template_name : string) (context_arg dest : value) (s : State) :
  (forall e s2,
     locate host template_name s = (inl e, s2) ->
     render_to_disk host template_name context_arg dest s = (inl e, s2)
     /\ disk s2 = disk s)
  /\ (forall config template s2 e,
        locate host template_name s = (inr (config, template), s2) ->
        resolve_dest host (store s2) template_name config template dest = inl e ->
        render_to_disk host template_name context_arg dest s = (inl e, s2)
        /\ disk s2 = disk s).
Proof.
  split.
  - intros e s2 Hloc. split; [|exact (locate_disk host template_name s _ s2 Hloc)].
    rewrite render_to_disk_steps, Hloc. reflexivity.
  - intros config template s2 e Hloc Hdest.
    split; [|exact (locate_disk host template_name s _ s2 Hloc)].
    rewrite render_to_disk_steps, Hloc, Hdest. reflexivity.
Qed.

Lemma failed_lookup_writes_nothing_witness :
  (render_to_disk SampleLookup.host "y.html" VNone VNone SampleLookup.engine
   = (inl (TemplateDoesNotExist "y.html"
             [TemplateDoesNotExist "first: y.html" [];
              TemplateDoesNotExist "second: y.html" []]),
      snd (locate SampleLookup.host "y.html" SampleLookup.engine))
   /\ disk (snd (locate SampleLookup.host "y.html" SampleLookup.engine))
      = disk SampleLookup.engine)
  /\ (render_to_disk SampleDest.without_root "plain.html" VNone VNone SampleDest.engine
      = (inl (missing_destination_error "plain.html"),
         snd (locate SampleDest.without_root "plain.html" SampleDest.engine))
      /\ disk (snd (locate SampleDest.without_root "plain.html" SampleDest.engine))
         = disk SampleDest.engine).
Proof.
  split.
  - destruct (failed_lookup_writes_nothing SampleLookup.host "y.html" VNone VNone
                SampleLookup.engine) as (Hlookup & _).
    apply Hlookup. vm_compute. reflexivity.
  - destruct (failed_lookup_writes_nothing SampleDest.without_root "plain.html" VNone VNone
                SampleDest.engine) as (_ & Hdest).
    apply (Hdest SampleDest.plain_config SampleDest.plain).
    + vm_compute. reflexivity.
    + reflexivity.
Defined.




Lemma is_dir_exists (s : State) (p : Path) : is_dir s p = true -> path_exists s p = true.
Proof.
  unfold is_dir, path_exists. destruct (segs p); [reflexivity|].
  intros ->. reflexivity.
Qed.



(** X19. The destination is opened for writing before the global context is
    looked at: when the file at the destination can be written and the
    configured 'context' is not a dictionary, [render_to_disk] raises
    [ImproperlyConfigured] only after it has made the directory and
    emptied the file at the destination; nothing has been rendered. *)
Theorem invalid_context_empties_the_destination
    (host : Host) (s s2 : State) (cfg : loc) (template_name : string)
    (context_arg dest : value) (entry : TemplateConfig) (template : Template)
    (p : Path) (v : value) :
  locate host template_name s = (inr (entry, template), s2) ->
  resolve_dest host (store s2) template_name entry template dest = inr p ->
  writable s p = true ->
  context_typed context_arg ->
  cached_config s2 = Some cfg ->
  cached_context s2 = None ->
  Dict.get "context" (deref (store s2) cfg) = Some v ->
  (forall g, v <> VDict g) ->
  TemplateConfigClass.context entry <> cfg ->
  exists s',
    render_to_disk host template_name context_arg dest s
    = (inl (ImproperlyConfigured
              [Lit "STATIC_TEMPLATES 'context' configuration directive must be a dictionary!"]),
       s')
    /\ files s' = (p, EmptyString) :: files_beside p s
    /\ renders s' = renders s
    /\ is_dir s' (PathLib.parent p) = true.
Proof.
  intros Hloc Hdest Hw Htyped Hcfg Hctx Hv Hnot Hne.
  pose proof (locate_disk host template_name s _ s2 Hloc) as Hdisk.
  rewrite <- (writable_disk s s2 p Hdisk) in Hw.
  assert (Hf2 : files s2 = files s) by (unfold disk in Hdisk; congruence).
  assert (Hr2 : renders s2 = renders s) by (unfold disk in Hdisk; congruence).
  assert (Hnorm : normalised p = true).
  { unfold writable in Hw. apply andb_prop in Hw as [Hw' _].
    apply andb_prop in Hw' as [Hn _]. exact Hn. }
  destruct (with_parent_of_beside p s2) as (Hsp & Hfp & Hrp & Hcp & Hxp).
  destruct (with_parent_of_ready p s2 Hw) as (Hp & Hparent).
  set (pc := TemplateConfigClass.context entry) in *.
  set (s3 := with_parent_of p s2) in *.
  set (s4 := match context_arg with
             | VDict other =>
                 with_store (<[pc := Dict.update (deref (store s3) pc)
                                                 (deref (store s3) other)]> (store s3)) s3
             | _ => s3
             end).
  assert (Hupd : update_ctx pc context_arg s3 = (inr tt, s4))
    by (apply update_ctx_run, Htyped).
  destruct (update_ctx_frame _ _ _ _ _ Hupd) as (Hd4 & Hf4 & Hr4 & Hc4 & Hx4).
  assert (Hcell : deref (store s4) cfg = deref (store s3) cfg).
  { unfold s4. destruct context_arg; try reflexivity.
    cbn [store with_store]. apply deref_insert_ne. exact Hne. }
  assert (Hfail : context host (with_file p "" s4)
                  = (inl (ImproperlyConfigured
                            [Lit "STATIC_TEMPLATES 'context' configuration directive must be a dictionary!"]),
                     with_file p "" s4)).
  { rewrite (context_run host (with_file p "" s4) cfg (with_file p "" s4)).
    - unfold declared_global. cbn [store with_file with_files].
      rewrite Hcell, Hsp, Hv. destruct v; try reflexivity.
      exfalso. exact (Hnot _ eq_refl).
    - cbn [cached_context with_file with_files]. congruence.
    - apply config_cached. cbn [cached_config with_file with_files]. congruence. }
  exists (with_file p "" s4). split; [|split; [|split]].
  - rewrite render_to_disk_steps, Hloc, Hdest, Hnorm.
    fold pc. rewrite (ensure_parent_ok p s2 Hw). fold s3. rewrite Hupd.
    rewrite (open_w_ok p s4) by (rewrite (is_dir_dirs _ _ _ Hd4); assumption).
    rewrite Hfail. reflexivity.
  - unfold with_file. cbn [files with_files]. f_equal. unfold files_beside. congruence.
  - cbn [renders with_file with_files]. congruence.
  - rewrite <- Hparent. apply is_dir_dirs. cbn [dirs with_file with_files]. exact Hd4.
Qed.

Lemma invalid_context_empties_the_destination_witness :
  exists s',
    render_to_disk SampleRender.host "x.html" VNone VNone SampleDisk.broken_engine
    = (inl (ImproperlyConfigured
              [Lit "STATIC_TEMPLATES 'context' configuration directive must be a dictionary!"]),
       s')
    /\ files s' = (mkPath true ["var"; "static"; "x.html"], EmptyString)
                    :: files_beside (mkPath true ["var"; "static"; "x.html"])
                         SampleDisk.broken_engine
    /\ renders s' = renders SampleDisk.broken_engine
    /\ is_dir s' (PathLib.parent (mkPath true ["var"; "static"; "x.html"])) = true.
Proof.
  apply (invalid_context_empties_the_destination SampleRender.host SampleDisk.broken_engine
           (snd (locate SampleRender.host "x.html" SampleDisk.broken_engine)) 4
           "x.html" VNone VNone (mkTemplateConfig "x.html" None cls_context_)
           SampleRender.page (mkPath true ["var"; "static"; "x.html"]) VNone).
  - vm_compute. reflexivity.
  - reflexivity.
  - reflexivity.
  - exact I.
  - reflexivity.
  - reflexivity.
  - reflexivity.
  - intros g. discriminate.
  - discriminate.
Defined.

Lemma templates_settled (host : Host) (cfg : loc) (s : State) r s' :
  templates host s = (r, s') -> settled cfg s s'.
Proof.
  unfold templates, cached_property.
  destruct (cached_templates s); [intros [= _ <-]; apply settled_refl|].
  unfold catch. unfold bind at 1.
  destruct (config host s) as [[e|c] sc] eqn:Hcfg;
    pose proof (config_settled host cfg s _ sc Hcfg) as Hst.
  - destruct (is_ImproperlyConfigured e); intros [= _ <-]; exact Hst.
  - unfold bind at 1. cbn [get_state].
    destruct (Dict.get "templates" (deref (store sc) c)) as [tv|].
    + destruct tv;
        try (cbn [raise is_ImproperlyConfigured]; intros [= _ <-]; exact Hst).
      destruct (for_each template_item (deref (store sc) r0) sc) as [[e|tm] s2] eqn:Hloop;
        pose proof (for_each_pure template_item template_item_pure _ _ _ _ Hloop) as ->.
      * destruct (is_ImproperlyConfigured e); intros [= _ <-]; exact Hst.
      * intros [= _ <-].
        eapply settled_trans; [exact Hst | apply with_cached_templates_settled].
    + cbn [ret]. intros [= _ <-].
      eapply settled_trans; [exact Hst | apply with_cached_templates_settled].
Qed.

Lemma templates_config (host : Host) (cfg : loc) (s s0 s1 : State)
    (tmpls : list (string * TemplateConfig)) :
  coherent s ->
  config host s = (inr cfg, s0) ->
  templates host s = (inr tmpls, s1) ->
  cached_config s1 = Some cfg.
Proof.
  intros Hco Hcfg Ht.
  destruct (cached_templates s) as [tm|] eqn:Hc.
  - unfold templates in Ht. rewrite (cached_property_hit _ _ _ s tm Hc) in Ht.
    injection Ht as _ <-.
    destruct Hco as (Hct & _).
    destruct (cached_config s) as [c|] eqn:Hcc; [|exfalso; apply Hct; congruence].
    rewrite (config_cached host s c Hcc) in Hcfg. congruence.
  - destruct (templates_fresh host s s1 tmpls Hc Ht) as (cfg' & sc & Hcfg' & -> & _).
    rewrite Hcfg in Hcfg'. injection Hcfg' as -> ->.
    cbn [cached_config with_cached_templates]. exact (config_result host s sc cfg' Hcfg).
Qed.

Lemma locate_settled (host : Host) (cfg : loc) (template_name : string) (s s0 : State) r s' :
  coherent s ->
  config host s = (inr cfg, s0) ->
  locate host template_name s = (r, s') ->
  settled cfg s s'.
Proof.
  intros Hco Hcfg. unfold locate. unfold bind at 1.
  destruct (templates host s) as [[e|tmpls] s1] eqn:Ht;
    pose proof (templates_settled host cfg s _ s1 Ht) as H1.
  - intros [= _ <-]. exact H1.
  - pose proof (templates_config host cfg s s0 s1 tmpls Hco Hcfg Ht) as Hc1.
    unfold bind at 1.
    destruct (all host s1) as [[e|backends] s2] eqn:Hall;
      pose proof (all_settled host cfg s1 _ s2 Hc1 Hall) as H2;
      pose proof (settled_trans cfg _ _ _ H1 H2) as H12.
    + intros [= _ <-]. exact H12.
    + unfold bind at 1.
      destruct (lookup_loop template_name backends None []) as [e|found];
        cbn [lift ret raise]; [intros [= _ <-]; exact H12|].
      destruct (fst found); intros [= _ <-]; exact H12.
Qed.

Lemma context_store (host : Host) (s : State) r s' :
  context host s = (r, s') -> exists ext, store s' = store s ++ ext.
Proof.
  destruct (cached_context s) as [g|] eqn:Hc.
  - unfold context. rewrite (cached_property_hit _ _ _ s g Hc). intros [= _ <-].
    exists []. rewrite app_nil_r. reflexivity.
  - destruct (config host s) as [[e|cfg] s1] eqn:Hcfg;
      destruct (config_shape host s _ s1 Hcfg) as ([n Hn] & _ & _).
    + unfold context. rewrite cached_property_miss by exact Hc.
      unfold bind at 1. rewrite Hcfg. intros [= _ <-]. eauto.
    + rewrite (context_run host s cfg s1 Hc Hcfg).
      destruct (declared_global (store s1) cfg); intros [= _ <-]; [|eauto].
      cbn [store with_store with_cached_context]. rewrite Hn, <- app_assoc. eauto.
Qed.

Lemma deref_extended (h ext : heap) (r : loc) :
  r < length h -> deref (h ++ ext) r = deref h r.
Proof. intros H. unfold deref. rewrite lookup_app_l by exact H. reflexivity. Qed.

(** What a call of [render_to_disk] does to the store, once the template
    is located and its destination known: the update of the template's
    context when the call gets that far, and new dictionaries. *)
Lemma render_to_disk_store (host : Host) (template_name : string)
    (context_arg dest : value) (s s2 : State) (entry : TemplateConfig)
    (template : Template) (p : Path) r s' :
  locate host template_name s = (inr (entry, template), s2) ->
  resolve_dest host (store s2) template_name entry template dest = inr p ->
  render_to_disk host template_name context_arg dest s = (r, s') ->
  exists ext,
    store s'
    = (if normalised p && parent_available s2 p then
         match context_arg with
         | VDict other =>
             <[TemplateConfigClass.context entry :=
                 Dict.update (deref (store s2) (TemplateConfigClass.context entry))
                             (deref (store s2) other)]> (store s2)
         | _ => store s2
         end
       else store s2) ++ ext.
Proof.
  intros Hloc Hdest. rewrite render_to_disk_steps, Hloc, Hdest.
  destruct (normalised p); cbn [andb];
    [|intros [= _ <-]; exists []; rewrite app_nil_r; reflexivity].
  rewrite ensure_parent_run.
  destruct (parent_available s2 p);
    [|intros [= _ <-]; exists []; rewrite app_nil_r; reflexivity].
  destruct (with_parent_of_beside p s2) as (Hsp & _).
  destruct (update_ctx (TemplateConfigClass.context entry) context_arg (with_parent_of p s2))
    as [r4 s4] eqn:Hupd.
  assert (H4 : store s4
               = match context_arg with
                 | VDict other =>
                     <[TemplateConfigClass.context entry :=
                         Dict.update (deref (store s2) (TemplateConfigClass.context entry))
                                     (deref (store s2) other)]> (store s2)
                 | _ => store s2
                 end).
  { destruct context_arg;
      cbv [update_ctx bind get_state store_set modify ret raise] in Hupd;
      injection Hupd as _ <-; cbn [store with_store]; rewrite ?Hsp; reflexivity. }
  rewrite <- H4.
  destruct r4 as [e|[]]; [intros [= _ <-]; exists []; rewrite app_nil_r; reflexivity|].
  destruct (open_w p s4) as [r5 s5] eqn:Hopen.
  assert (H5 : store s5 = store s4).
  { destruct (open_w_cases p s4 r5 s5 Hopen) as [[_ ->] | (e & _ & ->)]; reflexivity. }
  rewrite <- H5.
  destruct r5 as [e|[]]; [intros [= _ <-]; exists []; rewrite app_nil_r; reflexivity|].
  destruct (context host s5) as [[e|g] s6] eqn:Hctx;
    destruct (context_store host _ _ _ Hctx) as [ext Hext].
  - intros [= _ <-]. exists ext. exact Hext.
  - cbv zeta. destruct (render template _); intros [= _ <-]; exists ext; exact Hext.
Qed.

(** X20. Without a [context] argument [render_to_disk] changes none of the
    dictionaries that exist when it is called, however it ends: every one
    of them other than the configuration is as it was, and so is every key
    of the configuration but 'ENGINES' (which [engines] fills in when it is
    absent). *)
Theorem rendering_without_override_keeps_the_dictionaries
    (host : Host) (s s0 : State) (cfg : loc) (template_name : string) (dest : value)
    r s' :
  coherent s ->
  config host s = (inr cfg, s0) ->
  render_to_disk host template_name VNone dest s = (r, s') ->
  length (store s) <= length (store s')
  /\ (forall l, l < length (store s) -> l <> cfg ->
                deref (store s') l = deref (store s) l)
  /\ (cfg < length (store s) ->
      forall k, k <> "ENGINES" ->
                Dict.get k (deref (store s') cfg) = Dict.get k (deref (store s) cfg)).
Proof.
  intros Hco Hcfg Hrun.
  assert (Hsettled : forall s2, settled cfg s s2 ->
            length (store s) <= length (store s2)
            /\ (forall l, l < length (store s) -> l <> cfg ->
                          deref (store s2) l = deref (store s) l)
            /\ (cfg < length (store s) ->
                forall k, k <> "ENGINES" ->
                          Dict.get k (deref (store s2) cfg) = Dict.get k (deref (store s) cfg))).
  { intros s2 Hst. split; [exact (st_length _ _ _ Hst)|]. split.
    - intros l _ Hl. exact (st_cells _ _ _ Hst l Hl).
    - intros _ k Hk. exact (st_root _ _ _ Hst k Hk). }
  destruct (locate host template_name s) as [[e|[entry template]] s2] eqn:Hloc.
  { rewrite render_to_disk_steps, Hloc in Hrun. injection Hrun as _ <-.
    apply Hsettled, (locate_settled host cfg template_name s s0 _ s2 Hco Hcfg Hloc). }
  pose proof (locate_settled host cfg template_name s s0 _ s2 Hco Hcfg Hloc) as Hst.
  destruct (resolve_dest host (store s2) template_name entry template dest) as [e|p] eqn:Hdest.
  { rewrite render_to_disk_steps, Hloc, Hdest in Hrun. injection Hrun as _ <-.
    apply Hsettled, Hst. }
  destruct (render_to_disk_store host template_name VNone dest s s2 entry template p r s'
              Hloc Hdest Hrun) as [ext Hext].
  assert (Hext' : store s' = store s2 ++ ext).
  { rewrite Hext. destruct (normalised p && parent_available s2 p); reflexivity. }
  destruct (Hsettled s2 Hst) as (Hlen & Hcells & Hroot).
  rewrite Hext'. split; [rewrite length_app; lia|]. split.
  - intros l Hl Hne. rewrite deref_extended by lia. apply Hcells; assumption.
  - intros Hin k Hk. rewrite deref_extended by lia. apply Hroot; assumption.
Qed.

Lemma rendering_without_override_keeps_the_dictionaries_witness :
  length (store SampleRender.engine)
  <= length (store (snd (render_to_disk SampleRender.host "x.html" VNone VNone
                           SampleRender.engine)))
  /\ (forall l, l < length (store SampleRender.engine) -> l <> 4 ->
                deref (store (snd (render_to_disk SampleRender.host "x.html" VNone VNone
                                     SampleRender.engine))) l
                = deref (store SampleRender.engine) l)
  /\ (4 < length (store SampleRender.engine) ->
      forall k, k <> "ENGINES" ->
                Dict.get k (deref (store (snd (render_to_disk SampleRender.host "x.html"
                                                 VNone VNone SampleRender.engine))) 4)
                = Dict.get k (deref (store SampleRender.engine) 4)).
Proof.
  apply (rendering_without_override_keeps_the_dictionaries SampleRender.host
           SampleRender.engine (with_cached_config 4 SampleRender.engine) 4 "x.html" VNone
           (fst (render_to_disk SampleRender.host "x.html" VNone VNone SampleRender.engine))
           (snd (render_to_disk SampleRender.host "x.html" VNone VNone SampleRender.engine))).
  - split; [|split].
    + intros H. exfalso. apply H. reflexivity.
    + intros H. exfalso. apply H. reflexivity.
    + intros cached H. discriminate H.
  - reflexivity.
  - vm_compute. reflexivity.
Defined.

(** X21. With a [context] argument, [render_to_disk] writes the argument
    into the dictionary that holds the template's own context, the one of
    the configuration (or the class-level default): once the template is
    located, its destination is a path of the model and the directory of
    the destination exists or has been made, that dictionary is replaced
    by its update with the argument, whether or not the call then
    succeeds, and it is the only dictionary besides the configuration that
    changes. *)
Theorem override_is_written_into_the_template_context
    (host : Host) (s s0 s2 : State) (cfg other : loc) (template_name : string)
    (dest : value) (entry : TemplateConfig) (template : Template) (p : Path) r s' :
  coherent s ->
  config host s = (inr cfg, s0) ->
  locate host template_name s = (inr (entry, template), s2) ->
  resolve_dest host (store s2) template_name entry template dest = inr p ->
  normalised p = true ->
  parent_available s p = true ->
  TemplateConfigClass.context entry < length (store s) ->
  TemplateConfigClass.context entry <> cfg ->
  other <> cfg ->
  render_to_disk host template_name (VDict other) dest s = (r, s') ->
  deref (store s') (TemplateConfigClass.context entry)
  = Dict.update (deref (store s) (TemplateConfigClass.context entry))
                (deref (store s) other)
  /\ forall l, l < length (store s) -> l <> cfg -> l <> TemplateConfigClass.context entry ->
               deref (store s') l = deref (store s) l.
Proof.
  intros Hco Hcfg Hloc Hdest Hnorm Havail Hin Hne Hother Hrun.
  pose proof (locate_settled host cfg template_name s s0 _ s2 Hco Hcfg Hloc) as Hst.
  pose proof (st_length _ _ _ Hst) as Hlen.
  pose proof (locate_disk host template_name s _ s2 Hloc) as Hdisk.
  rewrite <- (parent_available_disk s s2 p Hdisk) in Havail.
  destruct (render_to_disk_store host template_name (VDict other) dest s s2 entry template
              p r s' Hloc Hdest Hrun) as [ext Hext].
  rewrite Hnorm, Havail in Hext. cbn [andb] in Hext.
  set (pc := TemplateConfigClass.context entry) in *.
  rewrite Hext. split.
  - rewrite deref_extended by (rewrite length_insert; lia).
    rewrite deref_insert_eq by lia.
    rewrite (st_cells _ _ _ Hst pc Hne), (st_cells _ _ _ Hst other Hother). reflexivity.
  - intros l Hl Hlc Hlp.
    rewrite deref_extended by (rewrite length_insert; lia).
    rewrite deref_insert_ne by congruence.
    exact (st_cells _ _ _ Hst l Hlc).
Qed.

Lemma override_is_written_into_the_template_context_witness :
  deref (store (snd (render_to_disk SampleRender.host "z.html" SampleRender.override VNone
                       SampleRender.engine))) cls_context_
  = Dict.update (deref (store SampleRender.engine) cls_context_)
                (deref (store SampleRender.engine) 10)
  /\ forall l, l < length (store SampleRender.engine) -> l <> 4 -> l <> cls_context_ ->
               deref (store (snd (render_to_disk SampleRender.host "z.html"
                                    SampleRender.override VNone SampleRender.engine))) l
               = deref (store SampleRender.engine) l.
Proof.
  apply (override_is_written_into_the_template_context SampleRender.host
           SampleRender.engine (with_cached_config 4 SampleRender.engine)
           (snd (locate SampleRender.host "z.html" SampleRender.engine)) 4 10 "z.html" VNone
           (mkTemplateConfig "z.html" None cls_context_) SampleRender.page
           (mkPath true ["var"; "static"; "z.html"])
           (fst (render_to_disk SampleRender.host "z.html" SampleRender.override VNone
                   SampleRender.engine))).
  - split; [|split].
    + intros H. exfalso. apply H. reflexivity.
    + intros H. exfalso. apply H. reflexivity.
    + intros cached H. discriminate H.
  - reflexivity.
  - vm_compute. reflexivity.
  - reflexivity.
  - reflexivity.
  - reflexivity.
  - vm_compute. lia.
  - discriminate.
  - discriminate.
  - vm_compute. reflexivity.
Defined.

(** X22. The entries of [templates] do not copy the configured contexts:
    the context of the entry used for a template name is the very
    dictionary configured under ['templates'][name]['context'], and for
    every name without one (configured or not) it is the one class-level
    dictionary of [TemplateConfig], shared by all of them. *)
Theorem template_contexts_are_shared
    (host : Host) (s s1 : State) (tmpls : list (string * TemplateConfig)) :
  cached_templates s = None ->
  templates host s = (inr tmpls, s1) ->
  exists cfg sc,
    config host s = (inr cfg, sc)
    /\ forall template_name,
         TemplateConfigClass.context
           (default (mkTemplateConfig template_name None cls_context_)
                    (Dict.get template_name tmpls))
         = match Dict.get template_name (configured_templates (store sc) cfg) with
           | Some (VDict c) =>
               match Dict.get "context" (deref (store sc) c) with
               | Some (VDict pc) => pc
               | _ => cls_context_
               end
           | _ => cls_context_
           end.
Proof.
  intros Hc Ht.
  destruct (templates_fresh host s s1 tmpls Hc Ht) as (cfg & sc & Hcfg & _ & Hctx).
  exists cfg, sc. split; [exact Hcfg|].
  intros template_name. unfold TemplateConfigClass.context. rewrite Hctx.
  unfold template_context_loc, configured_templates.
  destruct (Dict.get "templates" (deref (store sc) cfg)) as [tv|]; [|reflexivity].
  destruct tv; reflexivity.
Qed.

Lemma template_contexts_are_shared_witness :
  exists cfg sc,
    config Sample.bare_host (init (VDict 4) SampleTemplates.three) = (inr cfg, sc)
    /\ forall template_name,
         TemplateConfigClass.context
           (default (mkTemplateConfig template_name None cls_context_)
                    (Dict.get template_name SampleTemplates.three_entries))
         = match Dict.get template_name (configured_templates (store sc) cfg) with
           | Some (VDict c) =>
               match Dict.get "context" (deref (store sc) c) with
               | Some (VDict pc) => pc
               | _ => cls_context_
               end
           | _ => cls_context_
           end.
Proof.
  apply (template_contexts_are_shared Sample.bare_host (init (VDict 4) SampleTemplates.three)
           (with_cached_templates SampleTemplates.three_entries
              (with_cached_config 4 (init (VDict 4) SampleTemplates.three)))).
  - reflexivity.
  - reflexivity.
Defined.

Lemma split_last (c : ascii) (s : string) :
  let pieces := Str.split c s in
  contains c (Str.last_item pieces) = false
  /\ ((length pieces = 1 /\ s = Str.last_item pieces /\ contains c s = false)
      \/ (2 <= length pieces
          /\ exists pre, s = String.append pre (String c (Str.last_item pieces)))).
Proof.
  unfold Str.last_item. induction s as [|a rest IH]; cbv zeta in *.
  - split; [reflexivity|]. left. split; [reflexivity|]. split; reflexivity.
  - destruct IH as (Hno & Hshape).
    pose proof (split_nonempty c rest) as Hne.
    destruct (Ascii.eqb_spec a c) as [Heq|Hac].
    + subst a.
      assert (Hcut : Str.split c (String c rest) = EmptyString :: Str.split c rest).
      { cbn [Str.split]. rewrite Ascii.eqb_refl. reflexivity. }
      rewrite Hcut. rewrite (last_cons_nonempty EmptyString (Str.split c rest) EmptyString Hne).
      split; [exact Hno|]. right. split.
      * cbn [length]. destruct (Str.split c rest) as [|w ws] eqn:Hsplit;
          [congruence | cbn [length]; lia].
      * destruct Hshape as [(_ & Hs & _) | (_ & pre & Hs)].
        -- exists EmptyString. exact (f_equal (String c) Hs).
        -- exists (String c pre). exact (f_equal (String c) Hs).
    + destruct (Str.split c rest) as [|w ws] eqn:Hsplit; [congruence|].
      rewrite ?Hsplit in Hno, Hshape.
      assert (Hcut : Str.split c (String a rest) = String a w :: ws).
      { cbn [Str.split]. rewrite Hsplit.
        destruct (Ascii.eqb_spec a c); [contradiction | reflexivity]. }
      rewrite Hcut. destruct ws as [|w' ws].
      * change (List.last [w] EmptyString) with w in Hno, Hshape.
        change (List.last [String a w] EmptyString) with (String a w).
        cbn [length] in *.
        destruct Hshape as [(_ & Hs & Hc) | (Hlen & _)]; [|lia].
        assert (Hstep : forall t, contains c t = false -> contains c (String a t) = false).
        { intros t Ht. cbn [contains]. rewrite Ht.
          destruct (Ascii.eqb_spec a c); [contradiction | reflexivity]. }
        split; [exact (Hstep w Hno)|].
        left. split; [reflexivity|]. split.
        -- exact (f_equal (String a) Hs).
        -- exact (Hstep rest Hc).
      * rewrite (last_cons_nonempty (String a w) (w' :: ws) EmptyString) by discriminate.
        rewrite (last_cons_nonempty w (w' :: ws) EmptyString) in Hno, Hshape by discriminate.
        split; [exact Hno|]. right. split; [cbn [length]; lia|].
        destruct Hshape as [(Hlen & _) | (_ & pre & Hs)]; [cbn [length] in Hlen; lia|].
        exists (String a pre). exact (f_equal (String a) Hs).
Qed.

Lemma contains_after (c : ascii) (pre rest : string) :
  contains c (String.append pre (String c rest)) = true.
Proof.
  induction pre as [|a pre IH].
  - change (contains c (String c rest) = true). cbn [contains].
    rewrite Ascii.eqb_refl. reflexivity.
  - change (contains c (String a (String.append pre (String c rest))) = true).
    cbn [contains]. rewrite IH. apply orb_true_r.
Qed.

(** X23. Every string is accepted as BACKEND: for a definition without
    NAME the alias is what follows the last dot of BACKEND, and the whole of
    BACKEND when it has no dot; reading such a definition raises nothing
    (a BACKEND without a dot is no error). *)
Theorem alias_is_the_last_segment
    (s : State) (b : loc) (path : string) :
  List.NoDup (Dict.keys (deref (store s) b)) ->
  Dict.get "BACKEND" (deref (store s) b) = Some (VStr path) ->
  Dict.get "NAME" (deref (store s) b) = None ->
  exists alias merged,
    backend_entry (VDict b) s = (inr (alias, merged), with_store (store s ++ [[]]) s)
    /\ Dict.get "NAME" merged = Some (VStr alias)
    /\ contains "." alias = false
    /\ (if contains "." path
        then exists pre, path = String.append pre (String "." alias)
        else alias = path).
Proof.
  intros Hnd Hb Hn.
  set (alias := Str.last_item (Str.split "." path)).
  assert (Hres : resolves_to (store s) (VDict b) alias).
  { exists b, path. repeat split; auto. }
  destruct (backend_entry_built s (VDict b) alias Hres) as (merged & Hrun & Hbuilt).
  destruct Hbuilt as (b' & path' & o & _ & _ & _ & _ & _ & Hname).
  exists alias, merged. split; [exact Hrun|]. split; [exact Hname|].
  pose proof (split_last "." path) as Hlast. cbv zeta in Hlast.
  destruct Hlast as (Hno & Hshape).
  split; [exact Hno|].
  destruct Hshape as [(_ & Hs & Hc) | (_ & pre & Hs)].
  - rewrite Hc. symmetry. exact Hs.
  - assert (Hdot : contains "." path = true).
    { rewrite Hs at 1. apply contains_after. }
    rewrite Hdot. exists pre. exact Hs.
Qed.

Lemma alias_is_the_last_segment_witness :
  exists alias merged,
    backend_entry (VDict 5) SampleEngines.dotless
    = (inr (alias, merged),
       with_store (store SampleEngines.dotless ++ [[]]) SampleEngines.dotless)
    /\ Dict.get "NAME" merged = Some (VStr alias)
    /\ contains "." alias = false
    /\ (if contains "." "dotless"
        then exists pre, "dotless" = String.append pre (String "." alias)
        else alias = "dotless").
Proof.
  apply (alias_is_the_last_segment SampleEngines.dotless 5 "dotless").
  - repeat constructor; simpl; intuition discriminate.
  - reflexivity.
  - reflexivity.
Defined.
